(** * Gramedia display-competition form: submission record model and
      image-ingestion pipeline.

    A shallow embedding of [src/app.py] (class [GramediaDisplayHandler] and
    the submit branch of [main]).  Python values are embedded as follows.

    - [str] is [string]; a character is a code point below 256 and the
      classification predicates [isalnum] and [isspace] follow Python's
      Unicode tables on that range.
    - [Optional[str]] is [option string]; Python truthiness of such a value
      is [truthy].
    - The remote resources the handler talks to (bucket, worksheets) are
      part of the explicit state [World]; what the outside world decides
      (clock, uuid4, whether a remote call raises) is read from explicit
      environment records.
    - The Streamlit calls [st.error], [st.warning], ... append to a message
      log kept in the state; a message is recorded by its level and its
      fixed text, without the leading pictogram and without the text of
      the exception that caused it.
    - An exception caught by one of the [try] blocks is a [None] or
      [false] result of the call that raises, followed by what the
      [except] branch does. *)

From Stdlib Require Import ZArith NArith List String Ascii Bool Lia.
From Stdlib Require Import Sorting.Sorted Permutation.
Import ListNotations.

Local Open Scope string_scope.

(** ** Python [str] primitives *)

Module PyStr.

Definition code (c : ascii) : N := N_of_ascii c.

Definition in_range (lo hi : N) (c : ascii) : bool :=
  ((lo <=? code c) && (code c <=? hi))%N.

Definition is_code (n : N) (c : ascii) : bool := (code c =? n)%N.

(** [str.isalnum] on one character: alphabetic, decimal, digit or numeric.
    Below 256 these are the ASCII letters and digits, the ordinal
    indicators, the micro sign, the superscript digits, the vulgar
    fractions and the Latin-1 letters (multiplication and division signs
    excluded). *)
Definition isalnum (c : ascii) : bool :=
  in_range 48 57 c || in_range 65 90 c || in_range 97 122 c
  || is_code 170 c || is_code 178 c || is_code 179 c || is_code 181 c
  || is_code 185 c || is_code 186 c || in_range 188 190 c
  || in_range 192 214 c || in_range 216 246 c || in_range 248 255 c.

(** [str.isspace] on one character: the characters [str.strip()] removes. *)
Definition isspace (c : ascii) : bool :=
  in_range 9 13 c || in_range 28 32 c || is_code 133 c || is_code 160 c.

Definition space : ascii := " "%char.
Definition hyphen : ascii := "-"%char.
Definition underscore : ascii := "_"%char.

(** ["".join(c for c in s if p c)] *)
Fixpoint join_filter (p : ascii -> bool) (s : string) : string :=
  match s with
  | EmptyString => EmptyString
  | String c t => if p c then String c (join_filter p t) else join_filter p t
  end.

Fixpoint lstrip (s : string) : string :=
  match s with
  | EmptyString => EmptyString
  | String c t => if isspace c then lstrip t else s
  end.

Fixpoint rstrip (s : string) : string :=
  match s with
  | EmptyString => EmptyString
  | String c t =>
      match rstrip t with
      | EmptyString => if isspace c then EmptyString else String c EmptyString
      | t' => String c t'
      end
  end.

(** [s.strip()] *)
Definition strip (s : string) : string := lstrip (rstrip s).

(** [s.replace(old, new)] for one-character [old] and [new]. *)
Fixpoint replace (old new : ascii) (s : string) : string :=
  match s with
  | EmptyString => EmptyString
  | String c t =>
      String (if Ascii.eqb c old then new else c) (replace old new t)
  end.

(** Every character of [s] satisfies [p]. *)
Fixpoint all_chars (p : ascii -> bool) (s : string) : bool :=
  match s with
  | EmptyString => true
  | String c t => p c && all_chars p t
  end.

(** [sub in s] *)
Fixpoint contains (sub s : string) : bool :=
  String.prefix sub s
  || match s with
     | EmptyString => false
     | String _ t => contains sub t
     end.

(** Truthiness of an [Optional[str]]: [None] and [""] are falsy. *)
Definition truthy (v : option string) : bool :=
  match v with
  | Some (String _ _) => true
  | _ => false
  end.

(** Fixed-width rendering of a number in a base up to 16, most significant
    digit first, as [%0<width>d] and [%0<width>x] produce for numbers that
    fit. *)
Definition digit_char (d : N) : ascii :=
  if (d <? 10)%N then ascii_of_N (48 + d) else ascii_of_N (87 + d).

Fixpoint digits_fixed (base : N) (width : nat) (n : N) : string :=
  match width with
  | O => EmptyString
  | S w =>
      digits_fixed base w (n / base)
      ++ String (digit_char (n mod base)) EmptyString
  end.

Definition is_hex_digit (c : ascii) : bool :=
  in_range 48 57 c || in_range 97 102 c.

End PyStr.

Import PyStr.

(** ** Path sanitisation ([upload_image], the two "clean names" lines) *)

(** The generator's test [c.isalnum() or c in (' ', '-', '_')]. *)
Definition kept (c : ascii) : bool :=
  isalnum c || (Ascii.eqb c space || Ascii.eqb c hyphen || Ascii.eqb c underscore).

(** ["".join(c for c in name if ...).strip().replace(' ', '_')], the
    expression bound to [clean_store] and to [clean_employee]. *)
Definition clean_name (name : string) : string :=
  replace space underscore (strip (join_filter kept name)).

(** The characters of a name that go into the path as they are:
    alphanumerics and hyphens (a space becomes an underscore or is
    stripped, and an underscore cannot be told from a former space). *)
Definition solid (c : ascii) : bool := isalnum c || Ascii.eqb c hyphen.

(** Characters a cleaned name is made of. *)
Definition clean_char (c : ascii) : bool :=
  isalnum c || (Ascii.eqb c hyphen || Ascii.eqb c underscore).

(** ** Clock and identifiers *)

(** A reading of [datetime.now()] (or a [date]; then the time fields are
    not used). *)
Record Datetime := mkDatetime {
  year : N; month : N; day : N;
  hour : N; minute : N; second : N
}.

(** [strftime("%Y-%m-%d")] *)
Definition strftime_date (d : Datetime) : string :=
  digits_fixed 10 4 (year d) ++ "-" ++ digits_fixed 10 2 (month d)
  ++ "-" ++ digits_fixed 10 2 (day d).

(** [strftime("%H%M%S")] *)
Definition strftime_time (d : Datetime) : string :=
  digits_fixed 10 2 (hour d) ++ digits_fixed 10 2 (minute d)
  ++ digits_fixed 10 2 (second d).

(** [strftime("%Y-%m-%d %H:%M:%S")] *)
Definition strftime_stamp (d : Datetime) : string :=
  strftime_date d ++ " " ++ digits_fixed 10 2 (hour d) ++ ":"
  ++ digits_fixed 10 2 (minute d) ++ ":" ++ digits_fixed 10 2 (second d).

(** [str(u)] for a [uuid.UUID] with integer value [u]: 32 hexadecimal
    digits grouped 8-4-4-4-12. *)
Definition uuid_str (u : N) : string :=
  let hex := digits_fixed 16 32 u in
  substring 0 8 hex ++ "-" ++ substring 8 4 hex ++ "-"
  ++ substring 12 4 hex ++ "-" ++ substring 16 4 hex ++ "-"
  ++ substring 20 12 hex.

(** [str(uuid.uuid4())[:8]] *)
Definition unique_id (u : N) : string := substring 0 8 (uuid_str u).

(** ** Images (the part of PIL the handler relies on) *)

Inductive Mode : Set :=
  | M_1 | M_L | M_LA | M_P | M_PA | M_RGB | M_RGBA | M_RGBX
  | M_CMYK | M_YCbCr | M_I | M_I16 | M_F.

Definition mode_name (m : Mode) : string :=
  match m with
  | M_1 => "1" | M_L => "L" | M_LA => "LA" | M_P => "P" | M_PA => "PA"
  | M_RGB => "RGB" | M_RGBA => "RGBA" | M_RGBX => "RGBX"
  | M_CMYK => "CMYK" | M_YCbCr => "YCbCr" | M_I => "I" | M_I16 => "I;16"
  | M_F => "F"
  end.

(** The mode has a transparency band. *)
Definition has_alpha (m : Mode) : bool :=
  match m with M_LA | M_PA | M_RGBA => true | _ => false end.

(** The pixels are indices into a colour table. *)
Definition has_palette (m : Mode) : bool :=
  match m with M_P | M_PA => true | _ => false end.

(** Modes PIL's JPEG encoder writes; [save] raises on the others. *)
Definition jpeg_writable (m : Mode) : bool :=
  match m with
  | M_1 | M_L | M_RGB | M_RGBX | M_CMYK | M_YCbCr => true
  | _ => false
  end.

Record Image := mkImage {
  width : Z;
  height : Z;
  mode : Mode;
  orientation : Z          (* EXIF tag 0x0112; 1 when absent *)
}.

(** [ImageOps.exif_transpose]: orientations 5 to 8 turn the picture by a
    quarter, which swaps the axes; the tag is removed from the result. *)
Definition exif_transpose (im : Image) : Image :=
  if ((5 <=? orientation im) && (orientation im <=? 8))%Z
  then mkImage (height im) (width im) (mode im) 1
  else mkImage (width im) (height im) (mode im) 1.

(** [image.convert(m)] *)
Definition convert (m : Mode) (im : Image) : Image :=
  mkImage (width im) (height im) m (orientation im).

(** [image.resize((w, h), LANCZOS)]; PIL raises unless both are positive. *)
Definition resize (w h : Z) (im : Image) : option Image :=
  if ((1 <=? w) && (1 <=? h))%Z
  then Some (mkImage w h (mode im) (orientation im))
  else None.

(** The size handed to [resize] (the two branches computing [new_width]
    and [new_height]).  [int(a / b)] truncates the true quotient; for the
    non-negative sizes of an image that is [a / b] on [Z]. *)
Definition new_size (w h : Z) : Z * Z :=
  if (w >? h)%Z
  then (1920, (1920 * h) / w)%Z
  else ((1920 * w) / h, 1920)%Z.

(** What [image.save(buf, format='JPEG', quality=85, optimize=True)]
    leaves in the buffer. *)
Record Jpeg := mkJpeg {
  jpeg_width : Z;
  jpeg_height : Z;
  jpeg_mode : Mode;
  jpeg_quality : Z;
  jpeg_optimize : bool
}.

Definition save_jpeg (quality : Z) (optimize : bool) (im : Image)
  : option Jpeg :=
  if jpeg_writable (mode im)
  then Some (mkJpeg (width im) (height im) (mode im) quality optimize)
  else None.

(** The mode test and conversion of [upload_image]. *)
Definition flatten (im : Image) : Image :=
  if String.eqb (mode_name (mode im)) "RGBA"
     || String.eqb (mode_name (mode im)) "P"
  then convert M_RGB im
  else im.

(** The resize step of [upload_image]. *)
Definition bound_size (im : Image) : option Image :=
  if ((width im >? 1920) || (height im >? 1920))%Z
  then let '(new_width, new_height) := new_size (width im) (height im) in
       resize new_width new_height im
  else Some im.

(** The image handed to the encoder: orientation, mode, size, in the
    order of [upload_image]. [None] when a PIL call raises. *)
Definition prepare (image : Image) : option Image :=
  bound_size (flatten (exif_transpose image)).

(** The normaliser: everything [upload_image] does to the picture.  An
    [Image] stands for a picture whose data loads; a file whose pixel
    data is cut short makes PIL raise in one of these steps, which is
    outside what the record describes. *)
Definition normalize (image : Image) : option Jpeg :=
  match prepare image with
  | Some im => save_jpeg 85 true im
  | None => None
  end.

(** ** State: the bucket, the three worksheets and the message log *)

Inductive Level : Set := LSuccess | LInfo | LWarning | LError | LMarkdown.

Record Message := mkMessage { level : Level; text : string }.

Record Blob := mkBlob {
  blob_name : string;
  blob_body : Jpeg;
  blob_content_type : string;
  blob_public : bool
}.

(** A bucket maps object names to objects; the most recent write of a name
    is the first entry with that name. *)
Record Bucket := mkBucket {
  bucket_name : string;
  blobs : list Blob
}.

Definition find_blob (path : string) (b : Bucket) : option Blob :=
  find (fun o => String.eqb (blob_name o) path) (blobs b).

Definition put_blob (o : Blob) (b : Bucket) : Bucket :=
  mkBucket (bucket_name b) (o :: blobs b).

(** A worksheet is its rows of cell texts, the header row first. *)
Definition Worksheet := list (list string).

(** [ws.append_row(values)]; a [None] value leaves its cell empty. *)
Definition cell_text (v : option string) : string :=
  match v with Some s => s | None => "" end.

Definition append_row (values : list (option string)) (ws : Worksheet)
  : Worksheet :=
  (ws ++ [map cell_text values])%list.

(** [ws.get_all_records()]: one dictionary per row below the header,
    keyed by the header cells ([dict(zip(keys, row))]).  The values kept
    here are the cell texts; see [numericise] for the numbers gspread
    makes of some of them. *)
Definition PyDict := list (string * string).

Definition get_all_records (ws : Worksheet) : list PyDict :=
  match ws with
  | [] => []
  | keys :: rows => map (fun row => combine keys row) rows
  end.

(** [record.get(key, default)]; when a key is repeated the last pair is
    the one the dictionary holds. *)
Definition dict_get (key default : string) (record : PyDict) : string :=
  match find (fun kv => String.eqb (fst kv) key) (rev record) with
  | Some kv => snd kv
  | None => default
  end.

Record World := mkWorld {
  bucket : option Bucket;
  main_worksheet : option Worksheet;
  store_worksheet : option Worksheet;
  employee_worksheet : option Worksheet;
  shown : list Message
}.

Definition show (l : Level) (t : string) (w : World) : World :=
  mkWorld (bucket w) (main_worksheet w) (store_worksheet w)
          (employee_worksheet w) (shown w ++ [mkMessage l t])%list.

Definition set_bucket (b : Bucket) (w : World) : World :=
  mkWorld (Some b) (main_worksheet w) (store_worksheet w)
          (employee_worksheet w) (shown w).

Definition set_main_worksheet (ws : Worksheet) (w : World) : World :=
  mkWorld (bucket w) (Some ws) (store_worksheet w)
          (employee_worksheet w) (shown w).

Definition set_store_worksheet (ws : Worksheet) (w : World) : World :=
  mkWorld (bucket w) (main_worksheet w) (Some ws)
          (employee_worksheet w) (shown w).

Definition set_employee_worksheet (ws : Worksheet) (w : World) : World :=
  mkWorld (bucket w) (main_worksheet w) (store_worksheet w)
          (Some ws) (shown w).

(** ** What the outside decides *)

(** One call of [upload_image]: the two clock readings, the uuid, and
    whether the two storage calls go through. *)
Record UploadEnv := mkUploadEnv {
  now_date : Datetime;
  now_time : Datetime;
  uuid4 : N;
  upload_from_file_ok : bool;
  make_public_ok : bool
}.

(** One call that reads a worksheet and may append to it. *)
Record SheetEnv := mkSheetEnv {
  get_all_records_ok : bool;
  append_row_ok : bool
}.

(** ** [GramediaDisplayHandler] *)

(** The f-string bound to [path]. *)
Definition object_path (clean_store clean_employee date_str img_type
                        timestamp uid : string) : string :=
  "gramedia-display/" ++ clean_store ++ "/" ++ clean_employee ++ "/"
  ++ date_str ++ "/" ++ img_type ++ "/" ++ timestamp ++ "_" ++ uid
  ++ ".jpg".

Definition path_of (env : UploadEnv) (store employee img_type : string)
  : string :=
  object_path (clean_name store) (clean_name employee)
              (strftime_date (now_date env)) img_type
              (strftime_time (now_time env)) (unique_id (uuid4 env)).

(** The f-string bound to [public_url]. *)
Definition public_url (bucket_nm path : string) : string :=
  "https://storage.googleapis.com/" ++ bucket_nm ++ "/" ++ path.

Definition upload_image (env : UploadEnv) (image : Image)
                        (store employee img_type : string) (w : World)
  : option string * World :=
  match bucket w with
  | None => (None, show LError "Storage bucket not connected" w)
  | Some b =>
      let path := path_of env store employee img_type in
      match normalize image with
      | None => (None, show LError "Image upload failed" w)
      | Some img_bytes =>
          if upload_from_file_ok env then
            let o := mkBlob path img_bytes "image/jpeg" (make_public_ok env) in
            let w1 := set_bucket (put_blob o b) w in
            let w2 :=
              if make_public_ok env
              then show LSuccess ("Image uploaded: " ++ img_type) w1
              else show LWarning "Image uploaded but could not make public" w1
            in
            (Some (public_url (bucket_name b) path), w2)
          else (None, show LError "Image upload failed" w)
      end
  end.

(** *** Number-like cells

    When gspread builds the records it converts every cell that reads as
    a number ([gspread.utils.numericise]: a cell with an underscore is
    left alone; otherwise [int(cell)], then [float(cell)], are tried).
    The records of the model keep the cell texts; the conversion is
    applied where a value is taken out of a record. *)

Inductive PyVal : Set :=
  | VStr (s : string)
  | VNum (literal : string).    (* an [int] or a [float], by its literal *)

Definition is_digit (c : ascii) : bool := in_range 48 57 c.

(** The leading digits of a text and what follows them. *)
Fixpoint span_digits (s : string) : string * string :=
  match s with
  | EmptyString => (EmptyString, EmptyString)
  | String c t =>
      if is_digit c
      then let '(digits, rest) := span_digits t in (String c digits, rest)
      else (EmptyString, s)
  end.

Definition drop_sign (s : string) : string :=
  match s with
  | String c t =>
      if Ascii.eqb c "+"%char || Ascii.eqb c "-"%char then t else s
  | EmptyString => s
  end.

Definition some_char (s : string) : bool :=
  match s with EmptyString => false | String _ _ => true end.

(** Nothing, or [e] or [E] with an optional sign and at least one digit. *)
Definition exponent (s : string) : bool :=
  match s with
  | EmptyString => true
  | String c t =>
      (Ascii.eqb c "e"%char || Ascii.eqb c "E"%char)
      && (let '(digits, rest) := span_digits (drop_sign t) in
          some_char digits && negb (some_char rest))
  end.

(** Digits with an optional point, at least one digit around it, and an
    optional exponent. *)
Definition decimal_literal (s : string) : bool :=
  let '(int_part, after_int) := span_digits s in
  let '(frac_part, after_frac) :=
    match after_int with
    | String c t =>
        if Ascii.eqb c "."%char then span_digits t
        else (EmptyString, after_int)
    | EmptyString => (EmptyString, after_int)
    end in
  (some_char int_part || some_char frac_part) && exponent after_frac.

Definition lower (c : ascii) : ascii :=
  if in_range 65 90 c then ascii_of_N (code c + 32) else c.

Fixpoint lower_str (s : string) : string :=
  match s with
  | EmptyString => EmptyString
  | String c t => String (lower c) (lower_str t)
  end.

Definition special_literal (s : string) : bool :=
  String.eqb (lower_str s) "inf" || String.eqb (lower_str s) "infinity"
  || String.eqb (lower_str s) "nan".

(** [float(s)] does not raise; every text [int(s)] takes is among these. *)
Definition float_accepts (s : string) : bool :=
  let body := drop_sign (strip s) in
  decimal_literal body || special_literal body.

Definition number_like (cell : string) : bool :=
  negb (contains "_" cell) && float_accepts cell.

(** [numericise(cell)] *)
Definition numericise (cell : string) : PyVal :=
  if number_like cell then VNum cell else VStr cell.

(** The sheet lists the name: some record has, under the column, a cell
    that equals the name, both stripped. *)
Definition already_listed (column name : string) (records : list PyDict)
  : bool :=
  existsb (fun record =>
             String.eqb (strip (dict_get column "" record)) (strip name))
          records.

(** The loop of [add_store_to_sheet] and [add_employee_to_sheet]:
    [Some true] when a record's value, stripped, equals the stripped
    name; [Some false] when the loop runs out; [None] when a value met
    before that is a number, on which [.strip()] raises. *)
Fixpoint find_name (column name : string) (records : list PyDict)
  : option bool :=
  match records with
  | [] => Some false
  | record :: rest =>
      match numericise (dict_get column "" record) with
      | VStr value =>
          if String.eqb (strip value) (strip name) then Some true
          else find_name column name rest
      | VNum _ => None
      end
  end.

Definition add_store_to_sheet (env : SheetEnv) (store_name : string)
                              (w : World) : bool * World :=
  match store_worksheet w with
  | None => (false, w)
  | Some ws =>
      if get_all_records_ok env then
        match find_name "Store_Name" store_name (get_all_records ws) with
        | Some true => (true, w)
        | Some false =>
            if append_row_ok env
            then (true, set_store_worksheet
                          (append_row [Some (strip store_name)] ws) w)
            else (false, show LError "Error adding store" w)
        | None => (false, show LError "Error adding store" w)
        end
      else (false, show LError "Error adding store" w)
  end.

Definition add_employee_to_sheet (env : SheetEnv) (employee_name : string)
                                 (w : World) : bool * World :=
  match employee_worksheet w with
  | None => (false, w)
  | Some ws =>
      if get_all_records_ok env then
        match find_name "Employee_Name" employee_name (get_all_records ws)
        with
        | Some true => (true, w)
        | Some false =>
            if append_row_ok env
            then (true, set_employee_worksheet
                          (append_row [Some (strip employee_name)] ws) w)
            else (false, show LError "Error adding employee" w)
        | None => (false, show LError "Error adding employee" w)
        end
      else (false, show LError "Error adding employee" w)
  end.

(** The dictionary [data] built by [main]. *)
Record Data := mkData {
  d_store_name : string;
  d_employee_name : string;
  d_date : string;
  d_education_photo_url : option string;
  d_poster_photo_url : option string;
  d_participation_competition : string;
  d_display_competition_photo_url : option string;
  d_non_participation_reason : string;
  d_timestamp : string;
  d_status : string
}.

Definition row_data (data : Data) : list (option string) :=
  [ Some (d_store_name data);
    Some (d_employee_name data);
    Some (d_date data);
    d_education_photo_url data;
    d_poster_photo_url data;
    Some (d_participation_competition data);
    d_display_competition_photo_url data;
    Some (d_non_participation_reason data);
    Some (d_timestamp data);
    Some (d_status data) ].

Definition save_data (env : SheetEnv) (data : Data) (w : World)
  : bool * World :=
  match main_worksheet w with
  | None => (false, show LError "Main spreadsheet not connected" w)
  | Some ws =>
      if append_row_ok env
      then (true, set_main_worksheet (append_row (row_data data) ws) w)
      else (false, show LError "Data save failed" w)
  end.

(** ** The form of [main] *)

(** The radio ["Select...", "Yes", "No"]. *)
Inductive Participation : Set := SelectPlaceholder | Yes | No.

Definition participation_text (p : Participation) : string :=
  match p with
  | SelectPlaceholder => "Select..."
  | Yes => "Yes"
  | No => "No"
  end.

(** A file handed over by [st.file_uploader]; [opened] is what
    [Image.open] makes of it, [None] when it raises. *)
Record UploadedFile := mkUploadedFile { opened : option Image }.

(** The widgets' values when the submit button is pressed. *)
Record FormState := mkFormState {
  store_select : string;
  new_store : string;
  employee_select : string;
  new_employee : string;
  entry_date : Datetime;
  education_photo : option UploadedFile;
  poster_photo : option UploadedFile;
  participation : Participation;
  display_photo : option UploadedFile;
  reason_input : string
}.

Definition nonempty (s : string) : bool :=
  match s with EmptyString => false | String _ _ => true end.

Definition present {A : Type} (v : option A) : bool :=
  match v with Some _ => true | None => false end.

Definition store_name (f : FormState) : string :=
  if String.eqb (store_select f) "+ New Store" then new_store f
  else if nonempty (store_select f)
          && negb (String.eqb (store_select f) "Select Store...")
       then store_select f
       else "".

Definition employee_name (f : FormState) : string :=
  if String.eqb (employee_select f) "+ New Employee" then new_employee f
  else if nonempty (employee_select f)
          && negb (String.eqb (employee_select f) "Select Employee...")
       then employee_select f
       else "".

(** The uploader for the display photo exists only on the "Yes" branch. *)
Definition display_competition_photo (f : FormState) : option UploadedFile :=
  match participation f with
  | Yes => display_photo f
  | _ => None
  end.

(** The text area for the reason exists only on the "No" branch. *)
Definition non_participation_reason (f : FormState) : string :=
  match participation f with
  | No => reason_input f
  | _ => ""
  end.

Definition is_yes (p : Participation) : bool :=
  String.eqb (participation_text p) "Yes".

Definition is_no (p : Participation) : bool :=
  String.eqb (participation_text p) "No".

(** [errors.append(msg)] guarded by [cond]. *)
Definition check (cond : bool) (msg : string) : list string :=
  if cond then [msg] else [].

(** The validation block: every test is run, in this order. *)
Definition validate (f : FormState) : list string :=
  (check (negb (nonempty (strip (store_name f)))) "Store name is required"
   ++ check (negb (nonempty (strip (employee_name f))))
            "Employee name is required"
   ++ check (negb (present (education_photo f))) "Education photo is required"
   ++ check (negb (present (poster_photo f))) "Poster photo is required"
   ++ check (String.eqb (participation_text (participation f)) "Select...")
            "Please select participation status"
   ++ check (is_yes (participation f)
             && negb (present (display_competition_photo f)))
            "Display competition photo is required when participating"
   ++ check (is_no (participation f)
             && negb (nonempty (strip (non_participation_reason f))))
            "Reason is required when not participating")%list.

(** ['<br>'.join(errors)], the separator's bullet left out. *)
Definition join_errors (errors : list string) : string :=
  String.concat "<br>" errors.

(** How one press of the submit button ends. *)
Inductive Outcome : Set :=
  | Invalid (errors : list string)
  | Stopped             (* [st.stop()] after a failed catalogue add *)
  | Crashed             (* the [except Exception] around the processing *)
  | UploadFailed
  | AppendFailed
  | RecordAppended.

Record SubmitEnv := mkSubmitEnv {
  env_store : SheetEnv;
  env_employee : SheetEnv;
  env_education : UploadEnv;
  env_poster : UploadEnv;
  env_display : UploadEnv;
  env_stamp : Datetime;
  env_save : SheetEnv
}.

(** [Image.open(photo)] *)
Definition image_open (photo : option UploadedFile) : option Image :=
  match photo with
  | Some file => opened file
  | None => None
  end.

(** The dictionary literal bound to [data]. *)
Definition build_data (env : SubmitEnv) (f : FormState)
                      (education_url poster_url display_url : option string)
  : Data :=
  mkData (strip (store_name f))
         (strip (employee_name f))
         (strftime_date (entry_date f))
         education_url
         poster_url
         (participation_text (participation f))
         (if is_yes (participation f) then display_url else Some "")
         (if is_no (participation f) then non_participation_reason f else "")
         (strftime_stamp (env_stamp env))
         "Submitted".

Definition success_text (f : FormState) : string :=
  if is_yes (participation f)
  then "Display Competition Entry Submitted! Entry saved with display competition photo for "
       ++ store_name f ++ "."
  else "Entry Submitted Successfully! Entry saved for " ++ store_name f
       ++ " (not participating in competition).".

(** "Handle new store" and "Handle new employee"; [false] is [st.stop()]. *)
Definition handle_new_entities (env : SubmitEnv) (f : FormState) (w : World)
  : bool * World :=
  let '(success, w1) :=
    if String.eqb (store_select f) "+ New Store"
    then add_store_to_sheet (env_store env) (store_name f) w
    else (true, w) in
  if negb success then (false, show LError "Failed to add store" w1)
  else
    let '(success, w2) :=
      if String.eqb (employee_select f) "+ New Employee"
      then add_employee_to_sheet (env_employee env) (employee_name f) w1
      else (true, w1) in
    if negb success then (false, show LError "Failed to add employee" w2)
    else (true, w2).

(** The optional third upload; the outer [None] is an exception raised by
    [Image.open]. *)
Definition upload_display (env : SubmitEnv) (f : FormState) (w : World)
  : option (option string * World) :=
  if is_yes (participation f) && present (display_competition_photo f)
  then match image_open (display_competition_photo f) with
       | Some display_img =>
           Some (upload_image (env_display env) display_img
                              (store_name f) (employee_name f)
                              "display_competition" w)
       | None => None
       end
  else Some (Some "", w).

(** The test on the two required urls, the row and the closing messages.
    After the success box the page goes on to display the pictures and a
    summary and reruns; the log ends at the box. *)
Definition finish (env : SubmitEnv) (f : FormState)
                  (education_url poster_url display_url : option string)
                  (w : World) : Outcome * World :=
  if truthy education_url && truthy poster_url then
    let data := build_data env f education_url poster_url display_url in
    let '(saved, w1) := save_data (env_save env) data w in
    if saved
    then (RecordAppended, show LMarkdown (success_text f) w1)
    else (AppendFailed, show LError "Failed to save data to spreadsheet" w1)
  else (UploadFailed, show LError "Failed to upload images" w).

(** "Upload required photos": the education upload, then the poster one. *)
Definition upload_required (env : SubmitEnv) (f : FormState)
                           (education_img poster_img : Image) (w : World)
  : (option string * option string) * World :=
  let '(education_url, w1) :=
    upload_image (env_education env) education_img
                 (store_name f) (employee_name f) "education" w in
  let '(poster_url, w2) :=
    upload_image (env_poster env) poster_img
                 (store_name f) (employee_name f) "poster" w1 in
  ((education_url, poster_url), w2).

(** The [else] branch of [if errors]: the processing of a valid form.
    [Crashed] is the [except Exception] branch; it is kept for a photo
    that [Image.open] refuses, although the previews drawn above the
    button would already fail on such a file. *)
Definition process (env : SubmitEnv) (f : FormState) (w : World)
  : Outcome * World :=
  match handle_new_entities env f w with
  | (false, w1) => (Stopped, w1)
  | (true, w2) =>
      match image_open (education_photo f), image_open (poster_photo f) with
      | Some education_img, Some poster_img =>
          let '((education_url, poster_url), w4) :=
            upload_required env f education_img poster_img w2 in
          match upload_display env f w4 with
          | Some (display_url, w5) =>
              finish env f education_url poster_url display_url w5
          | None => (Crashed, show LError "Error processing submission" w4)
          end
      | _, _ => (Crashed, show LError "Error processing submission" w2)
      end
  end.

(** The [if submitted:] block of [main]. *)
Definition submit (env : SubmitEnv) (f : FormState) (w : World)
  : Outcome * World :=
  match validate f with
  | [] => process env f w
  | errors =>
      (Invalid errors,
       show LMarkdown ("Please complete: " ++ join_errors errors) w)
  end.

(** ** Observations on a state *)

(** An object of that name is in the bucket. *)
Definition stored (path : string) (w : World) : bool :=
  match bucket w with
  | Some b => present (find_blob path b)
  | None => false
  end.

(** How many records of a catalogue sheet carry the name, both stripped. *)
Definition occurrences (column name : string) (sheet : option Worksheet)
  : nat :=
  match sheet with
  | Some ws =>
      List.length
        (filter (fun record =>
                   String.eqb (strip (dict_get column "" record)) (strip name))
                (get_all_records ws))
  | None => 0
  end.

(** No cell of the column reads as a number: gspread hands every value of
    the column over as the text in the sheet. *)
Definition text_records (column : string) (records : list PyDict) : bool :=
  forallb (fun record => negb (number_like (dict_get column "" record)))
          records.

Definition text_column (column : string) (sheet : option Worksheet) : bool :=
  match sheet with
  | Some ws => text_records column (get_all_records ws)
  | None => true
  end.

(** The first header cell of the sheet is the column. *)
Definition headed_by (column : string) (sheet : option Worksheet) : Prop :=
  exists keys rows, sheet = Some ((column :: keys) :: rows).

(** A cell of a row, [""] past its end. *)
Definition cell (i : nat) (row : list string) : string := nth i row "".

(** The state a call leaves when the bytes were stored. *)
Definition after_upload (env : UploadEnv) (path img_type : string)
                        (img_bytes : Jpeg) (b : Bucket) (w : World) : World :=
  let w1 := set_bucket
              (put_blob (mkBlob path img_bytes "image/jpeg"
                                (make_public_ok env)) b) w in
  if make_public_ok env
  then show LSuccess ("Image uploaded: " ++ img_type) w1
  else show LWarning "Image uploaded but could not make public" w1.

(** ** Sample data *)

Definition main_headers : list string :=
  ["Store_Name"; "Employee_Name"; "Date"; "Education_Photo_URL";
   "Poster_Photo_URL"; "Participation_Competition";
   "Display_Competition_Photo_URL"; "Non_Participation_Reason";
   "Timestamp"; "Status"].

Definition sample_bucket : Bucket := mkBucket "gramedia-display" [].

(** The state right after [_setup_connections] on an empty spreadsheet. *)
Definition sample_world : World :=
  mkWorld (Some sample_bucket) (Some [main_headers])
          (Some [["Store_Name"]]) (Some [["Employee_Name"]]) [].

(** A spreadsheet whose store sheet was laid out by someone else. *)
Definition foreign_world : World :=
  mkWorld (Some sample_bucket) (Some [main_headers])
          (Some [["Name"]]) (Some [["Employee_Name"]]) [].

Definition sample_clock : Datetime := mkDatetime 2025 3 7 14 5 9.

Definition sample_upload (stored_ok public_ok : bool) : UploadEnv :=
  mkUploadEnv sample_clock sample_clock 0x1234abcd00001111222233334444ffff
              stored_ok public_ok.

Definition sample_image : Image := mkImage 4000 3000 M_RGB 1.

Definition sample_jpeg : Jpeg := mkJpeg 1920 1440 M_RGB 85 true.

Definition sample_file : UploadedFile := mkUploadedFile (Some sample_image).

Definition sheet_ok : SheetEnv := mkSheetEnv true true.

(** Scenario A: a new store and employee, every photo present, "Yes". *)
Definition sample_form : FormState :=
  mkFormState "+ New Store" "Main Store" "+ New Employee" "Jane Doe"
              sample_clock (Some sample_file) (Some sample_file)
              Yes (Some sample_file) "".

(** Scenario C: the same form without the poster photo. *)
Definition form_without_poster : FormState :=
  mkFormState "+ New Store" "Main Store" "+ New Employee" "Jane Doe"
              sample_clock (Some sample_file) None
              Yes (Some sample_file) "".

(** Scenario A with a grey, transparent PNG as the display photo. *)
Definition form_with_grey_display : FormState :=
  mkFormState "+ New Store" "Main Store" "+ New Employee" "Jane Doe"
              sample_clock (Some sample_file) (Some sample_file)
              Yes (Some (mkUploadedFile (Some (mkImage 800 600 M_LA 1)))) "".

(** The environment of a submission in which every sheet call succeeds;
    the three flags say whether the education, poster and display bytes
    get stored. *)
Definition sample_env (education_ok poster_ok display_ok : bool)
  : SubmitEnv :=
  mkSubmitEnv sheet_ok sheet_ok
              (sample_upload education_ok true)
              (sample_upload poster_ok true)
              (sample_upload display_ok true)
              sample_clock sheet_ok.

(** ** Loading the catalogues ([get_stores_and_employees]) *)

(** [key in record] *)
Definition has_key (key : string) (record : PyDict) : bool :=
  existsb (fun kv => String.eqb (fst kv) key) record.

(** [record[key]] when the key is there (the value a frame holds for that
    row; a row without the key has a missing value there). *)
Definition dict_lookup (key : string) (record : PyDict) : option string :=
  option_map snd (find (fun kv => String.eqb (fst kv) key) (rev record)).

(** [key in df.columns] for [df = pd.DataFrame(records)]: the columns are
    the keys of all the records. *)
Definition in_columns (key : string) (records : list PyDict) : bool :=
  existsb (has_key key) records.

(** [df[key].dropna().tolist()] *)
Definition dropna (key : string) (records : list PyDict) : list string :=
  flat_map (fun record =>
              match dict_lookup key record with
              | Some v => [v]
              | None => []
              end)
           records.

(** [Series.unique()]: the values in order of first appearance. *)
Fixpoint unique (seen l : list string) : list string :=
  match l with
  | [] => []
  | s :: t =>
      if existsb (String.eqb s) seen then unique seen t
      else s :: unique (s :: seen) t
  end.

(** [sorted(l)] on texts: a stable sort by code points. *)
Fixpoint insert_sorted (s : string) (l : list string) : list string :=
  match l with
  | [] => [s]
  | x :: t => if String.leb s x then s :: l else x :: insert_sorted s t
  end.

Definition sorted (l : list string) : list string :=
  fold_right insert_sorted [] l.

(** The order [sorted] puts texts in. *)
Definition before (a b : string) : Prop := String.leb a b = true.

(** The names one catalogue sheet yields: the block under
    [if self.store_worksheet:] (resp. [employee_worksheet]) once the
    records are read.  This is the list for a column of texts
    ([text_records]); where a cell reads as a number the frame holds
    numbers, which this definition does not follow. *)
Definition names_of_records (column : string) (records : list PyDict)
  : list string :=
  match records with
  | [] => []
  | _ =>
      if in_columns column records
      then sorted (filter nonempty (unique [] (dropna column records)))
      else []
  end.

(** Whether the two [get_all_records] calls go through. *)
Record LoadEnv := mkLoadEnv {
  store_records_ok : bool;
  employee_records_ok : bool
}.

(** One catalogue block; the outer [None] is an exception. *)
Definition load_names (ok : bool) (column : string)
                      (sheet : option Worksheet) : option (list string) :=
  match sheet with
  | None => Some []
  | Some ws =>
      if ok then Some (names_of_records column (get_all_records ws))
      else None
  end.

Definition get_stores_and_employees (env : LoadEnv) (w : World)
  : (list string * list string) * World :=
  match load_names (store_records_ok env) "Store_Name" (store_worksheet w)
  with
  | None => (([], []), show LError "Error loading data" w)
  | Some stores =>
      match load_names (employee_records_ok env) "Employee_Name"
                       (employee_worksheet w) with
      | None => (([], []), show LError "Error loading data" w)
      | Some employees => ((stores, employees), w)
      end
  end.

(** The options of the two select boxes of [main]. *)
Definition store_options (stores : list string) : list string :=
  (["Select Store..."] ++ stores ++ ["+ New Store"])%list.

Definition employee_options (employees : list string) : list string :=
  (["Select Employee..."] ++ employees ++ ["+ New Employee"])%list.

(** ** Sheet headers ([_ensure_sheet_structure]) *)

Definition employee_headers : list string := ["Employee_Name"].

Definition store_headers : list string := ["Store_Name"].

(** [any(row)]: some cell is not empty. *)
Definition any_cell (row : list string) : bool := existsb nonempty row.

(** [ws.row_values(1)]: the first row up to its last filled cell. *)
Fixpoint drop_trailing_empty (row : list string) : list string :=
  match row with
  | [] => []
  | c :: t =>
      match drop_trailing_empty t with
      | [] => if nonempty c then [c] else []
      | t' => c :: t'
      end
  end.

Definition row_values_1 (ws : Worksheet) : list string :=
  match ws with
  | [] => []
  | row :: _ => drop_trailing_empty row
  end.

(** Whether the calls made on one sheet go through. *)
Record StructureEnv := mkStructureEnv {
  row_values_ok : bool;
  get_all_values_ok : bool;
  clear_ok : bool;
  append_headers_ok : bool
}.

(** The test [not all_values or (len(all_values) == 1 and not
    any(all_values[0]))]. *)
Definition blank_sheet (all_values : Worksheet) : bool :=
  match all_values with
  | [] => true
  | [row] => negb (any_cell row)
  | _ => false
  end.

(** One of the three blocks of [_ensure_sheet_structure]: read the first
    row; when it is empty and the sheet is blank, clear the sheet and
    write the headers.  A sheet that is [None] makes every call on it
    raise. *)
Definition ensure_headers (env : StructureEnv) (expected : list string)
                          (configured could_not : string)
                          (sheet : option Worksheet)
  : option Worksheet * list Message :=
  let current_headers :=
    match sheet with
    | Some ws => if row_values_ok env then row_values_1 ws else []
    | None => []
    end in
  match current_headers with
  | _ :: _ => (sheet, [])
  | [] =>
      match sheet with
      | None => (sheet, [mkMessage LWarning could_not])
      | Some ws =>
          if get_all_values_ok env then
            if blank_sheet ws then
              if clear_ok env then
                if append_headers_ok env
                then (Some (append_row (map Some expected) []),
                      [mkMessage LInfo configured])
                else (Some [], [mkMessage LWarning could_not])
              else (sheet, [mkMessage LWarning could_not])
            else (sheet, [])
          else (sheet, [mkMessage LWarning could_not])
      end
  end.

Record EnsureEnv := mkEnsureEnv {
  ensure_main : StructureEnv;
  ensure_employee : StructureEnv;
  ensure_store : StructureEnv
}.

Definition _ensure_sheet_structure (env : EnsureEnv) (w : World) : World :=
  let '(main, m1) :=
    ensure_headers (ensure_main env) main_headers
                   "Main spreadsheet headers configured"
                   "Could not verify main sheet structure"
                   (main_worksheet w) in
  let '(employee, m2) :=
    ensure_headers (ensure_employee env) employee_headers
                   "Employee spreadsheet headers configured"
                   "Could not verify employee sheet structure"
                   (employee_worksheet w) in
  let '(store, m3) :=
    ensure_headers (ensure_store env) store_headers
                   "Store spreadsheet headers configured"
                   "Could not verify store sheet structure"
                   (store_worksheet w) in
  mkWorld (bucket w) main store employee (shown w ++ m1 ++ m2 ++ m3)%list.

(** Every call of [_ensure_sheet_structure] goes through. *)
Definition structure_ok : StructureEnv := mkStructureEnv true true true true.

Definition ensure_ok : EnsureEnv :=
  mkEnsureEnv structure_ok structure_ok structure_ok.

(** ** More observations *)

(** The number of occurrences of a character. *)
Fixpoint count_char (c : ascii) (s : string) : nat :=
  match s with
  | EmptyString => 0
  | String x t => (if Ascii.eqb x c then 1 else 0) + count_char c t
  end.

(** The object the bucket holds under the name. *)
Definition object_at (path : string) (w : World) : option Blob :=
  match bucket w with
  | Some b => find_blob path b
  | None => None
  end.

(** The names written to the bucket, the latest first. *)
Definition object_names (w : World) : list string :=
  match bucket w with
  | Some b => map blob_name (blobs b)
  | None => []
  end.

(** How many objects the bucket holds: a name written again replaces the
    object of that name, so each name counts once. *)
Definition object_count (w : World) : nat :=
  List.length (nodup string_dec (object_names w)).

(** What a write to the path adds to the number of objects: nothing when
    the name is taken. *)
Definition fresh (path : string) (w : World) : nat :=
  if stored path w then 0 else 1.

(** The last message of the log. *)
Definition closing (w : World) : Message :=
  last (shown w) (mkMessage LInfo "").

(** The rows written so far are still there, in place. *)
Definition extends (old new : option Worksheet) : Prop :=
  match old, new with
  | Some ws, Some ws' => exists added, ws' = (ws ++ added)%list
  | None, None => True
  | _, _ => False
  end.

(** Nothing was lost between two states: every sheet kept its rows and
    the bucket its objects. *)
Definition grows (w w' : World) : Prop :=
  extends (main_worksheet w) (main_worksheet w') /\
  extends (store_worksheet w) (store_worksheet w') /\
  extends (employee_worksheet w) (employee_worksheet w') /\
  option_map bucket_name (bucket w') = option_map bucket_name (bucket w) /\
  (forall path, stored path w = true -> stored path w' = true).

(** The form can come out of the widgets [main] builds from the two
    catalogue lists. *)
Definition offered (stores employees : list string) (f : FormState) : Prop :=
  In (store_select f) (store_options stores) /\
  In (employee_select f) (employee_options employees).

(** * Properties *)

(** ** Strings *)

Section StringFacts.

Variable p : ascii -> bool.

Lemma all_chars_app (a b : string) :
  all_chars p (a ++ b) = all_chars p a && all_chars p b.
Proof.
  induction a as [|c a IH]; simpl; [reflexivity|].
  now rewrite IH, andb_assoc.
Qed.

Lemma all_chars_join_filter (s : string) :
  all_chars p (join_filter p s) = true.
Proof.
  induction s as [|c s IH]; simpl; [reflexivity|].
  destruct (p c) eqn:E; simpl; [rewrite E|]; exact IH.
Qed.

Lemma join_filter_all (s : string) :
  all_chars p s = true -> join_filter p s = s.
Proof.
  induction s as [|c s IH]; simpl; [reflexivity|].
  intros H. apply andb_true_iff in H as [Hc Hs].
  now rewrite Hc, IH.
Qed.

Lemma join_filter_none (s : string) :
  all_chars (fun c => negb (p c)) s = true -> join_filter p s = "".
Proof.
  induction s as [|c s IH]; simpl; [reflexivity|].
  intros H. apply andb_true_iff in H as [Hc Hs].
  apply negb_true_iff in Hc. now rewrite Hc, IH.
Qed.

Lemma all_chars_lstrip (s : string) :
  all_chars p s = true -> all_chars p (lstrip s) = true.
Proof.
  induction s as [|c s IH]; simpl; [reflexivity|].
  intros H. destruct (isspace c); [|exact H].
  apply andb_true_iff in H as [_ Hs]. auto.
Qed.

Lemma all_chars_rstrip (s : string) :
  all_chars p s = true -> all_chars p (rstrip s) = true.
Proof.
  induction s as [|c s IH]; simpl; [reflexivity|].
  intros H. apply andb_true_iff in H as [Hc Hs].
  specialize (IH Hs). destruct (rstrip s) as [|d t].
  - destruct (isspace c); simpl; [reflexivity|now rewrite Hc].
  - change (p c && all_chars p (String d t) = true). now rewrite Hc, IH.
Qed.

Lemma all_chars_strip (s : string) :
  all_chars p s = true -> all_chars p (strip s) = true.
Proof.
  intros H. unfold strip. now apply all_chars_lstrip, all_chars_rstrip.
Qed.

Lemma all_chars_substring (s : string) (n m : nat) :
  all_chars p s = true -> all_chars p (substring n m s) = true.
Proof.
  revert n m. induction s as [|c s IH]; intros n m H.
  - destruct n, m; reflexivity.
  - simpl in H. apply andb_true_iff in H as [Hc Hs].
    destruct n as [|n]; simpl.
    + destruct m as [|m]; simpl; [reflexivity|]. now rewrite Hc, IH.
    + now apply IH.
Qed.

End StringFacts.

Lemma all_chars_weaken (p q : ascii -> bool) (s : string) :
  (forall c, p c = true -> q c = true) ->
  all_chars p s = true -> all_chars q s = true.
Proof.
  intros Hpq. induction s as [|c s IH]; simpl; [reflexivity|].
  intros H. apply andb_true_iff in H as [Hc Hs].
  now rewrite (Hpq _ Hc), IH.
Qed.

Lemma length_app (a b : string) :
  String.length (a ++ b) = String.length a + String.length b.
Proof. induction a as [|c a IH]; simpl; [reflexivity|now rewrite IH]. Qed.

Lemma app_assoc_str (a b c : string) : (a ++ b) ++ c = a ++ b ++ c.
Proof. induction a as [|x a IH]; simpl; [reflexivity|now rewrite IH]. Qed.

Lemma substring_app_head (a b : string) :
  substring 0 (String.length a) (a ++ b) = a.
Proof.
  induction a as [|c a IH]; simpl.
  - destruct b; reflexivity.
  - now rewrite IH.
Qed.

Lemma length_substring (s : string) (n m : nat) :
  n + m <= String.length s -> String.length (substring n m s) = m.
Proof.
  revert n m. induction s as [|c s IH]; intros n m H; simpl in H.
  - assert (n = 0) by lia. assert (m = 0) by lia. subst. reflexivity.
  - destruct n as [|n]; simpl.
    + destruct m as [|m]; simpl; [reflexivity|]. rewrite IH; lia.
    + apply IH. lia.
Qed.

Lemma prefix_app (a b : string) : String.prefix a (a ++ b) = true.
Proof.
  induction a as [|c a IH]; simpl.
  - destruct b; reflexivity.
  - destruct (ascii_dec c c) as [_|N]; [exact IH|now elim N].
Qed.

Lemma contains_prefix (sub s : string) :
  String.prefix sub s = true -> contains sub s = true.
Proof. intros H. destruct s; simpl in *; now rewrite H. Qed.

Lemma contains_app (sub a b : string) :
  contains sub b = true -> contains sub (a ++ b) = true.
Proof.
  intros H. induction a as [|c a IH]; simpl; [exact H|].
  rewrite IH. apply orb_true_r.
Qed.

(** A text that has [sub] somewhere in the middle contains it. *)
Lemma contains_middle (sub a b : string) :
  contains sub (a ++ sub ++ b) = true.
Proof. apply contains_app, contains_prefix, prefix_app. Qed.

(** *** [strip] *)

Lemma lstrip_fixed (s : string) :
  all_chars (fun c => negb (isspace c)) s = true -> lstrip s = s.
Proof.
  destruct s as [|c s]; simpl; [reflexivity|].
  intros H. apply andb_true_iff in H as [Hc _].
  apply negb_true_iff in Hc. now rewrite Hc.
Qed.

Lemma rstrip_fixed (s : string) :
  all_chars (fun c => negb (isspace c)) s = true -> rstrip s = s.
Proof.
  induction s as [|c s IH]; simpl; [reflexivity|].
  intros H. apply andb_true_iff in H as [Hc Hs].
  apply negb_true_iff in Hc. rewrite (IH Hs), Hc.
  destruct s; reflexivity.
Qed.

Lemma strip_fixed (s : string) :
  all_chars (fun c => negb (isspace c)) s = true -> strip s = s.
Proof.
  intros H. unfold strip. rewrite (rstrip_fixed _ H). now apply lstrip_fixed.
Qed.

Lemma lstrip_lstrip (s : string) : lstrip (lstrip s) = lstrip s.
Proof.
  induction s as [|c s IH]; simpl; [reflexivity|].
  destruct (isspace c) eqn:E; [exact IH|]. simpl. now rewrite E.
Qed.

Lemma rstrip_rstrip (s : string) : rstrip (rstrip s) = rstrip s.
Proof.
  induction s as [|c s IH]; simpl; [reflexivity|].
  destruct (rstrip s) as [|d t] eqn:R.
  - destruct (isspace c) eqn:E; simpl; [reflexivity|now rewrite E].
  - change (rstrip (String c (String d t))) with
      (match rstrip (String d t) with
       | EmptyString => if isspace c then "" else String c ""
       | t' => String c t'
       end).
    now rewrite IH.
Qed.

Lemma rstrip_lstrip (s : string) : rstrip (lstrip s) = lstrip (rstrip s).
Proof.
  induction s as [|c s IH]; [reflexivity|].
  simpl lstrip at 1. destruct (isspace c) eqn:E.
  - rewrite IH. simpl rstrip. destruct (rstrip s) as [|d t].
    + now rewrite E.
    + simpl. now rewrite E.
  - simpl rstrip.
    destruct (rstrip s) as [|d t]; rewrite ?E; simpl; now rewrite E.
Qed.

(** Stripping a stripped text changes nothing. *)
Lemma strip_strip (s : string) : strip (strip s) = strip s.
Proof.
  unfold strip.
  now rewrite rstrip_lstrip, lstrip_lstrip, rstrip_rstrip.
Qed.

Lemma replace_fixed (old new : ascii) (s : string) :
  all_chars (fun c => negb (Ascii.eqb c old)) s = true ->
  replace old new s = s.
Proof.
  induction s as [|c s IH]; simpl; [reflexivity|].
  intros H. apply andb_true_iff in H as [Hc Hs].
  apply negb_true_iff in Hc. now rewrite Hc, IH.
Qed.

(** *** Character classes *)

(** Case analysis over the 256 characters. *)
Ltac each_char c :=
  destruct c as [[] [] [] [] [] [] [] []]; vm_compute; try reflexivity;
  try discriminate.

Lemma clean_char_kept (c : ascii) : clean_char c = true -> kept c = true.
Proof.
  unfold clean_char, kept.
  destruct (isalnum c), (Ascii.eqb c space), (Ascii.eqb c hyphen),
    (Ascii.eqb c underscore); simpl; congruence.
Qed.

Lemma clean_char_not_isspace (c : ascii) :
  clean_char c = true -> negb (isspace c) = true.
Proof. each_char c. Qed.

Lemma clean_char_not_space (c : ascii) :
  clean_char c = true -> negb (Ascii.eqb c space) = true.
Proof. each_char c. Qed.

Lemma kept_replace_clean (c : ascii) :
  kept c = true ->
  clean_char (if Ascii.eqb c space then underscore else c) = true.
Proof. each_char c. Qed.

Lemma all_chars_replace_clean (s : string) :
  all_chars kept s = true ->
  all_chars clean_char (replace space underscore s) = true.
Proof.
  induction s as [|c s IH]; simpl; [reflexivity|].
  intros H. apply andb_true_iff in H as [Hc Hs].
  now rewrite (kept_replace_clean _ Hc), IH.
Qed.

(** A cleaned name is made of alphanumerics, hyphens and underscores. *)
Lemma clean_name_clean (name : string) :
  all_chars clean_char (clean_name name) = true.
Proof.
  unfold clean_name.
  apply all_chars_replace_clean, all_chars_strip, all_chars_join_filter.
Qed.

(** Cleaning leaves such a name as it is. *)
Lemma clean_name_fixed (name : string) :
  all_chars clean_char name = true -> clean_name name = name.
Proof.
  intros H. unfold clean_name.
  rewrite join_filter_all
    by (eapply all_chars_weaken; [apply clean_char_kept|exact H]).
  rewrite strip_fixed
    by (eapply all_chars_weaken; [apply clean_char_not_isspace|exact H]).
  apply replace_fixed.
  eapply all_chars_weaken; [apply clean_char_not_space|exact H].
Qed.

(** *** Digits *)

Lemma digit_char_hex (d : N) :
  (d < 16)%N -> is_hex_digit (digit_char d) = true.
Proof.
  intros H. destruct d as [|q]; [reflexivity|].
  do 4 (destruct q as [q|q|]; try reflexivity; try lia).
Qed.

Lemma digit_char_decimal (d : N) :
  (d < 10)%N -> in_range 48 57 (digit_char d) = true.
Proof.
  intros H. destruct d as [|q]; [reflexivity|].
  do 4 (destruct q as [q|q|]; try reflexivity; try lia).
Qed.

Lemma length_digits_fixed (base : N) (width : nat) (n : N) :
  String.length (digits_fixed base width n) = width.
Proof.
  revert n. induction width as [|w IH]; intros n; simpl; [reflexivity|].
  rewrite length_app, IH. simpl. lia.
Qed.

Lemma digits_fixed_hex (width : nat) (n : N) :
  all_chars is_hex_digit (digits_fixed 16 width n) = true.
Proof.
  revert n. induction width as [|w IH]; intros n; simpl; [reflexivity|].
  rewrite all_chars_app, IH. simpl.
  rewrite digit_char_hex; [reflexivity|].
  apply N.mod_lt. discriminate.
Qed.

Lemma digits_fixed_decimal (width : nat) (n : N) :
  all_chars (in_range 48 57) (digits_fixed 10 width n) = true.
Proof.
  revert n. induction width as [|w IH]; intros n; simpl; [reflexivity|].
  rewrite all_chars_app, IH. simpl.
  rewrite digit_char_decimal; [reflexivity|].
  apply N.mod_lt. discriminate.
Qed.

(** The random suffix is the first eight of the uuid's 32 digits. *)
Lemma unique_id_digits (u : N) :
  unique_id u = substring 0 8 (digits_fixed 16 32 u).
Proof.
  unfold unique_id, uuid_str. cbv zeta.
  set (hex := digits_fixed 16 32 u).
  assert (L : String.length (substring 0 8 hex) = 8).
  { apply length_substring. unfold hex. rewrite length_digits_fixed. lia. }
  rewrite <- L at 1. apply substring_app_head.
Qed.

Lemma unique_id_length (u : N) : String.length (unique_id u) = 8.
Proof.
  rewrite unique_id_digits. apply length_substring.
  rewrite length_digits_fixed. lia.
Qed.

Lemma unique_id_hex (u : N) : all_chars is_hex_digit (unique_id u) = true.
Proof.
  rewrite unique_id_digits. apply all_chars_substring, digits_fixed_hex.
Qed.

(** ** [upload_image] *)

Lemma stored_show (path : string) (l : Level) (t : string) (w : World) :
  stored path (show l t w) = stored path w.
Proof. reflexivity. Qed.

Lemma stored_put (o : Blob) (b : Bucket) (w : World) :
  stored (blob_name o) (set_bucket (put_blob o b) w) = true.
Proof.
  unfold stored, find_blob. simpl. now rewrite String.eqb_refl.
Qed.

(** Writing an object removes none: what was stored stays stored. *)
Lemma stored_put_mono (path : string) (o : Blob) (b : Bucket) (w : World) :
  bucket w = Some b ->
  stored path w = true -> stored path (set_bucket (put_blob o b) w) = true.
Proof.
  unfold stored, find_blob. intros -> H. simpl.
  destruct (String.eqb (blob_name o) path); [reflexivity|exact H].
Qed.

Lemma upload_image_stores (env : UploadEnv) (image : Image)
      (store employee img_type : string) (w : World)
      (b : Bucket) (img_bytes : Jpeg) :
  bucket w = Some b ->
  normalize image = Some img_bytes ->
  upload_from_file_ok env = true ->
  upload_image env image store employee img_type w
  = (Some (public_url (bucket_name b)
                      (path_of env store employee img_type)),
     after_upload env (path_of env store employee img_type) img_type
                  img_bytes b w).
Proof.
  intros Hb Hn Hu. unfold upload_image, after_upload.
  rewrite Hb, Hn, Hu. reflexivity.
Qed.

(** A url comes back only when the bytes were stored. *)
Lemma upload_image_some (env : UploadEnv) (image : Image)
      (store employee img_type : string) (w w' : World) (url : string) :
  upload_image env image store employee img_type w = (Some url, w') ->
  exists b img_bytes,
    bucket w = Some b /\ normalize image = Some img_bytes /\
    upload_from_file_ok env = true /\
    url = public_url (bucket_name b) (path_of env store employee img_type) /\
    w' = after_upload env (path_of env store employee img_type) img_type
                      img_bytes b w.
Proof.
  unfold upload_image, after_upload.
  destruct (bucket w) as [b|]; [|discriminate].
  destruct (normalize image) as [img_bytes|]; [|discriminate].
  destruct (upload_from_file_ok env); [|discriminate].
  intros H. injection H as <- <-. exists b, img_bytes. repeat split.
Qed.

(** A call that returns [None] leaves the bucket and the sheets alone. *)
Lemma upload_image_none (env : UploadEnv) (image : Image)
      (store employee img_type : string) (w w' : World) :
  upload_image env image store employee img_type w = (None, w') ->
  exists t, w' = show LError t w.
Proof.
  unfold upload_image.
  destruct (bucket w) as [b|]; [|intros H; injection H as <-; eauto].
  destruct (normalize image) as [img_bytes|];
    [|intros H; injection H as <-; eauto].
  destruct (upload_from_file_ok env); [discriminate|].
  intros H; injection H as <-; eauto.
Qed.

Lemma stored_after_upload (env : UploadEnv) (path img_type : string)
      (img_bytes : Jpeg) (b : Bucket) (w : World) :
  stored path (after_upload env path img_type img_bytes b w) = true.
Proof.
  unfold after_upload. cbv zeta.
  destruct (make_public_ok env); rewrite stored_show;
    apply (stored_put (mkBlob path img_bytes "image/jpeg" _)).
Qed.

Lemma stored_after_upload_mono (env : UploadEnv) (p path img_type : string)
      (img_bytes : Jpeg) (b : Bucket) (w : World) :
  bucket w = Some b ->
  stored p w = true ->
  stored p (after_upload env path img_type img_bytes b w) = true.
Proof.
  intros Hb H. unfold after_upload. cbv zeta.
  destruct (make_public_ok env); rewrite stored_show;
    now apply stored_put_mono.
Qed.

(** No call of [upload_image] removes an object or touches a sheet. *)
Lemma upload_image_keeps (env : UploadEnv) (image : Image)
      (store employee img_type : string) (w : World) :
  let w' := snd (upload_image env image store employee img_type w) in
  main_worksheet w' = main_worksheet w /\
  store_worksheet w' = store_worksheet w /\
  employee_worksheet w' = employee_worksheet w /\
  (forall p, stored p w = true -> stored p w' = true).
Proof.
  destruct (upload_image env image store employee img_type w)
    as [[url|] w'] eqn:E; simpl.
  - apply upload_image_some in E
      as (b & img_bytes & Hb & _ & _ & _ & ->).
    unfold after_upload at 1 2 3. cbv zeta.
    repeat split; try (destruct (make_public_ok env); reflexivity).
    intros p. now apply stored_after_upload_mono.
  - apply upload_image_none in E as (t & ->). repeat split; auto.
Qed.

(** C9: cleaning a store or employee name for the object path (keep
    alphanumerics, spaces, hyphens and underscores; strip; turn the
    remaining spaces into underscores) is idempotent: cleaning a cleaned
    name gives the same name. *)
Theorem clean_name_idempotent (name : string) :
  clean_name (clean_name name) = clean_name name.
Proof. apply clean_name_fixed, clean_name_clean. Qed.

Lemma clean_name_nothing_kept (name : string) :
  all_chars (fun c => negb (kept c)) name = true -> clean_name name = "".
Proof.
  intros H. unfold clean_name. now rewrite join_filter_none.
Qed.

(** C10: a store or employee name without any alphanumeric, space, hyphen
    or underscore cleans to the empty text, and [upload_image] does not
    reject it: it builds a path with an empty segment (two slashes in a
    row), stores the object under it and returns the url. *)
Theorem empty_segment_not_rejected
    (env : UploadEnv) (image : Image) (store employee img_type : string)
    (w : World) (b : Bucket) (img_bytes : Jpeg) :
  bucket w = Some b ->
  normalize image = Some img_bytes ->
  upload_from_file_ok env = true ->
  all_chars (fun c => negb (kept c)) store = true
  \/ all_chars (fun c => negb (kept c)) employee = true ->
  let path := path_of env store employee img_type in
  let result := upload_image env image store employee img_type w in
  (clean_name store = "" \/ clean_name employee = "") /\
  contains "//" path = true /\
  fst result = Some (public_url (bucket_name b) path) /\
  stored path (snd result) = true.
Proof.
  intros Hb Hn Hu Hname path result. subst result.
  rewrite (upload_image_stores _ _ _ _ _ _ _ _ Hb Hn Hu). simpl fst; simpl snd.
  split; [|split; [|split]].
  - destruct Hname as [H|H]; [left|right]; now apply clean_name_nothing_kept.
  - subst path. unfold path_of, object_path.
    destruct Hname as [H|H]; rewrite (clean_name_nothing_kept _ H).
    + apply (contains_middle "//" "gramedia-display").
    + rewrite <- app_assoc_str.
      apply (contains_middle "//" ("gramedia-display/" ++ clean_name store)).
  - reflexivity.
  - apply stored_after_upload.
Qed.

Lemma empty_segment_not_rejected_witness :
  contains "//" (path_of (sample_upload true true) "#!?" "Jane Doe"
                         "education") = true
  /\ fst (upload_image (sample_upload true true) sample_image
                       "#!?" "Jane Doe" "education" sample_world)
     = Some "https://storage.googleapis.com/gramedia-display/gramedia-display//Jane_Doe/2025-03-07/education/140509_1234abcd.jpg".
Proof.
  pose proof (empty_segment_not_rejected
                (sample_upload true true) sample_image "#!?" "Jane Doe"
                "education" sample_world sample_bucket sample_jpeg
                eq_refl eq_refl eq_refl (or_introl eq_refl)) as H.
  split; [exact (proj1 (proj2 H))|exact (proj1 (proj2 (proj2 H)))].
Defined.

(** C7: when the bytes are stored and making the object public fails,
    [upload_image] still returns the public url; the user is shown a
    warning that the image could not be made public and no error, and the
    stored object is not public.  A failed store instead returns nothing
    and shows an error. *)
Theorem not_public_is_partial_success
    (env : UploadEnv) (image : Image) (store employee img_type : string)
    (w : World) (b : Bucket) (img_bytes : Jpeg) :
  bucket w = Some b ->
  normalize image = Some img_bytes ->
  upload_from_file_ok env = true ->
  make_public_ok env = false ->
  let path := path_of env store employee img_type in
  let result := upload_image env image store employee img_type w in
  fst result = Some (public_url (bucket_name b) path) /\
  shown (snd result)
  = (shown w
     ++ [mkMessage LWarning "Image uploaded but could not make public"])%list /\
  option_map (find_blob path) (bucket (snd result))
  = Some (Some (mkBlob path img_bytes "image/jpeg" false)) /\
  (forall env' : UploadEnv,
      upload_from_file_ok env' = false ->
      let failed := upload_image env' image store employee img_type w in
      fst failed = None /\
      shown (snd failed)
      = (shown w ++ [mkMessage LError "Image upload failed"])%list /\
      bucket (snd failed) = bucket w).
Proof.
  intros Hb Hn Hu Hp path result. subst result path.
  rewrite (upload_image_stores _ _ _ _ _ _ _ _ Hb Hn Hu).
  unfold after_upload. rewrite Hp. cbv zeta. simpl.
  unfold find_blob. simpl. rewrite String.eqb_refl.
  repeat split; unfold upload_image; rewrite Hb, Hn, H; simpl;
    congruence.
Qed.

Lemma not_public_is_partial_success_witness :
  fst (upload_image (sample_upload true false) sample_image
                    "Main Store" "Jane Doe" "education" sample_world)
  = Some "https://storage.googleapis.com/gramedia-display/gramedia-display/Main_Store/Jane_Doe/2025-03-07/education/140509_1234abcd.jpg"
  /\ shown (snd (upload_image (sample_upload true false) sample_image
                              "Main Store" "Jane Doe" "education"
                              sample_world))
     = [mkMessage LWarning "Image uploaded but could not make public"].
Proof.
  pose proof (not_public_is_partial_success
                (sample_upload true false) sample_image
                "Main Store" "Jane Doe" "education" sample_world
                sample_bucket sample_jpeg
                eq_refl eq_refl eq_refl eq_refl) as H.
  split; [exact (proj1 H)|exact (proj1 (proj2 H))].
Defined.

(** ** The normaliser *)

Lemma flatten_size (im : Image) :
  width (flatten im) = width im /\ height (flatten im) = height im.
Proof. unfold flatten. destruct (_ || _); split; reflexivity. Qed.

(** What the mode test does, mode by mode. *)
Lemma flatten_mode (im : Image) :
  mode (flatten im)
  = match mode im with
    | M_RGBA | M_P => M_RGB
    | m => m
    end.
Proof. destruct im as [w h [] o]; reflexivity. Qed.

Lemma bound_size_mode (im im' : Image) :
  bound_size im = Some im' -> mode im' = mode im.
Proof.
  unfold bound_size, resize.
  destruct (_ || _)%bool; [|now intros [= <-]].
  destruct (new_size _ _) as [nw nh].
  destruct (_ && _)%bool; [|discriminate]. now intros [= <-].
Qed.

(** The encoder's output has the size and mode of the prepared image. *)
Lemma normalize_prepare (image : Image) (out : Jpeg) :
  normalize image = Some out ->
  exists im, prepare image = Some im /\ jpeg_writable (mode im) = true /\
             out = mkJpeg (width im) (height im) (mode im) 85 true.
Proof.
  unfold normalize, save_jpeg.
  destruct (prepare image) as [im|]; [|discriminate].
  destruct (jpeg_writable (mode im)) eqn:E; [|discriminate].
  intros [= <-]. now exists im.
Qed.

(** When the normaliser produces a picture: the prepared mode must be one
    the encoder writes, and a picture that is scaled down must keep at
    least one pixel on its short side. *)
Lemma normalize_defined (image : Image) :
  let im := flatten (exif_transpose image) in
  jpeg_writable (mode im) = true ->
  (width im <= 1920 /\ height im <= 1920
   \/ 1 <= fst (new_size (width im) (height im))
      /\ 1 <= snd (new_size (width im) (height im)))%Z ->
  exists out, normalize image = Some out.
Proof.
  intros im Hm Hs. unfold normalize, prepare. fold im.
  unfold bound_size, resize.
  destruct ((width im >? 1920) || (height im >? 1920))%Z eqn:Big.
  - destruct Hs as [[Hw Hh]|[Hw Hh]].
    + apply orb_true_iff in Big as [B|B]; apply Z.gtb_lt in B; lia.
    + destruct (new_size (width im) (height im)) as [nw nh]. simpl in *.
      apply Z.leb_le in Hw, Hh. rewrite Hw, Hh. simpl.
      unfold save_jpeg. simpl. rewrite Hm. eauto.
  - unfold save_jpeg. rewrite Hm. eauto.
Qed.

Lemma resize_size (nw nh : Z) (im im' : Image) :
  resize nw nh im = Some im' -> width im' = nw /\ height im' = nh.
Proof.
  unfold resize. destruct (_ && _)%bool; [|discriminate].
  intros E. assert (im' = mkImage nw nh (mode im) (orientation im))
    by congruence.
  subst im'. split; reflexivity.
Qed.

(** The resize step either leaves a small picture alone or gives it the
    computed size. *)
Lemma bound_size_cases (im im' : Image) :
  bound_size im = Some im' ->
  ((width im <= 1920 /\ height im <= 1920)%Z /\ im' = im)
  \/ ((width im > 1920 \/ height im > 1920)%Z
      /\ (width im', height im') = new_size (width im) (height im)).
Proof.
  unfold bound_size.
  destruct (Z.gtb_spec (width im) 1920) as [W|W];
    destruct (Z.gtb_spec (height im) 1920) as [H|H]; cbn [orb];
    try (destruct (new_size (width im) (height im)) as [nw nh];
         intros E; apply resize_size in E as [-> ->]; right;
         split; [lia|reflexivity]).
  intros E. left. split; [lia|congruence].
Qed.

(** The computed size: the longer side becomes 1920 and the other side
    is the exactly scaled one rounded down. *)
Lemma new_size_scaled (w h : Z) :
  (0 < w)%Z -> (0 < h)%Z ->
  let M := Z.max w h in
  Z.max (fst (new_size w h)) (snd (new_size w h)) = 1920%Z /\
  (Z.abs (fst (new_size w h) * M - 1920 * w) < M)%Z /\
  (Z.abs (snd (new_size w h) * M - 1920 * h) < M)%Z.
Proof.
  intros Hw Hh M. subst M. unfold new_size.
  destruct (Z.gtb_spec w h) as [Wide|Tall]; cbn [fst snd].
  - pose proof (Z.div_mod (1920 * h) w ltac:(lia)) as D.
    pose proof (Z.mod_pos_bound (1920 * h) w ltac:(lia)) as R.
    assert (Q : ((1920 * h) / w < 1920)%Z)
      by (apply Z.div_lt_upper_bound; lia).
    replace (Z.max w h) with w by lia.
    repeat split; lia.
  - pose proof (Z.div_mod (1920 * w) h ltac:(lia)) as D.
    pose proof (Z.mod_pos_bound (1920 * w) h ltac:(lia)) as R.
    assert (Q : ((1920 * w) / h <= 1920)%Z)
      by (apply Z.div_le_upper_bound; lia).
    replace (Z.max w h) with h by lia.
    repeat split; lia.
Qed.

(** C3: after the orientation is corrected, a picture with both sides at
    most 1920 keeps its size; a picture with a side above 1920 comes out
    with its longer side equal to 1920 and each side within less than one
    pixel of the exactly scaled side (size * 1920 / longer side). *)
Theorem normalize_dimensions (image : Image) (out : Jpeg) :
  let w := width (exif_transpose image) in
  let h := height (exif_transpose image) in
  (0 < w)%Z -> (0 < h)%Z ->
  normalize image = Some out ->
  ((w <= 1920 /\ h <= 1920)%Z ->
   jpeg_width out = w /\ jpeg_height out = h) /\
  ((w > 1920 \/ h > 1920)%Z ->
   Z.max (jpeg_width out) (jpeg_height out) = 1920%Z /\
   (Z.abs (jpeg_width out * Z.max w h - 1920 * w) < Z.max w h)%Z /\
   (Z.abs (jpeg_height out * Z.max w h - 1920 * h) < Z.max w h)%Z).
Proof.
  intros w h Hw Hh Hn.
  apply normalize_prepare in Hn as (im & Hp & _ & ->).
  cbn [jpeg_width jpeg_height].
  destruct (flatten_size (exif_transpose image)) as [Fw Fh].
  apply bound_size_cases in Hp. rewrite Fw, Fh in Hp. fold w h in Hp.
  destruct Hp as [[Small ->]|[Big E]].
  - rewrite Fw, Fh. fold w h. split; [auto|lia].
  - split; [lia|]. intros _.
    pose proof (new_size_scaled w h Hw Hh) as S. rewrite <- E in S.
    exact S.
Qed.

Lemma normalize_dimensions_witness :
  normalize (mkImage 3000 4000 M_RGBA 6)
  = Some (mkJpeg 1920 1440 M_RGB 85 true)
  /\ Z.max 1920 1440 = 1920%Z.
Proof.
  split; [reflexivity|].
  exact (proj1 (proj2 (normalize_dimensions
                         (mkImage 3000 4000 M_RGBA 6)
                         (mkJpeg 1920 1440 M_RGB 85 true)
                         eq_refl eq_refl eq_refl)
                      (or_introl eq_refl))).
Defined.

(** Whatever is encoded has neither a transparency band nor a colour
    table. *)
Lemma normalize_opaque (image : Image) (out : Jpeg) :
  normalize image = Some out ->
  has_alpha (jpeg_mode out) = false /\ has_palette (jpeg_mode out) = false.
Proof.
  intros H. apply normalize_prepare in H as (im & _ & Hm & ->). simpl.
  destruct (mode im); try discriminate; split; reflexivity.
Qed.

(** The two modes the test names are turned into RGB before encoding. *)
Lemma named_modes_flattened (image im : Image) :
  mode image = M_RGBA \/ mode image = M_P ->
  prepare image = Some im -> mode im = M_RGB.
Proof.
  intros Hm Hp. unfold prepare in Hp.
  rewrite (bound_size_mode _ _ Hp), flatten_mode.
  unfold exif_transpose. destruct (_ && _)%bool; simpl;
    destruct Hm as [-> | ->]; reflexivity.
Qed.

(** C8: a grey picture with a transparency band (mode LA, as a PNG can
    have) carries alpha, yet the mode test does not name it: the image
    handed to the encoder is still in mode LA, not RGB, the encoder
    refuses it, and the upload of that photo fails. *)
Theorem grey_alpha_not_flattened :
  let image := mkImage 800 600 M_LA 1 in
  has_alpha (mode image) = true /\
  prepare image = Some (mkImage 800 600 M_LA 1) /\
  normalize image = None /\
  upload_image (sample_upload true true) image "Main Store" "Jane Doe"
               "education" sample_world
  = (None, show LError "Image upload failed" sample_world).
Proof. repeat split. Qed.

(** ** The catalogue sheets *)

Section Catalogue.

Variable column : string.

Lemma get_all_records_append (keys : list string) (rows : Worksheet)
      (values : list (option string)) :
  get_all_records (append_row values (keys :: rows))
  = (get_all_records (keys :: rows)
     ++ [combine keys (map cell_text values)])%list.
Proof. unfold append_row. simpl. now rewrite map_app. Qed.

(** The record read back from an appended one-cell row. *)
Lemma dict_get_first (keys : list string) (v : string) :
  dict_get column "" (combine (column :: keys) [v]) = v.
Proof.
  unfold dict_get. destruct keys; simpl; now rewrite String.eqb_refl.
Qed.

Lemma listed_after_append (keys : list string) (rows : Worksheet)
      (name : string) :
  already_listed column name
    (get_all_records
       (append_row [Some (strip name)] ((column :: keys) :: rows)))
  = true.
Proof.
  rewrite get_all_records_append. unfold already_listed.
  rewrite existsb_app.
  change (map cell_text [Some (strip name)]) with [strip name].
  cbn [existsb].
  rewrite dict_get_first, strip_strip, String.eqb_refl.
  now rewrite !orb_true_r.
Qed.

Lemma occurrences_after_append (keys : list string) (rows : Worksheet)
      (name : string) :
  occurrences column name
    (Some (append_row [Some (strip name)] ((column :: keys) :: rows)))
  = S (occurrences column name (Some ((column :: keys) :: rows))).
Proof.
  unfold occurrences. rewrite get_all_records_append, filter_app.
  change (map cell_text [Some (strip name)]) with [strip name].
  cbn [filter].
  rewrite dict_get_first, strip_strip, String.eqb_refl.
  rewrite List.length_app. cbn [List.length]. lia.
Qed.

Lemma listed_occurrences (name : string) (ws : Worksheet) :
  already_listed column name (get_all_records ws) = true
  <-> 0 < occurrences column name (Some ws).
Proof.
  unfold already_listed, occurrences.
  induction (get_all_records ws) as [|r rs IH]; simpl.
  - split; [discriminate|lia].
  - destruct (String.eqb _ _); simpl; [split; [lia|reflexivity]|exact IH].
Qed.

End Catalogue.

(** Only the stripped name matters to the lookup. *)
Lemma already_listed_strip (column name name' : string) :
  strip name' = strip name ->
  already_listed column name' = already_listed column name.
Proof. intros H. unfold already_listed. now rewrite H. Qed.

(** Only the stripped name matters to the loop. *)
Lemma find_name_strip (column name name' : string) (records : list PyDict) :
  strip name' = strip name ->
  find_name column name' records = find_name column name records.
Proof.
  intros H. induction records as [|r rs IH]; simpl; [reflexivity|].
  rewrite H, IH. reflexivity.
Qed.

(** On a column of texts the loop finds the name exactly when the sheet
    lists it. *)
Lemma find_name_text (column name : string) (records : list PyDict) :
  text_records column records = true ->
  find_name column name records = Some (already_listed column name records).
Proof.
  induction records as [|r rs IH]; simpl; [reflexivity|].
  intros H. apply andb_true_iff in H as [Hr Hs].
  unfold numericise. apply negb_true_iff in Hr. rewrite Hr.
  destruct (String.eqb _ _); [reflexivity|]. simpl. now apply IH.
Qed.

(** A name the loop finds is listed. *)
Lemma find_name_found (column name : string) (records : list PyDict) :
  find_name column name records = Some true ->
  already_listed column name records = true.
Proof.
  induction records as [|r rs IH]; simpl; [discriminate|].
  unfold numericise. destruct (number_like _); [discriminate|].
  destruct (String.eqb _ _); [reflexivity|]. simpl. exact IH.
Qed.

Lemma text_records_append (column : string) (keys : list string)
      (rows : Worksheet) (v : string) :
  text_records column
    (get_all_records (append_row [Some v] ((column :: keys) :: rows)))
  = text_records column (get_all_records ((column :: keys) :: rows))
    && negb (number_like v).
Proof.
  rewrite get_all_records_append. unfold text_records.
  rewrite forallb_app.
  change (map cell_text [Some v]) with [v]. cbn [forallb].
  now rewrite dict_get_first, andb_true_r.
Qed.

(** What an add does to a sheet of texts when its calls go through. *)
Lemma add_store_text (env : SheetEnv) (name : string) (w : World)
      (ws : Worksheet) :
  store_worksheet w = Some ws ->
  get_all_records_ok env = true ->
  text_records "Store_Name" (get_all_records ws) = true ->
  add_store_to_sheet env name w
  = if already_listed "Store_Name" name (get_all_records ws)
    then (true, w)
    else if append_row_ok env
         then (true, set_store_worksheet
                       (append_row [Some (strip name)] ws) w)
         else (false, show LError "Error adding store" w).
Proof.
  intros Hs Hr Ht. unfold add_store_to_sheet.
  rewrite Hs, Hr, (find_name_text _ _ _ Ht).
  now destruct (already_listed _ _ _).
Qed.

Lemma add_employee_text (env : SheetEnv) (name : string) (w : World)
      (ws : Worksheet) :
  employee_worksheet w = Some ws ->
  get_all_records_ok env = true ->
  text_records "Employee_Name" (get_all_records ws) = true ->
  add_employee_to_sheet env name w
  = if already_listed "Employee_Name" name (get_all_records ws)
    then (true, w)
    else if append_row_ok env
         then (true, set_employee_worksheet
                       (append_row [Some (strip name)] ws) w)
         else (false, show LError "Error adding employee" w).
Proof.
  intros Hs Hr Ht. unfold add_employee_to_sheet.
  rewrite Hs, Hr, (find_name_text _ _ _ Ht).
  now destruct (already_listed _ _ _).
Qed.

Lemma max_one (n : nat) : 0 < n -> n = Nat.max 1 n.
Proof. lia. Qed.

Lemma max_one_zero (n : nat) : ~ 0 < n -> S n = Nat.max 1 n.
Proof. lia. Qed.

Lemma add_store_twice (env1 env2 : SheetEnv) (name name' : string)
      (w : World) :
  strip name' = strip name ->
  get_all_records_ok env1 = true -> append_row_ok env1 = true ->
  get_all_records_ok env2 = true ->
  headed_by "Store_Name" (store_worksheet w) ->
  text_column "Store_Name" (store_worksheet w) = true ->
  number_like (strip name) = false ->
  let first := add_store_to_sheet env1 name w in
  let second := add_store_to_sheet env2 name' (snd first) in
  fst first = true /\ fst second = true /\ snd second = snd first /\
  occurrences "Store_Name" name (store_worksheet (snd second))
  = Nat.max 1 (occurrences "Store_Name" name (store_worksheet w)).
Proof.
  intros Hn R1 A1 R2 (keys & rows & Hs) Ht Hx. cbv zeta.
  rewrite Hs in Ht. unfold text_column in Ht.
  rewrite (add_store_text env1 name w _ Hs R1 Ht), A1.
  destruct (already_listed "Store_Name" name
              (get_all_records (("Store_Name" :: keys) :: rows))) eqn:Hl.
  - cbn [fst snd].
    rewrite (add_store_text env2 name' w _ Hs R2 Ht).
    rewrite (already_listed_strip _ _ _ Hn), Hl. cbn [fst snd].
    rewrite ?Hs. repeat split.
    match goal with |- ?a = Nat.max 1 ?b => change a with b end.
    apply max_one. now apply listed_occurrences.
  - cbn [fst snd].
    assert (Ht' : text_records "Store_Name"
                    (get_all_records
                       (append_row [Some (strip name)]
                                   (("Store_Name" :: keys) :: rows)))
                  = true).
    { now rewrite text_records_append, Ht, Hx. }
    rewrite (add_store_text env2 name' (set_store_worksheet _ w) _
               eq_refl R2 Ht').
    rewrite (already_listed_strip _ _ _ Hn), listed_after_append.
    cbn [fst snd set_store_worksheet store_worksheet].
    rewrite Hs, occurrences_after_append.
    repeat split.
    match goal with |- S ?a = Nat.max 1 ?b => change a with b end.
    apply max_one_zero. rewrite <- listed_occurrences, Hl. discriminate.
Qed.

Lemma add_employee_twice (env1 env2 : SheetEnv) (name name' : string)
      (w : World) :
  strip name' = strip name ->
  get_all_records_ok env1 = true -> append_row_ok env1 = true ->
  get_all_records_ok env2 = true ->
  headed_by "Employee_Name" (employee_worksheet w) ->
  text_column "Employee_Name" (employee_worksheet w) = true ->
  number_like (strip name) = false ->
  let first := add_employee_to_sheet env1 name w in
  let second := add_employee_to_sheet env2 name' (snd first) in
  fst first = true /\ fst second = true /\ snd second = snd first /\
  occurrences "Employee_Name" name (employee_worksheet (snd second))
  = Nat.max 1 (occurrences "Employee_Name" name (employee_worksheet w)).
Proof.
  intros Hn R1 A1 R2 (keys & rows & Hs) Ht Hx. cbv zeta.
  rewrite Hs in Ht. unfold text_column in Ht.
  rewrite (add_employee_text env1 name w _ Hs R1 Ht), A1.
  destruct (already_listed "Employee_Name" name
              (get_all_records (("Employee_Name" :: keys) :: rows))) eqn:Hl.
  - cbn [fst snd].
    rewrite (add_employee_text env2 name' w _ Hs R2 Ht).
    rewrite (already_listed_strip _ _ _ Hn), Hl. cbn [fst snd].
    rewrite ?Hs. repeat split.
    match goal with |- ?a = Nat.max 1 ?b => change a with b end.
    apply max_one. now apply listed_occurrences.
  - cbn [fst snd].
    assert (Ht' : text_records "Employee_Name"
                    (get_all_records
                       (append_row [Some (strip name)]
                                   (("Employee_Name" :: keys) :: rows)))
                  = true).
    { now rewrite text_records_append, Ht, Hx. }
    rewrite (add_employee_text env2 name' (set_employee_worksheet _ w) _
               eq_refl R2 Ht').
    rewrite (already_listed_strip _ _ _ Hn), listed_after_append.
    cbn [fst snd set_employee_worksheet employee_worksheet].
    rewrite Hs, occurrences_after_append.
    repeat split.
    match goal with |- S ?a = Nat.max 1 ?b => change a with b end.
    apply max_one_zero. rewrite <- listed_occurrences, Hl. discriminate.
Qed.

(** C6, as the code has it: on a catalogue sheet whose first header
    cell is the catalogue's column and whose cells under it do not read
    as numbers, with the sheet calls going through, adding is idempotent
    on stripped names.  When a record whose stripped value equals the
    stripped name is in the sheet, the add changes nothing and reports
    success; two adds in a row of names that strip to the same text,
    itself not number-like, leave the sheet as the first add left it,
    both report success, and a name that was not listed before is then
    listed exactly once.  Both catalogues behave this way. *)
Theorem catalog_add_idempotent
    (env1 env2 : SheetEnv) (name name' : string) (w : World) :
  strip name' = strip name ->
  get_all_records_ok env1 = true -> get_all_records_ok env2 = true ->
  (forall ws,
      store_worksheet w = Some ws ->
      text_records "Store_Name" (get_all_records ws) = true ->
      already_listed "Store_Name" name (get_all_records ws) = true ->
      add_store_to_sheet env1 name w = (true, w)) /\
  (forall ws,
      employee_worksheet w = Some ws ->
      text_records "Employee_Name" (get_all_records ws) = true ->
      already_listed "Employee_Name" name (get_all_records ws) = true ->
      add_employee_to_sheet env1 name w = (true, w)) /\
  (append_row_ok env1 = true ->
   headed_by "Store_Name" (store_worksheet w) ->
   text_column "Store_Name" (store_worksheet w) = true ->
   number_like (strip name) = false ->
   let first := add_store_to_sheet env1 name w in
   let second := add_store_to_sheet env2 name' (snd first) in
   fst first = true /\ fst second = true /\ snd second = snd first /\
   occurrences "Store_Name" name (store_worksheet (snd second))
   = Nat.max 1 (occurrences "Store_Name" name (store_worksheet w))) /\
  (append_row_ok env1 = true ->
   headed_by "Employee_Name" (employee_worksheet w) ->
   text_column "Employee_Name" (employee_worksheet w) = true ->
   number_like (strip name) = false ->
   let first := add_employee_to_sheet env1 name w in
   let second := add_employee_to_sheet env2 name' (snd first) in
   fst first = true /\ fst second = true /\ snd second = snd first /\
   occurrences "Employee_Name" name (employee_worksheet (snd second))
   = Nat.max 1 (occurrences "Employee_Name" name (employee_worksheet w))).
Proof.
  intros Hn R1 R2. split; [|split; [|split]].
  - intros ws Hs Ht Hl. rewrite (add_store_text _ _ _ _ Hs R1 Ht).
    now rewrite Hl.
  - intros ws Hs Ht Hl. rewrite (add_employee_text _ _ _ _ Hs R1 Ht).
    now rewrite Hl.
  - intros A1 Hh Ht Hx. now apply add_store_twice.
  - intros A1 Hh Ht Hx. now apply add_employee_twice.
Qed.

Lemma catalog_add_idempotent_witness :
  let ok := mkSheetEnv true true in
  let first := add_store_to_sheet ok " Main Store" sample_world in
  let second := add_store_to_sheet ok "Main Store  " (snd first) in
  store_worksheet (snd first) = Some [["Store_Name"]; ["Main Store"]] /\
  snd second = snd first /\
  occurrences "Store_Name" " Main Store" (store_worksheet (snd second)) = 1.
Proof.
  cbv zeta. split; [reflexivity|].
  destruct (catalog_add_idempotent
              (mkSheetEnv true true) (mkSheetEnv true true)
              " Main Store" "Main Store  " sample_world
              eq_refl eq_refl eq_refl) as (_ & _ & H & _).
  destruct (H eq_refl (ex_intro _ [] (ex_intro _ [] eq_refl))
              eq_refl eq_refl)
    as (_ & _ & E & C).
  split; [exact E|exact C].
Defined.

(** C6 as the claim has it does not hold for every name and sheet.  A
    name that reads as a number is added once, and the second add then
    meets a number in the records, fails and reports an error although
    the sheet holds the name; and on a store sheet whose header is not
    the catalogue's column no add ever finds what was added, so two
    adds of a name leave it in the sheet twice. *)
Lemma catalog_add_not_idempotent :
  let ok := mkSheetEnv true true in
  (let first := add_store_to_sheet ok "123" sample_world in
   let second := add_store_to_sheet ok "123" (snd first) in
   fst first = true /\
   store_worksheet (snd first) = Some [["Store_Name"]; ["123"]] /\
   second = (false, show LError "Error adding store" (snd first))) /\
  (let first := add_store_to_sheet ok "Depok" foreign_world in
   let second := add_store_to_sheet ok "Depok" (snd first) in
   fst first = true /\ fst second = true /\
   store_worksheet (snd second) = Some [["Name"]; ["Depok"]; ["Depok"]]).
Proof. cbv zeta. repeat split. Qed.

(** ** Validation *)

(** A guarded message is in the list when its guard holds, wherever the
    guard stands in the sequence of tests. *)
Ltac reported :=
  unfold validate;
  repeat (apply in_or_app;
          first [ left; unfold check;
                  match goal with
                  | H : ?c = true |- context [if ?c then _ else _] =>
                      rewrite H; now left
                  end
                | right ]);
  unfold check;
  match goal with
  | H : ?c = true |- context [if ?c then _ else _] => rewrite H; now left
  end.

Lemma submit_invalid (env : SubmitEnv) (f : FormState) (w : World) :
  validate f <> [] ->
  submit env f w
  = (Invalid (validate f),
     show LMarkdown ("Please complete: " ++ join_errors (validate f)) w).
Proof.
  intros H. unfold submit. destruct (validate f); [now elim H|reflexivity].
Qed.

(** C5: validation runs every rule and reports each one that fails, not
    only the first (a missing poster photo puts "Poster photo is
    required" in the list whatever else is missing); and when the list is
    not empty the submission ends there: nothing is uploaded to the
    bucket and no sheet, the record sink included, is written. *)
Theorem validation_collects_and_blocks
    (env : SubmitEnv) (f : FormState) (w : World) :
  (nonempty (strip (store_name f)) = false ->
   In "Store name is required" (validate f)) /\
  (nonempty (strip (employee_name f)) = false ->
   In "Employee name is required" (validate f)) /\
  (education_photo f = None ->
   In "Education photo is required" (validate f)) /\
  (poster_photo f = None ->
   In "Poster photo is required" (validate f)) /\
  (participation f = SelectPlaceholder ->
   In "Please select participation status" (validate f)) /\
  (participation f = Yes -> display_photo f = None ->
   In "Display competition photo is required when participating"
      (validate f)) /\
  (participation f = No -> nonempty (strip (reason_input f)) = false ->
   In "Reason is required when not participating" (validate f)) /\
  (validate f <> [] ->
   fst (submit env f w) = Invalid (validate f) /\
   bucket (snd (submit env f w)) = bucket w /\
   main_worksheet (snd (submit env f w)) = main_worksheet w /\
   store_worksheet (snd (submit env f w)) = store_worksheet w /\
   employee_worksheet (snd (submit env f w)) = employee_worksheet w).
Proof.
  repeat match goal with |- _ /\ _ => split end.
  - intros H. apply negb_true_iff in H. reported.
  - intros H. apply negb_true_iff in H. reported.
  - intros H.
    assert (E : negb (present (education_photo f)) = true) by now rewrite H.
    reported.
  - intros H.
    assert (E : negb (present (poster_photo f)) = true) by now rewrite H.
    reported.
  - intros H.
    assert (E : String.eqb (participation_text (participation f))
                           "Select..." = true) by now rewrite H.
    reported.
  - intros Hp Hd.
    assert (E : is_yes (participation f)
                && negb (present (display_competition_photo f)) = true).
    { unfold display_competition_photo. now rewrite Hp, Hd. }
    reported.
  - intros Hp Hr.
    assert (E : is_no (participation f)
                && negb (nonempty (strip (non_participation_reason f)))
                = true).
    { unfold non_participation_reason. now rewrite Hp, Hr. }
    reported.
  - intros H. rewrite (submit_invalid env f w H). repeat split.
Qed.

Lemma validation_collects_and_blocks_witness :
  In "Poster photo is required" (validate form_without_poster) /\
  fst (submit (sample_env true true true) form_without_poster sample_world)
  = Invalid ["Poster photo is required"] /\
  bucket (snd (submit (sample_env true true true) form_without_poster
                      sample_world))
  = Some sample_bucket.
Proof.
  pose proof (validation_collects_and_blocks
                (sample_env true true true) form_without_poster sample_world)
    as (_ & _ & _ & P & _ & _ & _ & B).
  split; [exact (P eq_refl)|].
  assert (N : validate form_without_poster <> []) by discriminate.
  destruct (B N) as (O & K & _). split; [exact O|exact K].
Defined.

(** ** The processing of a valid form *)

Lemma add_store_keeps (env : SheetEnv) (name : string) (w : World) :
  let w' := snd (add_store_to_sheet env name w) in
  bucket w' = bucket w /\ main_worksheet w' = main_worksheet w.
Proof.
  unfold add_store_to_sheet.
  destruct (store_worksheet w); [|now split].
  destruct (get_all_records_ok env); [|now split].
  destruct (find_name _ _ _) as [[|]|]; [now split| |now split].
  destruct (append_row_ok env); now split.
Qed.

Lemma add_employee_keeps (env : SheetEnv) (name : string) (w : World) :
  let w' := snd (add_employee_to_sheet env name w) in
  bucket w' = bucket w /\ main_worksheet w' = main_worksheet w.
Proof.
  unfold add_employee_to_sheet.
  destruct (employee_worksheet w); [|now split].
  destruct (get_all_records_ok env); [|now split].
  destruct (find_name _ _ _) as [[|]|]; [now split| |now split].
  destruct (append_row_ok env); now split.
Qed.

(** The catalogue step writes neither the bucket nor the record sink. *)
Lemma handle_new_entities_keeps (env : SubmitEnv) (f : FormState)
      (w : World) :
  let w' := snd (handle_new_entities env f w) in
  bucket w' = bucket w /\ main_worksheet w' = main_worksheet w.
Proof.
  unfold handle_new_entities.
  pose proof (add_store_keeps (env_store env) (store_name f) w) as S.
  destruct (String.eqb (store_select f) "+ New Store").
  - destruct (add_store_to_sheet _ _ w) as [ok1 w1]. simpl in S.
    destruct ok1; [|exact S]. simpl negb. cbv iota.
    pose proof (add_employee_keeps (env_employee env) (employee_name f) w1)
      as E.
    destruct (String.eqb (employee_select f) "+ New Employee").
    + destruct (add_employee_to_sheet _ _ w1) as [ok2 w2]. simpl in E.
      destruct ok2; simpl; destruct S, E; split; congruence.
    + exact S.
  - simpl negb. cbv iota.
    pose proof (add_employee_keeps (env_employee env) (employee_name f) w)
      as E.
    destruct (String.eqb (employee_select f) "+ New Employee").
    + destruct (add_employee_to_sheet _ _ w) as [ok2 w2]. simpl in E.
      destruct ok2; exact E.
    + now split.
Qed.

(** The optional third upload removes no object and writes no sheet. *)
Lemma upload_display_keeps (env : SubmitEnv) (f : FormState)
      (w w' : World) (display_url : option string) :
  upload_display env f w = Some (display_url, w') ->
  main_worksheet w' = main_worksheet w /\
  (forall p, stored p w = true -> stored p w' = true).
Proof.
  unfold upload_display.
  destruct (_ && _)%bool; [|intros [= _ <-]; now split].
  destruct (image_open _) as [img|]; [|discriminate].
  intros [= E].
  pose proof (upload_image_keeps (env_display env) img (store_name f)
                (employee_name f) "display_competition" w) as K.
  rewrite E in K. simpl in K. destruct K as (M & _ & _ & S). now split.
Qed.

(** Without both required urls the closing step only shows an error. *)
Lemma finish_without_url (env : SubmitEnv) (f : FormState)
      (education_url poster_url display_url : option string) (w : World) :
  education_url = None \/ poster_url = None ->
  finish env f education_url poster_url display_url w
  = (UploadFailed, show LError "Failed to upload images" w).
Proof.
  intros [-> | ->]; unfold finish; simpl; [reflexivity|].
  now rewrite andb_false_r.
Qed.

(** The two required uploads write no sheet, remove no object, and leave
    an object behind for each url they return. *)
Lemma upload_required_keeps (env : SubmitEnv) (f : FormState)
      (education_img poster_img : Image) (w w' : World)
      (education_url poster_url : option string) :
  upload_required env f education_img poster_img w
  = ((education_url, poster_url), w') ->
  main_worksheet w' = main_worksheet w /\
  (forall p, stored p w = true -> stored p w' = true) /\
  (education_url <> None ->
   stored (path_of (env_education env) (store_name f) (employee_name f)
                   "education") w' = true) /\
  (poster_url <> None ->
   stored (path_of (env_poster env) (store_name f) (employee_name f)
                   "poster") w' = true).
Proof.
  unfold upload_required.
  destruct (upload_image (env_education env) education_img (store_name f)
              (employee_name f) "education" w) as [eu w1] eqn:E1.
  destruct (upload_image (env_poster env) poster_img (store_name f)
              (employee_name f) "poster" w1) as [pu w2] eqn:E2.
  intros [= <- <- <-].
  pose proof (upload_image_keeps (env_education env) education_img
                (store_name f) (employee_name f) "education" w) as K1.
  pose proof (upload_image_keeps (env_poster env) poster_img
                (store_name f) (employee_name f) "poster" w1) as K2.
  rewrite E1 in K1. rewrite E2 in K2. simpl in K1, K2.
  destruct K1 as (M1 & _ & _ & S1), K2 as (M2 & _ & _ & S2).
  split; [congruence|]. split; [auto|]. split.
  - intros N. destruct eu as [url|]; [|now elim N].
    apply upload_image_some in E1 as (b & bytes & _ & _ & _ & _ & ->).
    apply S2, stored_after_upload.
  - intros N. destruct pu as [url|]; [|now elim N].
    apply upload_image_some in E2 as (b & bytes & _ & _ & _ & _ & ->).
    apply stored_after_upload.
Qed.

(** C2: when the education upload or the poster upload returns no url,
    the submission ends without a row: the record sink is as it was
    before the button was pressed.  Nothing is cleaned up: every object
    in the bucket after the two required uploads is still there at the
    end, in particular the object of whichever of the two did succeed. *)
Theorem failed_required_upload_appends_no_row
    (env : SubmitEnv) (f : FormState) (w w2 w4 : World)
    (education_img poster_img : Image)
    (education_url poster_url : option string) :
  validate f = [] ->
  handle_new_entities env f w = (true, w2) ->
  image_open (education_photo f) = Some education_img ->
  image_open (poster_photo f) = Some poster_img ->
  upload_required env f education_img poster_img w2
  = ((education_url, poster_url), w4) ->
  education_url = None \/ poster_url = None ->
  let result := submit env f w in
  (fst result = UploadFailed \/ fst result = Crashed) /\
  main_worksheet (snd result) = main_worksheet w /\
  (forall p, stored p w4 = true -> stored p (snd result) = true) /\
  (education_url <> None ->
   stored (path_of (env_education env) (store_name f) (employee_name f)
                   "education") (snd result) = true) /\
  (poster_url <> None ->
   stored (path_of (env_poster env) (store_name f) (employee_name f)
                   "poster") (snd result) = true).
Proof.
  intros Hv Hh He Hp Hu Hnone result.
  pose proof (handle_new_entities_keeps env f w) as [_ M0].
  rewrite Hh in M0. simpl in M0.
  destruct (upload_required_keeps _ _ _ _ _ _ _ _ Hu) as (M1 & _ & S1 & S2).
  assert (R : exists w5,
             (fst result = UploadFailed \/ fst result = Crashed) /\
             main_worksheet (snd result) = main_worksheet w5 /\
             (forall p, stored p w5 = true -> stored p (snd result) = true) /\
             main_worksheet w5 = main_worksheet w4 /\
             (forall p, stored p w4 = true -> stored p w5 = true)).
  { subst result. unfold submit. rewrite Hv. unfold process.
    rewrite Hh, He, Hp, Hu.
    destruct (upload_display env f w4) as [[display_url w5]|] eqn:D.
    - rewrite (finish_without_url _ _ _ _ _ _ Hnone).
      apply upload_display_keeps in D as [M5 S5].
      exists w5. simpl. repeat split; auto.
    - exists w4. simpl. repeat split; auto. }
  destruct R as (w5 & O & M & S & M5 & S5).
  split; [exact O|]. split; [congruence|].
  split; [auto|]. split; auto.
Qed.

(** Scenario D: the education bytes are stored, the poster bytes are not. *)
Lemma failed_required_upload_appends_no_row_witness :
  fst (submit (sample_env true false true) sample_form sample_world)
  = UploadFailed /\
  main_worksheet (snd (submit (sample_env true false true) sample_form
                              sample_world))
  = Some [main_headers] /\
  stored "gramedia-display/Main_Store/Jane_Doe/2025-03-07/education/140509_1234abcd.jpg"
         (snd (submit (sample_env true false true) sample_form sample_world))
  = true.
Proof.
  split; [reflexivity|].
  destruct (failed_required_upload_appends_no_row
              (sample_env true false true) sample_form sample_world
              _ _ sample_image sample_image _ _
              eq_refl eq_refl eq_refl eq_refl eq_refl (or_intror eq_refl))
    as (_ & M & _ & E & _).
  split; [exact M|]. apply E. discriminate.
Defined.

(** ** The appended row *)

Lemma nonempty_strip (s : string) :
  nonempty (strip s) = true -> nonempty s = true.
Proof. destruct s; [discriminate|reflexivity]. Qed.

(** A url returned by [upload_image] is never the empty text. *)
Lemma upload_image_truthy (env : UploadEnv) (image : Image)
      (store employee img_type : string) (w : World) :
  truthy (fst (upload_image env image store employee img_type w))
  = present (fst (upload_image env image store employee img_type w)).
Proof.
  destruct (upload_image env image store employee img_type w)
    as [[url|] w'] eqn:E; [|reflexivity].
  now apply upload_image_some in E as (b & bytes & _ & _ & _ & -> & _).
Qed.

(** A valid form has a reason when the answer is "No" and a display photo
    when the answer is "Yes". *)
Lemma valid_conditionals (f : FormState) :
  validate f = [] ->
  match participation f with
  | Yes => present (display_photo f) = true
  | No => nonempty (reason_input f) = true
  | SelectPlaceholder => False
  end.
Proof.
  unfold validate. intros H.
  do 4 (apply app_eq_nil in H as [_ H]).
  apply app_eq_nil in H as [H5 H]. apply app_eq_nil in H as [H6 H7].
  unfold check, display_competition_photo, non_participation_reason in *.
  destruct (participation f); simpl in *.
  - discriminate.
  - destruct (present (display_photo f)); [reflexivity|discriminate].
  - apply nonempty_strip.
    destruct (nonempty (strip (reason_input f))); [reflexivity|discriminate].
Qed.

(** The row a valid form leads to, column by column: the answer, then the
    display url only for "Yes" and the reason only for "No".  For "No"
    the url cell is empty and the reason is not; for "Yes" the reason is
    empty and the url cell holds what the display upload returned. *)
Lemma row_conditionals (env : SubmitEnv) (f : FormState)
      (education_url poster_url display_url : option string) :
  validate f = [] ->
  let row := map cell_text
                 (row_data (build_data env f education_url poster_url
                                       display_url)) in
  cell 5 row = participation_text (participation f) /\
  cell 9 row = "Submitted" /\
  match participation f with
  | Yes => cell 6 row = cell_text display_url /\ cell 7 row = ""
  | No => cell 6 row = "" /\ nonempty (cell 7 row) = true
  | SelectPlaceholder => False
  end.
Proof.
  intros Hv. pose proof (valid_conditionals f Hv) as C. cbv zeta.
  unfold build_data, row_data, cell, non_participation_reason. simpl.
  destruct (participation f); simpl; auto.
Qed.

(** What a submission that appends a row went through. *)
Lemma submit_appended (env : SubmitEnv) (f : FormState) (w w' : World) :
  submit env f w = (RecordAppended, w') ->
  exists w2 education_img poster_img education_url poster_url w4
         display_url w5 ws,
    validate f = [] /\
    handle_new_entities env f w = (true, w2) /\
    image_open (education_photo f) = Some education_img /\
    image_open (poster_photo f) = Some poster_img /\
    upload_required env f education_img poster_img w2
    = ((education_url, poster_url), w4) /\
    upload_display env f w4 = Some (display_url, w5) /\
    truthy education_url = true /\ truthy poster_url = true /\
    main_worksheet w5 = Some ws /\
    main_worksheet w'
    = Some (append_row
              (row_data (build_data env f education_url poster_url
                                    display_url)) ws).
Proof.
  unfold submit.
  destruct (validate f) eqn:Hv; [|discriminate].
  unfold process.
  destruct (handle_new_entities env f w) as [[|] w2] eqn:Hh;
    [|discriminate].
  destruct (image_open (education_photo f)) as [education_img|];
    [|discriminate].
  destruct (image_open (poster_photo f)) as [poster_img|]; [|discriminate].
  destruct (upload_required env f education_img poster_img w2)
    as [[education_url poster_url] w4] eqn:Hu.
  destruct (upload_display env f w4) as [[display_url w5]|] eqn:Hd;
    [|discriminate].
  unfold finish, save_data.
  destruct (truthy education_url) eqn:Te; [|discriminate].
  destruct (truthy poster_url) eqn:Tp; [|discriminate].
  cbn [andb].
  destruct (main_worksheet w5) as [ws|] eqn:Hm; [|discriminate].
  destruct (append_row_ok (env_save env)); [|discriminate].
  intros [= <-].
  exists w2, education_img, poster_img, education_url, poster_url, w4,
    display_url, w5, ws.
  repeat split; auto.
Qed.

(** The one way in which an appended row can lack both the display url
    and the reason: the answer is "Yes" and the display upload returned
    no url.  In every other case exactly one of the two cells is filled,
    as the answer says. *)
Lemma appended_row_conditionals (env : SubmitEnv) (f : FormState)
      (w w' : World) :
  submit env f w = (RecordAppended, w') ->
  exists ws row w4,
    main_worksheet w' = Some (ws ++ [row])%list /\
    cell 5 row = participation_text (participation f) /\
    match participation f with
    | Yes =>
        cell 7 row = "" /\
        exists display_img,
          image_open (display_photo f) = Some display_img /\
          cell 6 row
          = cell_text (fst (upload_image (env_display env) display_img
                                         (store_name f) (employee_name f)
                                         "display_competition" w4))
    | No => cell 6 row = "" /\ nonempty (cell 7 row) = true
    | SelectPlaceholder => False
    end.
Proof.
  intros H.
  apply submit_appended in H
    as (w2 & ei & pi & eu & pu & w4 & du & w5 & ws
        & Hv & _ & _ & _ & _ & Hd & _ & _ & _ & Hm).
  exists ws, (map cell_text (row_data (build_data env f eu pu du))), w4.
  split; [exact Hm|].
  destruct (row_conditionals env f eu pu du Hv) as (C5 & _ & C).
  split; [exact C5|].
  pose proof (valid_conditionals f Hv) as V.
  destruct (participation f) eqn:P; auto.
  destruct C as [C6 C7]. split; [exact C7|].
  unfold upload_display, display_competition_photo in Hd.
  rewrite P, V in Hd. simpl in Hd.
  destruct (image_open (display_photo f)) as [img|]; [|discriminate].
  exists img. split; [reflexivity|].
  injection Hd as Hd. rewrite C6. now rewrite Hd.
Qed.

(** C1: a form that passes validation with the answer "Yes", whose
    education and poster bytes are stored and whose display bytes are
    not: the row is appended all the same, with "Yes" in the
    participation column and both the display url and the reason empty,
    while the closing message says the entry was saved with its display
    competition photo.  The same row results, with every storage call
    succeeding, when the display photo is a grey picture with a
    transparency band, which the encoder refuses. *)
Theorem yes_row_without_display_url :
  let result :=
    submit (sample_env true true false) sample_form sample_world in
  let grey :=
    submit (sample_env true true true) form_with_grey_display sample_world in
  validate sample_form = [] /\
  fst result = RecordAppended /\
  (exists row,
      main_worksheet (snd result) = Some [main_headers; row] /\
      cell 5 row = "Yes" /\ cell 6 row = "" /\ cell 7 row = "" /\
      cell 9 row = "Submitted") /\
  last (shown (snd result)) (mkMessage LInfo "")
  = mkMessage LMarkdown
      "Display Competition Entry Submitted! Entry saved with display competition photo for Main Store." /\
  validate form_with_grey_display = [] /\
  fst grey = RecordAppended /\
  main_worksheet (snd grey) = main_worksheet (snd result).
Proof.
  cbv zeta. split; [reflexivity|]. split; [reflexivity|].
  split; [|repeat split].
  eexists. split; [reflexivity|]. repeat split.
Qed.

(** ** Loading the catalogues *)

Lemma insert_sorted_perm (s : string) (l : list string) :
  Permutation (insert_sorted s l) (s :: l).
Proof.
  induction l as [|x t IH]; simpl; [reflexivity|].
  destruct (String.leb s x); [reflexivity|].
  rewrite IH. apply perm_swap.
Qed.

Lemma sorted_perm (l : list string) : Permutation (sorted l) l.
Proof.
  induction l as [|x t IH]; simpl; [reflexivity|].
  rewrite insert_sorted_perm. now constructor.
Qed.

Lemma insert_sorted_hd (s a : string) (l : list string) :
  String.leb a s = true -> HdRel before a l ->
  HdRel before a (insert_sorted s l).
Proof.
  intros Has H. destruct l as [|x t]; simpl; [now constructor|].
  destruct (String.leb s x); constructor; [exact Has|].
  now inversion H.
Qed.

Lemma insert_sorted_Sorted (s : string) (l : list string) :
  Sorted before l -> Sorted before (insert_sorted s l).
Proof.
  induction l as [|x t IH]; intros H; simpl.
  - repeat constructor.
  - destruct (String.leb s x) eqn:E.
    + constructor; [exact H|now constructor].
    + inversion H as [|? ? Ht Hx]; subst. constructor; [now apply IH|].
      apply insert_sorted_hd; [|exact Hx].
      destruct (String.leb_total s x) as [L|L]; [congruence|exact L].
Qed.

Lemma sorted_Sorted (l : list string) : Sorted before (sorted l).
Proof.
  induction l as [|x t IH]; simpl; [constructor|].
  now apply insert_sorted_Sorted.
Qed.

Lemma existsb_eqb_In (s : string) (l : list string) :
  existsb (String.eqb s) l = true <-> In s l.
Proof.
  rewrite existsb_exists. split.
  - intros (x & Hx & E). apply String.eqb_eq in E. now subst.
  - intros H. exists s. split; [exact H|apply String.eqb_refl].
Qed.

Lemma unique_In (x : string) (seen l : list string) :
  In x (unique seen l) <-> In x l /\ ~ In x seen.
Proof.
  revert seen. induction l as [|s t IH]; intros seen; simpl.
  - tauto.
  - destruct (existsb (String.eqb s) seen) eqn:E.
    + apply existsb_eqb_In in E. rewrite IH. split.
      * tauto.
      * intros [[->|H] N]; [contradiction|tauto].
    + assert (N : ~ In s seen).
      { intros H. apply existsb_eqb_In in H. congruence. }
      simpl. rewrite IH. simpl. split.
      * intros [->|[H K]]; [tauto|tauto].
      * intros [[->|H] K]; [now left|].
        destruct (string_dec s x) as [->|D]; [now left|right; tauto].
Qed.

Lemma unique_NoDup (seen l : list string) : NoDup (unique seen l).
Proof.
  revert seen. induction l as [|s t IH]; intros seen; simpl.
  - constructor.
  - destruct (existsb (String.eqb s) seen); [apply IH|].
    constructor; [|apply IH].
    rewrite unique_In. simpl. tauto.
Qed.

Lemma dropna_In (key v : string) (records : list PyDict) :
  In v (dropna key records)
  <-> exists record, In record records /\ dict_lookup key record = Some v.
Proof.
  unfold dropna. rewrite in_flat_map. split.
  - intros (r & Hr & H). exists r. split; [exact Hr|].
    destruct (dict_lookup key r) as [u|]; [|contradiction].
    destruct H as [->|[]]. reflexivity.
  - intros (r & Hr & H). exists r. split; [exact Hr|].
    rewrite H. now left.
Qed.

(** A record holds a value for a key exactly when it has the key. *)
Lemma dict_lookup_has_key (key : string) (record : PyDict) :
  has_key key record = true <-> exists v, dict_lookup key record = Some v.
Proof.
  unfold has_key, dict_lookup. split.
  - intros H. apply existsb_exists in H as (kv & Hin & E).
    destruct (find (fun kv => String.eqb (fst kv) key) (rev record))
      as [p|] eqn:F; [now exists (snd p)|].
    apply in_rev in Hin.
    pose proof (find_none _ _ F kv Hin) as N. simpl in N. congruence.
  - intros (v & H).
    destruct (find (fun kv => String.eqb (fst kv) key) (rev record))
      as [p|] eqn:F; [|discriminate].
    apply find_some in F as [Hin E]. apply existsb_exists.
    exists p. split; [now apply in_rev|exact E].
Qed.

(** What one catalogue block computes from the records of its sheet. *)
Lemma names_of_records_spec (column : string) (records : list PyDict) :
  let names := names_of_records column records in
  Sorted before names /\ NoDup names /\
  (forall s, In s names
             <-> s <> "" /\
                 exists record,
                   In record records /\ dict_lookup column record = Some s).
Proof.
  cbv zeta. unfold names_of_records.
  destruct (in_columns column records) eqn:C.
  - set (l := filter nonempty (unique [] (dropna column records))).
    assert (E : match records with
                | [] => []
                | _ => sorted l
                end = sorted l).
    { destruct records; [reflexivity|reflexivity]. }
    rewrite E. split; [apply sorted_Sorted|]. split.
    + apply (Permutation_NoDup (Permutation_sym (sorted_perm l))).
      apply NoDup_filter, unique_NoDup.
    + intros s. split.
      * intros H. apply (Permutation_in _ (sorted_perm l)) in H.
        unfold l in H. apply filter_In in H as [H Hn].
        apply unique_In in H as [H _]. apply dropna_In in H.
        split; [intros ->; discriminate|exact H].
      * intros [N H].
        apply (Permutation_in _ (Permutation_sym (sorted_perm l))).
        apply filter_In. split.
        -- apply unique_In. split; [now apply dropna_In|intros []].
        -- destruct s; [now elim N|reflexivity].
  - assert (E : match records with
                | [] => []
                | _ => @nil string
                end = []) by (destruct records; reflexivity).
    rewrite E. split; [constructor|]. split; [constructor|].
    intros s. split; [intros []|].
    intros (_ & r & Hr & H). unfold in_columns in C.
    assert (K : has_key column r = true)
      by (apply dict_lookup_has_key; eauto).
    assert (existsb (has_key column) records = true)
      by (apply existsb_exists; eauto).
    congruence.
Qed.

Lemma load_names_sound (ok : bool) (column : string)
      (sheet : option Worksheet) (names : list string) :
  load_names ok column sheet = Some names ->
  Sorted before names /\ NoDup names /\ ~ In "" names /\
  (forall s, In s names ->
             exists ws record,
               sheet = Some ws /\ In record (get_all_records ws) /\
               dict_lookup column record = Some s).
Proof.
  unfold load_names. destruct sheet as [ws|].
  - destruct ok; [|discriminate]. intros [= <-].
    destruct (names_of_records_spec column (get_all_records ws))
      as (S & D & M).
    split; [exact S|]. split; [exact D|]. split.
    + intros H. apply M in H as [N _]. now elim N.
    + intros s H. apply M in H as (_ & r & Hr & L). now exists ws, r.
  - intros [= <-]. split; [constructor|]. split; [constructor|].
    split; [intros []|intros s []].
Qed.

(** X1: when no cell of the two catalogue columns reads as a number,
    then, whether or not the reads succeed, the two lists
    [get_stores_and_employees] returns are in ascending order, free of
    duplicates and of the empty text, and every name in them is a value
    of the catalogue's column in its sheet. *)
Theorem loaded_names_sorted_and_listed (env : LoadEnv) (w : World) :
  text_column "Store_Name" (store_worksheet w) = true ->
  text_column "Employee_Name" (employee_worksheet w) = true ->
  let stores := fst (fst (get_stores_and_employees env w)) in
  let employees := snd (fst (get_stores_and_employees env w)) in
  (Sorted before stores /\ NoDup stores /\ ~ In "" stores /\
   forall s, In s stores ->
             exists ws record,
               store_worksheet w = Some ws /\
               In record (get_all_records ws) /\
               dict_lookup "Store_Name" record = Some s) /\
  (Sorted before employees /\ NoDup employees /\ ~ In "" employees /\
   forall s, In s employees ->
             exists ws record,
               employee_worksheet w = Some ws /\
               In record (get_all_records ws) /\
               dict_lookup "Employee_Name" record = Some s).
Proof.
  intros _ _. cbv zeta. unfold get_stores_and_employees.
  destruct (load_names (store_records_ok env) "Store_Name"
              (store_worksheet w)) as [stores|] eqn:S.
  - destruct (load_names (employee_records_ok env) "Employee_Name"
                (employee_worksheet w)) as [employees|] eqn:E.
    + split; [now apply load_names_sound in S|now apply load_names_sound in E].
    + simpl. split; (split; [constructor|]; split; [constructor|];
                     split; [intros []|intros s []]).
  - simpl. split; (split; [constructor|]; split; [constructor|];
                   split; [intros []|intros s []]).
Qed.

Lemma loaded_names_sorted_and_listed_witness :
  NoDup (fst (fst (get_stores_and_employees
                     (mkLoadEnv true true)
                     (mkWorld None None
                        (Some [["Store_Name"]; ["Depok"]; [""]; ["Bogor"];
                               ["Depok"]])
                        (Some [["Employee_Name"]; ["Jane Doe"]]) [])))).
Proof.
  destruct (loaded_names_sorted_and_listed
              (mkLoadEnv true true)
              (mkWorld None None
                 (Some [["Store_Name"]; ["Depok"]; [""]; ["Bogor"]; ["Depok"]])
                 (Some [["Employee_Name"]; ["Jane Doe"]]) [])
              eq_refl eq_refl) as ((_ & D & _) & _).
  exact D.
Defined.

(** X2: when no cell of the two catalogue columns reads as a number and
    both reads succeed, no name is lost: every non-empty value of the
    catalogue's column is in the list returned, and nothing but the
    lists is produced (no message, no write). *)
Theorem loaded_names_complete (env : LoadEnv) (w : World) :
  text_column "Store_Name" (store_worksheet w) = true ->
  text_column "Employee_Name" (employee_worksheet w) = true ->
  store_records_ok env = true -> employee_records_ok env = true ->
  let result := get_stores_and_employees env w in
  snd result = w /\
  (forall ws record s,
      store_worksheet w = Some ws -> In record (get_all_records ws) ->
      dict_lookup "Store_Name" record = Some s -> s <> "" ->
      In s (fst (fst result))) /\
  (forall ws record s,
      employee_worksheet w = Some ws -> In record (get_all_records ws) ->
      dict_lookup "Employee_Name" record = Some s -> s <> "" ->
      In s (snd (fst result))).
Proof.
  intros _ _ S E. cbv zeta. unfold get_stores_and_employees, load_names.
  rewrite S, E.
  split; [now destruct (store_worksheet w), (employee_worksheet w)|].
  split; intros ws r s Hw Hr L N; rewrite Hw.
  - destruct (employee_worksheet w); simpl;
      apply names_of_records_spec; eauto.
  - destruct (store_worksheet w); simpl;
      apply names_of_records_spec; eauto.
Qed.

Lemma loaded_names_complete_witness :
  fst (get_stores_and_employees
         (mkLoadEnv true true)
         (mkWorld None None
                  (Some [["Store_Name"]; ["Depok"]; [""]; ["Bogor"]; ["Depok"]])
                  (Some [["Employee_Name"]; ["Jane Doe"]]) []))
  = (["Bogor"; "Depok"], ["Jane Doe"])
  /\ In "Depok"
        (fst (fst (get_stores_and_employees
                     (mkLoadEnv true true)
                     (mkWorld None None
                        (Some [["Store_Name"]; ["Depok"]; [""]; ["Bogor"];
                               ["Depok"]])
                        (Some [["Employee_Name"]; ["Jane Doe"]]) [])))).
Proof.
  split; [reflexivity|].
  destruct (loaded_names_complete
              (mkLoadEnv true true)
              (mkWorld None None
                 (Some [["Store_Name"]; ["Depok"]; [""]; ["Bogor"]; ["Depok"]])
                 (Some [["Employee_Name"]; ["Jane Doe"]]) [])
              eq_refl eq_refl eq_refl eq_refl) as (_ & H & _).
  apply (H _ [("Store_Name", "Depok")] "Depok" eq_refl).
  - simpl. auto.
  - reflexivity.
  - discriminate.
Defined.

(** X3: when the read of either connected sheet raises, both lists come
    back empty, also the one that was read, so each select box offers
    only its placeholder and its "new" entry; an error is shown and no
    sheet is touched. *)
Theorem load_failure_offers_nothing (env : LoadEnv) (w : World) :
  (store_worksheet w <> None /\ store_records_ok env = false)
  \/ (employee_worksheet w <> None /\ employee_records_ok env = false) ->
  let result := get_stores_and_employees env w in
  fst result = ([], []) /\
  store_options (fst (fst result)) = ["Select Store..."; "+ New Store"] /\
  employee_options (snd (fst result))
  = ["Select Employee..."; "+ New Employee"] /\
  snd result = show LError "Error loading data" w.
Proof.
  intros H. cbv zeta. unfold get_stores_and_employees.
  destruct H as [[N F]|[N F]].
  - assert (L : load_names (store_records_ok env) "Store_Name"
                           (store_worksheet w) = None).
    { unfold load_names. rewrite F.
      destruct (store_worksheet w); [reflexivity|now elim N]. }
    rewrite L. repeat split.
  - assert (L : load_names (employee_records_ok env) "Employee_Name"
                           (employee_worksheet w) = None).
    { unfold load_names. rewrite F.
      destruct (employee_worksheet w); [reflexivity|now elim N]. }
    rewrite L.
    destruct (load_names (store_records_ok env) "Store_Name"
                         (store_worksheet w)); repeat split.
Qed.

Lemma load_failure_offers_nothing_witness :
  fst (get_stores_and_employees
         (mkLoadEnv true false)
         (mkWorld None None (Some [["Store_Name"]; ["Depok"]])
                  (Some [["Employee_Name"]; ["Jane Doe"]]) []))
  = ([], []).
Proof.
  assert (H : (store_worksheet
                 (mkWorld None None (Some [["Store_Name"]; ["Depok"]])
                          (Some [["Employee_Name"]; ["Jane Doe"]]) [])
               <> None
               /\ store_records_ok (mkLoadEnv true false) = false)
              \/ (employee_worksheet
                    (mkWorld None None (Some [["Store_Name"]; ["Depok"]])
                             (Some [["Employee_Name"]; ["Jane Doe"]]) [])
                  <> None
                  /\ employee_records_ok (mkLoadEnv true false) = false)).
  { right. split; [discriminate|reflexivity]. }
  destruct (load_failure_offers_nothing _ _ H) as (E & _).
  exact E.
Defined.

(** ** An added name is listed and offered *)

(** After an add that reports success the name is in the sheet. *)
Lemma add_store_listed_after (env : SheetEnv) (name : string)
      (w w1 : World) :
  headed_by "Store_Name" (store_worksheet w) ->
  add_store_to_sheet env name w = (true, w1) ->
  exists ws1,
    store_worksheet w1 = Some ws1 /\
    already_listed "Store_Name" name (get_all_records ws1) = true.
Proof.
  intros (keys & rows & Hs). unfold add_store_to_sheet. rewrite Hs.
  destruct (get_all_records_ok env); [|discriminate].
  destruct (find_name _ _ _) as [[|]|] eqn:L; [| |discriminate].
  - intros [= <-]. rewrite Hs. apply find_name_found in L. eauto.
  - destruct (append_row_ok env); [|discriminate]. intros [= <-].
    eexists. split; [reflexivity|]. apply listed_after_append.
Qed.

Lemma add_employee_listed_after (env : SheetEnv) (name : string)
      (w w1 : World) :
  headed_by "Employee_Name" (employee_worksheet w) ->
  add_employee_to_sheet env name w = (true, w1) ->
  exists ws1,
    employee_worksheet w1 = Some ws1 /\
    already_listed "Employee_Name" name (get_all_records ws1) = true.
Proof.
  intros (keys & rows & Hs). unfold add_employee_to_sheet. rewrite Hs.
  destruct (get_all_records_ok env); [|discriminate].
  destruct (find_name _ _ _) as [[|]|] eqn:L; [| |discriminate].
  - intros [= <-]. rewrite Hs. apply find_name_found in L. eauto.
  - destruct (append_row_ok env); [|discriminate]. intros [= <-].
    eexists. split; [reflexivity|]. apply listed_after_append.
Qed.

Lemma dict_get_lookup (key : string) (record : PyDict) :
  dict_get key "" record
  = match dict_lookup key record with Some v => v | None => "" end.
Proof.
  unfold dict_get, dict_lookup. now destruct (find _ _).
Qed.

(** A listed name that is not blank is among the names loaded, up to
    surrounding blanks. *)
Lemma listed_is_named (column name : string) (records : list PyDict) :
  already_listed column name records = true ->
  nonempty (strip name) = true ->
  exists s, In s (names_of_records column records) /\ strip s = strip name.
Proof.
  unfold already_listed. intros H N.
  apply existsb_exists in H as (r & Hr & E).
  apply String.eqb_eq in E. rewrite dict_get_lookup in E.
  destruct (dict_lookup column r) as [v|] eqn:L.
  - exists v. split; [|exact E].
    apply names_of_records_spec. split; [|eauto].
    intros ->. rewrite <- E in N. discriminate.
  - rewrite <- E in N. discriminate.
Qed.

(** X4: a name that was just added with success is offered the next time
    the catalogues are loaded: for a name that is not blank and does not
    read as a number, on sheets whose catalogue columns hold no
    number-like cell, some entry of the loaded list equals it up to
    surrounding blanks.  This holds for stores and for employees (the
    sheet's first header cell is the catalogue's column and the reads
    succeed). *)
Theorem added_name_is_loaded
    (env : SheetEnv) (lenv : LoadEnv) (name : string) (w w1 : World) :
  nonempty (strip name) = true ->
  number_like (strip name) = false ->
  text_column "Store_Name" (store_worksheet w) = true ->
  text_column "Employee_Name" (employee_worksheet w) = true ->
  store_records_ok lenv = true -> employee_records_ok lenv = true ->
  (headed_by "Store_Name" (store_worksheet w) ->
   add_store_to_sheet env name w = (true, w1) ->
   exists s, In s (fst (fst (get_stores_and_employees lenv w1)))
             /\ strip s = strip name) /\
  (headed_by "Employee_Name" (employee_worksheet w) ->
   add_employee_to_sheet env name w = (true, w1) ->
   exists s, In s (snd (fst (get_stores_and_employees lenv w1)))
             /\ strip s = strip name).
Proof.
  intros N _ _ _ S E. unfold get_stores_and_employees, load_names.
  rewrite S, E. split; intros Hh Ha.
  - apply add_store_listed_after in Ha as (ws1 & Hs & L); [|exact Hh].
    rewrite Hs. destruct (employee_worksheet w1); simpl;
      now apply listed_is_named.
  - apply add_employee_listed_after in Ha as (ws1 & Hs & L); [|exact Hh].
    rewrite Hs. destruct (store_worksheet w1); simpl;
      now apply listed_is_named.
Qed.

Lemma added_name_is_loaded_witness :
  exists s,
    In s (fst (fst (get_stores_and_employees
                      (mkLoadEnv true true)
                      (snd (add_store_to_sheet sheet_ok "  Depok " 
                                               sample_world)))))
    /\ strip s = "Depok".
Proof.
  destruct (added_name_is_loaded
              sheet_ok (mkLoadEnv true true) "  Depok " sample_world
              (snd (add_store_to_sheet sheet_ok "  Depok " sample_world))
              eq_refl eq_refl eq_refl eq_refl eq_refl eq_refl) as (H & _).
  apply H; [|reflexivity].
  exists [], []. reflexivity.
Defined.

(** ** Sheet headers *)

Lemma drop_trailing_empty_nil (row : list string) :
  drop_trailing_empty row = [] <-> any_cell row = false.
Proof.
  unfold any_cell. induction row as [|c t IH]; simpl; [tauto|].
  destruct (drop_trailing_empty t) as [|d t'].
  - destruct (nonempty c); simpl.
    + split; discriminate.
    + split; [intros _; now apply IH|reflexivity].
  - split; [discriminate|]. intros H.
    apply orb_false_iff in H as [_ H]. apply IH in H. discriminate.
Qed.

(** A block rewrites a sheet only when the sheet is blank. *)
Lemma ensure_headers_not_blank (env : StructureEnv) (expected : list string)
      (configured could_not : string) (ws : Worksheet) :
  blank_sheet ws = false ->
  fst (ensure_headers env expected configured could_not (Some ws)) = Some ws.
Proof.
  intros B. unfold ensure_headers.
  destruct (if row_values_ok env then row_values_1 ws else []);
    [|reflexivity].
  destruct (get_all_values_ok env); [|reflexivity]. now rewrite B.
Qed.

(** A sheet with a filled cell is either not blank or has its first row
    filled. *)
Lemma filled_sheet (ws : Worksheet) :
  existsb any_cell ws = true ->
  blank_sheet ws = false.
Proof.
  destruct ws as [|r [|r' t]]; simpl; try discriminate.
  - rewrite orb_false_r. now intros ->.
  - reflexivity.
Qed.

Lemma ensure_headers_keeps_data (env : StructureEnv)
      (expected : list string) (configured could_not : string)
      (ws : Worksheet) :
  existsb any_cell ws = true ->
  fst (ensure_headers env expected configured could_not (Some ws)) = Some ws.
Proof. intros H. now apply ensure_headers_not_blank, filled_sheet. Qed.

Lemma ensure_headers_connected (env : StructureEnv)
      (expected : list string) (configured could_not : string)
      (sheet : option Worksheet) :
  present (fst (ensure_headers env expected configured could_not sheet))
  = present sheet.
Proof.
  unfold ensure_headers. destruct sheet as [ws|]; [|reflexivity].
  destruct (if row_values_ok env then row_values_1 ws else []);
    [|reflexivity].
  destruct (get_all_values_ok env); [|reflexivity].
  destruct (blank_sheet ws); [|reflexivity].
  destruct (clear_ok env); [|reflexivity].
  now destruct (append_headers_ok env).
Qed.

(** The three sheets after [_ensure_sheet_structure], block by block. *)
Lemma ensure_sheet_structure_sheets (env : EnsureEnv) (w : World) :
  let w' := _ensure_sheet_structure env w in
  bucket w' = bucket w /\
  main_worksheet w'
  = fst (ensure_headers (ensure_main env) main_headers
           "Main spreadsheet headers configured"
           "Could not verify main sheet structure" (main_worksheet w)) /\
  employee_worksheet w'
  = fst (ensure_headers (ensure_employee env) employee_headers
           "Employee spreadsheet headers configured"
           "Could not verify employee sheet structure"
           (employee_worksheet w)) /\
  store_worksheet w'
  = fst (ensure_headers (ensure_store env) store_headers
           "Store spreadsheet headers configured"
           "Could not verify store sheet structure" (store_worksheet w)).
Proof.
  cbv zeta. unfold _ensure_sheet_structure.
  destruct (ensure_headers (ensure_main env) _ _ _ _) as [m m1].
  destruct (ensure_headers (ensure_employee env) _ _ _ _) as [e m2].
  destruct (ensure_headers (ensure_store env) _ _ _ _) as [s m3].
  repeat split.
Qed.

(** X5: [_ensure_sheet_structure] never destroys data: whichever of its
    calls succeed or raise, a sheet that holds a filled cell is left as
    it is, the bucket is not touched, and a sheet stays connected or
    not as it was. *)
Theorem ensure_sheet_structure_keeps_data (env : EnsureEnv) (w : World) :
  let w' := _ensure_sheet_structure env w in
  bucket w' = bucket w /\
  (forall ws, main_worksheet w = Some ws -> existsb any_cell ws = true ->
              main_worksheet w' = Some ws) /\
  (forall ws, employee_worksheet w = Some ws ->
              existsb any_cell ws = true ->
              employee_worksheet w' = Some ws) /\
  (forall ws, store_worksheet w = Some ws -> existsb any_cell ws = true ->
              store_worksheet w' = Some ws) /\
  present (main_worksheet w') = present (main_worksheet w) /\
  present (employee_worksheet w') = present (employee_worksheet w) /\
  present (store_worksheet w') = present (store_worksheet w).
Proof.
  destruct (ensure_sheet_structure_sheets env w) as (B & M & E & S).
  cbv zeta. rewrite M, E, S.
  split; [exact B|].
  split; [intros ws -> H; now apply ensure_headers_keeps_data|].
  split; [intros ws -> H; now apply ensure_headers_keeps_data|].
  split; [intros ws -> H; now apply ensure_headers_keeps_data|].
  repeat split; apply ensure_headers_connected.
Qed.

Lemma map_cell_text_Some (row : list string) :
  map cell_text (map Some row) = row.
Proof. induction row as [|c t IH]; simpl; [reflexivity|now rewrite IH]. Qed.

Lemma blank_sheet_first_row (ws : Worksheet) :
  blank_sheet ws = true -> row_values_1 ws = [].
Proof.
  destruct ws as [|r [|r' t]]; simpl; try discriminate; [reflexivity|].
  intros H. apply negb_true_iff in H. now apply drop_trailing_empty_nil.
Qed.

(** On a blank sheet, with every call going through, a block leaves the
    header row and nothing else. *)
Lemma ensure_headers_blank (expected : list string)
      (configured could_not : string) (ws : Worksheet) :
  blank_sheet ws = true ->
  fst (ensure_headers structure_ok expected configured could_not (Some ws))
  = Some [expected].
Proof.
  intros B. unfold ensure_headers. simpl.
  rewrite (blank_sheet_first_row _ B), B. simpl.
  unfold append_row. simpl. now rewrite map_cell_text_Some.
Qed.

Lemma ensure_headers_settles (env' : StructureEnv) (expected : list string)
      (configured could_not : string) (sheet : option Worksheet) :
  any_cell expected = true ->
  let sheet1 :=
    fst (ensure_headers structure_ok expected configured could_not sheet) in
  fst (ensure_headers env' expected configured could_not sheet1) = sheet1.
Proof.
  intros A. cbv zeta. destruct sheet as [ws|].
  - destruct (blank_sheet ws) eqn:B.
    + rewrite (ensure_headers_blank _ _ _ _ B).
      apply ensure_headers_keeps_data. simpl. now rewrite A.
    + rewrite (ensure_headers_not_blank _ _ _ _ _ B).
      now apply ensure_headers_not_blank.
  - simpl. unfold ensure_headers. reflexivity.
Qed.

(** X6: once [_ensure_sheet_structure] has run with all its calls going
    through, the sheets are settled: a blank sheet has become its header
    row alone, and running the function again, whatever then succeeds or
    raises, changes no sheet. *)
Theorem ensure_sheet_structure_settles (env' : EnsureEnv) (w : World) :
  let w1 := _ensure_sheet_structure ensure_ok w in
  let w2 := _ensure_sheet_structure env' w1 in
  (main_worksheet w2 = main_worksheet w1 /\
   employee_worksheet w2 = employee_worksheet w1 /\
   store_worksheet w2 = store_worksheet w1) /\
  (forall ws, main_worksheet w = Some ws -> blank_sheet ws = true ->
              main_worksheet w1 = Some [main_headers]) /\
  (forall ws, employee_worksheet w = Some ws -> blank_sheet ws = true ->
              employee_worksheet w1 = Some [["Employee_Name"]]) /\
  (forall ws, store_worksheet w = Some ws -> blank_sheet ws = true ->
              store_worksheet w1 = Some [["Store_Name"]]).
Proof.
  cbv zeta.
  destruct (ensure_sheet_structure_sheets ensure_ok w) as (_ & M & E & S).
  destruct (ensure_sheet_structure_sheets
              env' (_ensure_sheet_structure ensure_ok w))
    as (_ & M2 & E2 & S2).
  rewrite M2, E2, S2, M, E, S. split.
  - split; [|split]; now apply ensure_headers_settles.
  - split; [|split]; intros ws -> B; now apply ensure_headers_blank.
Qed.

(** X7: the first name ever added is the one name offered.  Starting
    from a blank store sheet (resp. employee sheet), after
    [_ensure_sheet_structure] and one add of a name that is not blank
    and does not read as a number, all calls going through, the list
    loaded is that name alone, stripped. *)
Theorem first_added_name_is_offered (name : string) (w : World) :
  nonempty (strip name) = true ->
  number_like (strip name) = false ->
  let w1 := _ensure_sheet_structure ensure_ok w in
  let load w' := fst (get_stores_and_employees (mkLoadEnv true true) w') in
  (forall ws es,
      store_worksheet w = Some ws -> blank_sheet ws = true ->
      employee_worksheet w = Some es -> blank_sheet es = true ->
      load w1 = ([], []) /\
      load (snd (add_store_to_sheet sheet_ok name w1)) = ([strip name], []) /\
      load (snd (add_employee_to_sheet sheet_ok name w1))
      = ([], [strip name])).
Proof.
  intros N _. cbv zeta. intros ws es Hs Bs He Be.
  destruct (ensure_sheet_structure_sheets ensure_ok w) as (_ & _ & E & S).
  cbv zeta in E, S. rewrite He in E. rewrite Hs in S.
  change (ensure_employee ensure_ok) with structure_ok in E.
  change (ensure_store ensure_ok) with structure_ok in S.
  rewrite (ensure_headers_blank _ _ _ _ Be) in E.
  rewrite (ensure_headers_blank _ _ _ _ Bs) in S.
  unfold employee_headers in E. unfold store_headers in S.
  unfold get_stores_and_employees, add_store_to_sheet,
    add_employee_to_sheet, load_names.
  rewrite E, S. simpl. rewrite E, S. simpl.
  unfold names_of_records, in_columns, dropna, dict_lookup. simpl.
  rewrite N. repeat split.
Qed.

Lemma first_added_name_is_offered_witness :
  fst (get_stores_and_employees
         (mkLoadEnv true true)
         (snd (add_store_to_sheet
                 sheet_ok " Depok"
                 (_ensure_sheet_structure
                    ensure_ok
                    (mkWorld None (Some []) (Some [[""]]) (Some []) [])))))
  = (["Depok"], []).
Proof.
  destruct (first_added_name_is_offered
              " Depok" (mkWorld None (Some []) (Some [[""]]) (Some []) [])
              eq_refl eq_refl [[""]] [] eq_refl eq_refl eq_refl eq_refl)
    as (_ & H & _).
  exact H.
Defined.

(** ** The record sink *)

(** X8: a saved row lines up with the header row.  When the main sheet
    starts with the header row [_ensure_sheet_structure] writes and the
    append goes through, [save_data] returns true, shows nothing,
    touches nothing but the main sheet, and adds one row after the rows
    already there; the row has one cell per header, and under every
    header stands the matching entry of the data (a missing url leaves
    its cell empty). *)
Theorem saved_row_matches_headers
    (env : SheetEnv) (data : Data) (w : World) (rows : Worksheet) :
  main_worksheet w = Some (main_headers :: rows) ->
  append_row_ok env = true ->
  let result := save_data env data w in
  fst result = true /\
  shown (snd result) = shown w /\
  bucket (snd result) = bucket w /\
  store_worksheet (snd result) = store_worksheet w /\
  employee_worksheet (snd result) = employee_worksheet w /\
  exists row,
    main_worksheet (snd result)
    = Some (main_headers :: rows ++ [row])%list /\
    List.length row = List.length main_headers /\
    combine main_headers row
    = [ ("Store_Name", d_store_name data);
        ("Employee_Name", d_employee_name data);
        ("Date", d_date data);
        ("Education_Photo_URL", cell_text (d_education_photo_url data));
        ("Poster_Photo_URL", cell_text (d_poster_photo_url data));
        ("Participation_Competition", d_participation_competition data);
        ("Display_Competition_Photo_URL",
         cell_text (d_display_competition_photo_url data));
        ("Non_Participation_Reason", d_non_participation_reason data);
        ("Timestamp", d_timestamp data);
        ("Status", d_status data) ].
Proof.
  intros Hm Ha. cbv zeta. unfold save_data. rewrite Hm, Ha.
  cbn [fst snd set_main_worksheet bucket store_worksheet employee_worksheet
       main_worksheet shown].
  repeat (split; [reflexivity|]).
  eexists. split; [reflexivity|]. split; reflexivity.
Qed.

Lemma saved_row_matches_headers_witness :
  main_worksheet
    (snd (save_data sheet_ok
            (mkData "Main Store" "Jane Doe" "2025-03-07" (Some "u1") None
                    "No" (Some "") "Out of stock materials"
                    "2025-03-07 14:05:09" "Submitted")
            sample_world))
  = Some [main_headers;
          ["Main Store"; "Jane Doe"; "2025-03-07"; "u1"; ""; "No"; "";
           "Out of stock materials"; "2025-03-07 14:05:09"; "Submitted"]].
Proof.
  destruct (saved_row_matches_headers
              sheet_ok
              (mkData "Main Store" "Jane Doe" "2025-03-07" (Some "u1")
                      None "No" (Some "") "Out of stock materials"
                      "2025-03-07 14:05:09" "Submitted")
              sample_world [] eq_refl eq_refl)
    as (_ & _ & _ & _ & _ & row & H & _).
  reflexivity.
Defined.

(** ** Nothing is lost *)

Lemma extends_refl (sheet : option Worksheet) : extends sheet sheet.
Proof.
  destruct sheet as [ws|]; simpl; [|exact I].
  exists []. now rewrite app_nil_r.
Qed.

Lemma extends_trans (a b c : option Worksheet) :
  extends a b -> extends b c -> extends a c.
Proof.
  destruct a as [x|], b as [y|], c as [z|]; simpl; try tauto.
  intros [p ->] [q ->]. exists (p ++ q)%list. now rewrite <- app_assoc.
Qed.

Lemma extends_append (values : list (option string)) (ws : Worksheet) :
  extends (Some ws) (Some (append_row values ws)).
Proof. simpl. unfold append_row. eauto. Qed.

Lemma grows_refl (w : World) : grows w w.
Proof. unfold grows. repeat split; auto using extends_refl. Qed.

Lemma grows_trans (a b c : World) : grows a b -> grows b c -> grows a c.
Proof.
  unfold grows. intros (M1 & S1 & E1 & N1 & O1) (M2 & S2 & E2 & N2 & O2).
  repeat split; eauto using extends_trans. congruence.
Qed.

Lemma grows_show (l : Level) (t : string) (w : World) : grows w (show l t w).
Proof. unfold grows. repeat split; auto using extends_refl. Qed.

Lemma add_store_grows (env : SheetEnv) (name : string) (w : World) :
  grows w (snd (add_store_to_sheet env name w)).
Proof.
  unfold add_store_to_sheet.
  destruct (store_worksheet w) as [ws|] eqn:S; [|apply grows_refl].
  destruct (get_all_records_ok env); [|apply grows_show].
  destruct (find_name _ _ _) as [[|]|];
    [apply grows_refl| |apply grows_show].
  destruct (append_row_ok env); [|apply grows_show].
  unfold grows. simpl. rewrite S.
  repeat split; auto using extends_refl. apply extends_append.
Qed.

Lemma add_employee_grows (env : SheetEnv) (name : string) (w : World) :
  grows w (snd (add_employee_to_sheet env name w)).
Proof.
  unfold add_employee_to_sheet.
  destruct (employee_worksheet w) as [ws|] eqn:S; [|apply grows_refl].
  destruct (get_all_records_ok env); [|apply grows_show].
  destruct (find_name _ _ _) as [[|]|];
    [apply grows_refl| |apply grows_show].
  destruct (append_row_ok env); [|apply grows_show].
  unfold grows. simpl. rewrite S.
  repeat split; auto using extends_refl. apply extends_append.
Qed.

Lemma save_data_grows (env : SheetEnv) (data : Data) (w : World) :
  grows w (snd (save_data env data w)).
Proof.
  unfold save_data.
  destruct (main_worksheet w) as [ws|] eqn:S; [|apply grows_show].
  destruct (append_row_ok env); [|apply grows_show].
  unfold grows. simpl. rewrite S.
  repeat split; auto using extends_refl. apply extends_append.
Qed.

Lemma upload_image_grows (env : UploadEnv) (image : Image)
      (store employee img_type : string) (w : World) :
  grows w (snd (upload_image env image store employee img_type w)).
Proof.
  destruct (upload_image_keeps env image store employee img_type w)
    as (M & S & E & O).
  unfold grows. rewrite M, S, E.
  repeat split; auto using extends_refl.
  unfold upload_image.
  destruct (bucket w) as [b|] eqn:B; [|simpl; now rewrite B].
  destruct (normalize image); [|simpl; now rewrite B].
  destruct (upload_from_file_ok env); [|simpl; now rewrite B].
  destruct (make_public_ok env); reflexivity.
Qed.

Lemma handle_new_entities_grows (env : SubmitEnv) (f : FormState)
      (w : World) :
  grows w (snd (handle_new_entities env f w)).
Proof.
  unfold handle_new_entities.
  pose proof (add_store_grows (env_store env) (store_name f) w) as S.
  destruct (String.eqb (store_select f) "+ New Store").
  - destruct (add_store_to_sheet _ _ w) as [ok1 w1]. simpl in S.
    destruct ok1; simpl negb; cbv iota;
      [|simpl; eapply grows_trans; [exact S|apply grows_show]].
    pose proof (add_employee_grows (env_employee env) (employee_name f) w1)
      as E.
    destruct (String.eqb (employee_select f) "+ New Employee").
    + destruct (add_employee_to_sheet _ _ w1) as [ok2 w2]. simpl in E.
      destruct ok2; simpl;
        [eapply grows_trans; eassumption|].
      eapply grows_trans; [exact S|].
      eapply grows_trans; [exact E|apply grows_show].
    + exact S.
  - simpl negb. cbv iota.
    pose proof (add_employee_grows (env_employee env) (employee_name f) w)
      as E.
    destruct (String.eqb (employee_select f) "+ New Employee").
    + destruct (add_employee_to_sheet _ _ w) as [ok2 w2]. simpl in E.
      destruct ok2; simpl; [exact E|].
      eapply grows_trans; [exact E|apply grows_show].
    + apply grows_refl.
Qed.

Lemma upload_required_grows (env : SubmitEnv) (f : FormState)
      (education_img poster_img : Image) (w : World) :
  grows w (snd (upload_required env f education_img poster_img w)).
Proof.
  unfold upload_required.
  pose proof (upload_image_grows (env_education env) education_img
                (store_name f) (employee_name f) "education" w) as G1.
  destruct (upload_image (env_education env) _ _ _ _ w) as [eu w1].
  pose proof (upload_image_grows (env_poster env) poster_img
                (store_name f) (employee_name f) "poster" w1) as G2.
  destruct (upload_image (env_poster env) _ _ _ _ w1) as [pu w2].
  simpl in *. eapply grows_trans; eassumption.
Qed.

Lemma upload_display_grows (env : SubmitEnv) (f : FormState)
      (w w' : World) (display_url : option string) :
  upload_display env f w = Some (display_url, w') -> grows w w'.
Proof.
  unfold upload_display.
  destruct (_ && _)%bool; [|intros [= _ <-]; apply grows_refl].
  destruct (image_open _) as [img|]; [|discriminate].
  intros [= E].
  pose proof (upload_image_grows (env_display env) img (store_name f)
                (employee_name f) "display_competition" w) as G.
  now rewrite E in G.
Qed.

Lemma finish_grows (env : SubmitEnv) (f : FormState)
      (education_url poster_url display_url : option string) (w : World) :
  grows w (snd (finish env f education_url poster_url display_url w)).
Proof.
  unfold finish. destruct (_ && _)%bool; [|apply grows_show].
  pose proof (save_data_grows (env_save env)
                (build_data env f education_url poster_url display_url) w)
    as G.
  destruct (save_data _ _ w) as [saved w1]. simpl in G.
  destruct saved; simpl; (eapply grows_trans; [exact G|apply grows_show]).
Qed.

Lemma process_grows (env : SubmitEnv) (f : FormState) (w : World) :
  grows w (snd (process env f w)).
Proof.
  unfold process.
  pose proof (handle_new_entities_grows env f w) as G0.
  destruct (handle_new_entities env f w) as [[|] w2]; simpl in G0;
    [|exact G0].
  destruct (image_open (education_photo f)) as [education_img|];
    [|simpl; eapply grows_trans; [exact G0|apply grows_show]].
  destruct (image_open (poster_photo f)) as [poster_img|];
    [|simpl; eapply grows_trans; [exact G0|apply grows_show]].
  pose proof (upload_required_grows env f education_img poster_img w2) as G1.
  destruct (upload_required env f education_img poster_img w2)
    as [[eu pu] w4]. simpl in G1.
  destruct (upload_display env f w4) as [[du w5]|] eqn:D.
  - apply upload_display_grows in D.
    eapply grows_trans; [exact G0|]. eapply grows_trans; [exact G1|].
    eapply grows_trans; [exact D|]. apply finish_grows.
  - simpl. eapply grows_trans; [exact G0|].
    eapply grows_trans; [exact G1|apply grows_show].
Qed.

Lemma object_at_bucket (path : string) (w w' : World) :
  bucket w' = bucket w -> object_at path w' = object_at path w.
Proof. unfold object_at. now intros ->. Qed.

(** A call of [upload_image] leaves every object under another name as
    it is. *)
Lemma upload_image_object_at (env : UploadEnv) (image : Image)
      (store employee img_type path : string) (w : World) :
  path <> path_of env store employee img_type ->
  object_at path (snd (upload_image env image store employee img_type w))
  = object_at path w.
Proof.
  intros N. unfold upload_image.
  destruct (bucket w) as [b|] eqn:B; [|reflexivity].
  destruct (normalize image) as [img_bytes|]; [|reflexivity].
  destruct (upload_from_file_ok env); [|reflexivity].
  cbv zeta. cbn [snd].
  assert (Q : object_at path
                (set_bucket
                   (put_blob (mkBlob (path_of env store employee img_type)
                                     img_bytes "image/jpeg"
                                     (make_public_ok env)) b) w)
              = object_at path w).
  { unfold object_at, find_blob. rewrite B.
    cbn [set_bucket bucket put_blob blobs find blob_name].
    destruct (String.eqb_spec (path_of env store employee img_type) path)
      as [E|_]; [|reflexivity].
    now elim N. }
  rewrite <- Q. destruct (make_public_ok env); now apply object_at_bucket.
Qed.

Lemma finish_bucket (env : SubmitEnv) (f : FormState)
      (education_url poster_url display_url : option string) (w : World) :
  bucket (snd (finish env f education_url poster_url display_url w))
  = bucket w.
Proof.
  unfold finish, save_data. destruct (_ && _)%bool; [|reflexivity].
  destruct (main_worksheet w); [|reflexivity].
  now destruct (append_row_ok (env_save env)).
Qed.

Lemma process_object_at (env : SubmitEnv) (f : FormState) (w : World)
      (path : string) :
  path <> path_of (env_education env) (store_name f) (employee_name f)
                  "education" ->
  path <> path_of (env_poster env) (store_name f) (employee_name f)
                  "poster" ->
  path <> path_of (env_display env) (store_name f) (employee_name f)
                  "display_competition" ->
  object_at path (snd (process env f w)) = object_at path w.
Proof.
  intros Ne Np Nd. unfold process.
  pose proof (handle_new_entities_keeps env f w) as [B0 _].
  apply (object_at_bucket path) in B0.
  destruct (handle_new_entities env f w) as [[|] w2]; simpl in B0;
    [|exact B0].
  destruct (image_open (education_photo f)) as [education_img|];
    [|exact B0].
  destruct (image_open (poster_photo f)) as [poster_img|]; [|exact B0].
  unfold upload_required.
  pose proof (upload_image_object_at (env_education env) education_img
                (store_name f) (employee_name f) "education" path w2 Ne)
    as O1.
  destruct (upload_image (env_education env) education_img (store_name f)
              (employee_name f) "education" w2) as [eu w3].
  pose proof (upload_image_object_at (env_poster env) poster_img
                (store_name f) (employee_name f) "poster" path w3 Np)
    as O2.
  destruct (upload_image (env_poster env) poster_img (store_name f)
              (employee_name f) "poster" w3) as [pu w4].
  cbn [snd] in O1, O2.
  assert (O4 : object_at path w4 = object_at path w) by congruence.
  unfold upload_display.
  destruct (is_yes (participation f)
            && present (display_competition_photo f))%bool.
  - destruct (image_open (display_competition_photo f)) as [display_img|];
      [|exact O4].
    pose proof (upload_image_object_at (env_display env) display_img
                  (store_name f) (employee_name f) "display_competition"
                  path w4 Nd) as O3.
    destruct (upload_image (env_display env) display_img (store_name f)
                (employee_name f) "display_competition" w4) as [du w5].
    cbn [snd] in O3.
    rewrite (object_at_bucket path _ _ (finish_bucket env f eu pu du w5)).
    congruence.
  - rewrite (object_at_bucket path _ _
               (finish_bucket env f eu pu (Some "") w4)).
    exact O4.
Qed.

(** X9: what a press of the submit button leaves in place, however it
    ends.  For every form, every state and every way the outside calls
    turn out: each of the three sheets still has all its rows, in place,
    with at most new rows after them; the bucket keeps its name and
    every object name it had; and every object under a name other than
    the three paths this submission writes to (education, poster,
    display) is the very object it was, and no such name is new.  An
    object under one of the three paths may be replaced by the new
    picture. *)
Theorem submit_loses_nothing (env : SubmitEnv) (f : FormState) (w : World) :
  grows w (snd (submit env f w)) /\
  forall path,
    path <> path_of (env_education env) (store_name f) (employee_name f)
                    "education" ->
    path <> path_of (env_poster env) (store_name f) (employee_name f)
                    "poster" ->
    path <> path_of (env_display env) (store_name f) (employee_name f)
                    "display_competition" ->
    object_at path (snd (submit env f w)) = object_at path w.
Proof.
  unfold submit. destruct (validate f).
  - split; [apply process_grows|apply process_object_at].
  - split; [apply grows_show|reflexivity].
Qed.

Lemma submit_loses_nothing_witness :
  object_at "gramedia-display/Main_Store/Jane_Doe/2025-03-06/poster/1.jpg"
    (snd (submit (sample_env true true true) sample_form
            (set_bucket
               (put_blob
                  (mkBlob
                     "gramedia-display/Main_Store/Jane_Doe/2025-03-06/poster/1.jpg"
                     sample_jpeg "image/jpeg" true) sample_bucket)
               sample_world)))
  = Some (mkBlob
            "gramedia-display/Main_Store/Jane_Doe/2025-03-06/poster/1.jpg"
            sample_jpeg "image/jpeg" true).
Proof.
  destruct (submit_loses_nothing (sample_env true true true) sample_form
              (set_bucket
                 (put_blob
                    (mkBlob
                       "gramedia-display/Main_Store/Jane_Doe/2025-03-06/poster/1.jpg"
                       sample_jpeg "image/jpeg" true) sample_bucket)
                 sample_world)) as [_ H].
  rewrite H; [reflexivity|discriminate|discriminate|discriminate].
Defined.

Lemma finish_main (env : SubmitEnv) (f : FormState)
      (education_url poster_url display_url : option string) (w : World) :
  fst (finish env f education_url poster_url display_url w) = RecordAppended
  \/ main_worksheet (snd (finish env f education_url poster_url
                                display_url w))
     = main_worksheet w.
Proof.
  unfold finish, save_data. destruct (_ && _)%bool; [|now right].
  destruct (main_worksheet w) eqn:M; [|right; simpl; now rewrite M].
  destruct (append_row_ok (env_save env)); [now left|].
  right. simpl. now rewrite M.
Qed.

Lemma process_main (env : SubmitEnv) (f : FormState) (w : World) :
  fst (process env f w) = RecordAppended
  \/ main_worksheet (snd (process env f w)) = main_worksheet w.
Proof.
  unfold process.
  pose proof (handle_new_entities_keeps env f w) as [_ M0].
  destruct (handle_new_entities env f w) as [[|] w2]; simpl in M0;
    [|now right].
  destruct (image_open (education_photo f)) as [education_img|];
    [|now right].
  destruct (image_open (poster_photo f)) as [poster_img|]; [|now right].
  destruct (upload_required env f education_img poster_img w2)
    as [[eu pu] w4] eqn:U.
  apply upload_required_keeps in U as (M1 & _).
  destruct (upload_display env f w4) as [[du w5]|] eqn:D.
  - apply upload_display_keeps in D as [M5 _].
    destruct (finish_main env f eu pu du w5) as [A|K]; [now left|].
    right. congruence.
  - right. simpl. congruence.
Qed.

(** X10: the record sink changes only when the submission succeeds, and
    then by exactly one row of ten cells placed after the rows it had.
    With any other ending (invalid form, stopped catalogue add, failed
    or crashed upload, failed append) the main sheet is as it was. *)
Theorem sink_written_only_on_success
    (env : SubmitEnv) (f : FormState) (w : World) :
  let result := submit env f w in
  (fst result = RecordAppended ->
   exists ws row,
     main_worksheet w = Some ws /\
     main_worksheet (snd result) = Some (ws ++ [row])%list /\
     List.length row = 10) /\
  (fst result <> RecordAppended ->
   main_worksheet (snd result) = main_worksheet w).
Proof.
  cbv zeta. split.
  - intros O.
    destruct (submit env f w) as [o w'] eqn:E. simpl in O. subst o.
    apply submit_appended in E
      as (w2 & ei & pi & eu & pu & w4 & du & w5 & ws
          & _ & Hh & _ & _ & Hu & Hd & _ & _ & M5 & M').
    pose proof (handle_new_entities_keeps env f w) as [_ M0].
    rewrite Hh in M0. simpl in M0.
    apply upload_required_keeps in Hu as (M1 & _).
    apply upload_display_keeps in Hd as [Md _].
    exists ws, (map cell_text (row_data (build_data env f eu pu du))).
    split; [congruence|]. split; [exact M'|reflexivity].
  - intros N. unfold submit in *.
    destruct (validate f); [|reflexivity].
    destruct (process_main env f w) as [A|K]; [contradiction|exact K].
Qed.

Lemma add_store_sheets (env : SheetEnv) (name : string) (w : World) :
  let result := add_store_to_sheet env name w in
  employee_worksheet (snd result) = employee_worksheet w /\
  (fst result = false -> store_worksheet (snd result) = store_worksheet w).
Proof.
  unfold add_store_to_sheet.
  destruct (store_worksheet w) eqn:S; [|split; simpl; auto].
  destruct (get_all_records_ok env); [|split; simpl; auto].
  destruct (find_name _ _ _) as [[|]|];
    [split; simpl; auto| |split; simpl; auto].
  destruct (append_row_ok env); [|split; simpl; auto].
  split; [reflexivity|discriminate].
Qed.

Lemma add_employee_sheets (env : SheetEnv) (name : string) (w : World) :
  let result := add_employee_to_sheet env name w in
  store_worksheet (snd result) = store_worksheet w /\
  (fst result = false ->
   employee_worksheet (snd result) = employee_worksheet w).
Proof.
  unfold add_employee_to_sheet.
  destruct (employee_worksheet w) eqn:S; [|split; simpl; auto].
  destruct (get_all_records_ok env); [|split; simpl; auto].
  destruct (find_name _ _ _) as [[|]|];
    [split; simpl; auto| |split; simpl; auto].
  destruct (append_row_ok env); [|split; simpl; auto].
  split; [reflexivity|discriminate].
Qed.

(** X11: a catalogue add that fails stops the submission before anything
    else is written.  When adding the new store fails, the outcome is
    [Stopped] and the bucket and all three sheets are as they were; the
    employee add is not attempted.  When the store is added and adding
    the new employee fails, the outcome is [Stopped] as well, nothing is
    uploaded and no row is appended, but the store sheet keeps what the
    store add left in it. *)
Theorem failed_add_stops_submission
    (env : SubmitEnv) (f : FormState) (w : World) :
  validate f = [] ->
  (store_select f = "+ New Store" ->
   fst (add_store_to_sheet (env_store env) (store_name f) w) = false ->
   fst (submit env f w) = Stopped /\
   bucket (snd (submit env f w)) = bucket w /\
   main_worksheet (snd (submit env f w)) = main_worksheet w /\
   store_worksheet (snd (submit env f w)) = store_worksheet w /\
   employee_worksheet (snd (submit env f w)) = employee_worksheet w) /\
  (forall w1,
      store_select f = "+ New Store" ->
      employee_select f = "+ New Employee" ->
      add_store_to_sheet (env_store env) (store_name f) w = (true, w1) ->
      fst (add_employee_to_sheet (env_employee env) (employee_name f) w1)
      = false ->
      fst (submit env f w) = Stopped /\
      bucket (snd (submit env f w)) = bucket w /\
      main_worksheet (snd (submit env f w)) = main_worksheet w /\
      store_worksheet (snd (submit env f w)) = store_worksheet w1 /\
      employee_worksheet (snd (submit env f w)) = employee_worksheet w).
Proof.
  intros V. unfold submit. rewrite V. unfold process, handle_new_entities.
  split.
  - intros S F. rewrite S, String.eqb_refl.
    destruct (add_store_keeps (env_store env) (store_name f) w) as [Kb Km].
    destruct (add_store_sheets (env_store env) (store_name f) w)
      as [Ke Ks].
    destruct (add_store_to_sheet (env_store env) (store_name f) w)
      as [ok w1].
    simpl in *. subst ok. simpl. specialize (Ks eq_refl).
    repeat split; assumption.
  - intros w1 S E A F. rewrite S, E, !String.eqb_refl, A.
    destruct (add_store_keeps (env_store env) (store_name f) w) as [Kb Km].
    destruct (add_store_sheets (env_store env) (store_name f) w)
      as [Ke _].
    rewrite A in Kb, Km, Ke. simpl in Kb, Km, Ke.
    destruct (add_employee_keeps (env_employee env) (employee_name f) w1)
      as [Lb Lm].
    destruct (add_employee_sheets (env_employee env) (employee_name f) w1)
      as [Ls Le].
    destruct (add_employee_to_sheet (env_employee env) (employee_name f) w1)
      as [ok w2].
    simpl in *. subst ok. specialize (Le eq_refl). simpl.
    repeat split; congruence.
Qed.

Lemma failed_add_stops_submission_witness :
  fst (submit (mkSubmitEnv (mkSheetEnv false true) sheet_ok
                           (sample_upload true true) (sample_upload true true)
                           (sample_upload true true) sample_clock sheet_ok)
              sample_form sample_world)
  = Stopped.
Proof.
  destruct (failed_add_stops_submission
              (mkSubmitEnv (mkSheetEnv false true) sheet_ok
                           (sample_upload true true) (sample_upload true true)
                           (sample_upload true true) sample_clock sheet_ok)
              sample_form sample_world eq_refl) as [H _].
  exact (proj1 (H eq_refl eq_refl)).
Defined.

Lemma sink_written_only_on_success_witness :
  main_worksheet (snd (submit (sample_env false true true) sample_form
                              sample_world))
  = Some [main_headers].
Proof.
  destruct (sink_written_only_on_success
              (sample_env false true true) sample_form sample_world)
    as [_ H].
  apply H. discriminate.
Defined.

(** ** The urls of an appended row *)

Lemma truthy_some (v : option string) :
  truthy v = true -> exists url, v = Some url /\ url <> "".
Proof.
  destruct v as [[|c s]|]; try discriminate. intros _.
  eexists. split; [reflexivity|discriminate].
Qed.

(** A url returned by an upload names an object of the bucket, under the
    bucket's name, and stays so as the state grows. *)
Lemma upload_image_url_stored (env : UploadEnv) (image : Image)
      (store employee img_type : string) (w w1 w' : World) (url : string) :
  upload_image env image store employee img_type w = (Some url, w1) ->
  grows w1 w' ->
  exists b path,
    bucket w' = Some b /\ url = public_url (bucket_name b) path /\
    stored path w' = true.
Proof.
  intros U G.
  apply upload_image_some in U as (b & bytes & Hb & _ & _ & -> & ->).
  destruct G as (_ & _ & _ & N & O).
  specialize (O _ (stored_after_upload env _ img_type bytes b w)).
  assert (B1 : option_map bucket_name
                 (bucket (after_upload env
                            (path_of env store employee img_type)
                            img_type bytes b w))
               = Some (bucket_name b)).
  { unfold after_upload. cbv zeta. now destruct (make_public_ok env). }
  rewrite B1 in N.
  destruct (bucket w') as [b'|] eqn:B'; [|discriminate].
  simpl in N. injection N as N.
  exists b', (path_of env store employee img_type).
  split; [reflexivity|]. split; [now rewrite N|exact O].
Qed.

(** The steps behind a submission that appends a row. *)
Lemma submit_appended_steps (env : SubmitEnv) (f : FormState)
      (w w' : World) :
  submit env f w = (RecordAppended, w') ->
  exists w2 education_img poster_img education_url poster_url w3 w4
         display_url w5,
    validate f = [] /\
    handle_new_entities env f w = (true, w2) /\
    upload_image (env_education env) education_img (store_name f)
                 (employee_name f) "education" w2
    = (education_url, w3) /\
    upload_image (env_poster env) poster_img (store_name f)
                 (employee_name f) "poster" w3
    = (poster_url, w4) /\
    upload_display env f w4 = Some (display_url, w5) /\
    finish env f education_url poster_url display_url w5
    = (RecordAppended, w').
Proof.
  unfold submit.
  destruct (validate f) eqn:Hv; [|discriminate].
  unfold process.
  destruct (handle_new_entities env f w) as [[|] w2] eqn:Hh;
    [|discriminate].
  destruct (image_open (education_photo f)) as [education_img|];
    [|discriminate].
  destruct (image_open (poster_photo f)) as [poster_img|]; [|discriminate].
  unfold upload_required.
  destruct (upload_image (env_education env) education_img (store_name f)
              (employee_name f) "education" w2) as [eu w3] eqn:U1.
  destruct (upload_image (env_poster env) poster_img (store_name f)
              (employee_name f) "poster" w3) as [pu w4] eqn:U2.
  destruct (upload_display env f w4) as [[du w5]|] eqn:Hd;
    [|discriminate].
  intros F.
  exists w2, education_img, poster_img, eu, pu, w3, w4, du, w5.
  repeat split; auto.
Qed.

(** What the closing step leaves when it appends. *)
Lemma finish_appended (env : SubmitEnv) (f : FormState)
      (education_url poster_url display_url : option string)
      (w w' : World) :
  finish env f education_url poster_url display_url w
  = (RecordAppended, w') ->
  truthy education_url = true /\ truthy poster_url = true /\
  grows w w' /\
  exists ws,
    main_worksheet w = Some ws /\
    main_worksheet w'
    = Some (ws ++ [map cell_text
                       (row_data (build_data env f education_url poster_url
                                             display_url))])%list.
Proof.
  intros F.
  pose proof (finish_grows env f education_url poster_url display_url w)
    as G.
  rewrite F in G. simpl in G.
  unfold finish, save_data in F.
  destruct (truthy education_url); [|discriminate].
  destruct (truthy poster_url); [|discriminate]. cbn [andb] in F.
  destruct (main_worksheet w) as [ws|]; [|discriminate].
  destruct (append_row_ok (env_save env)); [|discriminate].
  injection F as <-. split; [reflexivity|]. split; [reflexivity|].
  split; [exact G|]. now exists ws.
Qed.

(** X12: an appended row has no dangling url.  The education and poster
    cells of the row each hold the public url, under the bucket's name,
    of an object that is in the bucket when the submission ends; so does
    the display cell whenever it is not empty. *)
Theorem appended_urls_are_stored
    (env : SubmitEnv) (f : FormState) (w w' : World) :
  submit env f w = (RecordAppended, w') ->
  exists ws row b,
    main_worksheet w' = Some (ws ++ [row])%list /\
    bucket w' = Some b /\
    (exists path, cell 3 row = public_url (bucket_name b) path
                  /\ stored path w' = true) /\
    (exists path, cell 4 row = public_url (bucket_name b) path
                  /\ stored path w' = true) /\
    (cell 6 row <> "" ->
     exists path, cell 6 row = public_url (bucket_name b) path
                  /\ stored path w' = true).
Proof.
  intros H.
  apply submit_appended_steps in H
    as (w2 & ei & pi & eu & pu & w3 & w4 & du & w5
        & _ & _ & U1 & U2 & Hd & F).
  apply finish_appended in F as (Te & Tp & G5 & ws & _ & M').
  apply truthy_some in Te as (eurl & -> & _).
  apply truthy_some in Tp as (purl & -> & _).
  pose proof (upload_display_grows _ _ _ _ _ Hd) as G4.
  pose proof (upload_image_grows (env_poster env) pi (store_name f)
                (employee_name f) "poster" w3) as G3.
  rewrite U2 in G3. simpl in G3.
  assert (Gp : grows w4 w') by (eapply grows_trans; eassumption).
  assert (Ge : grows w3 w') by (eapply grows_trans; eassumption).
  destruct (upload_image_url_stored _ _ _ _ _ _ _ _ _ U1 Ge)
    as (b & p3 & B & E3 & S3).
  destruct (upload_image_url_stored _ _ _ _ _ _ _ _ _ U2 Gp)
    as (b4 & p4 & B4 & E4 & S4).
  assert (b4 = b) by congruence. subst b4.
  exists ws, (map cell_text (row_data (build_data env f (Some eurl)
                                                  (Some purl) du))), b.
  split; [exact M'|]. split; [exact B|].
  split; [exists p3; split; [exact E3|exact S3]|].
  split; [exists p4; split; [exact E4|exact S4]|].
  unfold cell, build_data, row_data. cbn [map nth cell_text
    d_display_competition_photo_url].
  intros N.
  destruct (is_yes (participation f)) eqn:Y; [|now elim N].
  destruct du as [durl|]; [|now elim N]. simpl in N.
  unfold upload_display in Hd. rewrite Y in Hd.
  destruct (present (display_competition_photo f)); simpl in Hd;
    [|injection Hd as <- _; now elim N].
  destruct (image_open (display_competition_photo f)) as [img|];
    [|discriminate].
  injection Hd as Hd.
  destruct (upload_image_url_stored _ _ _ _ _ _ _ _ _ Hd G5)
    as (b6 & p6 & B6 & E6 & S6).
  assert (b6 = b) by congruence. subst b6.
  exists p6. split; [exact E6|exact S6].
Qed.

Lemma appended_urls_are_stored_witness :
  exists ws row b,
    main_worksheet (snd (submit (sample_env true true true) sample_form
                                sample_world))
    = Some (ws ++ [row])%list /\
    bucket (snd (submit (sample_env true true true) sample_form
                        sample_world)) = Some b /\
    cell 6 row <> "".
Proof.
  destruct (appended_urls_are_stored
              (sample_env true true true) sample_form sample_world _ eq_refl)
    as (ws & row & b & M & B & _).
  exists [main_headers],
    ["Main Store"; "Jane Doe"; "2025-03-07";
     "https://storage.googleapis.com/gramedia-display/gramedia-display/Main_Store/Jane_Doe/2025-03-07/education/140509_1234abcd.jpg";
     "https://storage.googleapis.com/gramedia-display/gramedia-display/Main_Store/Jane_Doe/2025-03-07/poster/140509_1234abcd.jpg";
     "Yes";
     "https://storage.googleapis.com/gramedia-display/gramedia-display/Main_Store/Jane_Doe/2025-03-07/display_competition/140509_1234abcd.jpg";
     ""; "2025-03-07 14:05:09"; "Submitted"], b.
  split; [reflexivity|]. split; [exact B|discriminate].
Defined.

(** ** The names of an appended row *)

Lemma check_nil (cond : bool) (msg : string) :
  check cond msg = [] <-> cond = false.
Proof. unfold check. destruct cond; split; congruence. Qed.

(** What a form without errors has. *)
Lemma valid_fields (f : FormState) :
  validate f = [] ->
  nonempty (strip (store_name f)) = true /\
  nonempty (strip (employee_name f)) = true /\
  present (education_photo f) = true /\
  present (poster_photo f) = true.
Proof.
  unfold validate. intros H.
  apply app_eq_nil in H as [H1 H]. apply app_eq_nil in H as [H2 H].
  apply app_eq_nil in H as [H3 H]. apply app_eq_nil in H as [H4 _].
  apply check_nil, negb_false_iff in H1, H2, H3, H4. auto.
Qed.

Lemma upload_display_sheets (env : SubmitEnv) (f : FormState)
      (w w' : World) (display_url : option string) :
  upload_display env f w = Some (display_url, w') ->
  store_worksheet w' = store_worksheet w /\
  employee_worksheet w' = employee_worksheet w.
Proof.
  unfold upload_display.
  destruct (_ && _)%bool; [|intros [= _ <-]; now split].
  destruct (image_open _) as [img|]; [|discriminate].
  intros [= E].
  pose proof (upload_image_keeps (env_display env) img (store_name f)
                (employee_name f) "display_competition" w) as K.
  rewrite E in K. simpl in K. tauto.
Qed.

Lemma finish_sheets (env : SubmitEnv) (f : FormState)
      (education_url poster_url display_url : option string) (w : World) :
  let w' := snd (finish env f education_url poster_url display_url w) in
  store_worksheet w' = store_worksheet w /\
  employee_worksheet w' = employee_worksheet w.
Proof.
  unfold finish, save_data. destruct (_ && _)%bool; [|now split].
  destruct (main_worksheet w); [|now split].
  destruct (append_row_ok (env_save env)); now split.
Qed.

(** After the catalogue step went through: a name entered as new is in
    its sheet, and a sheet whose select box was not on "new" is as it
    was. *)
Lemma handle_new_entities_listed (env : SubmitEnv) (f : FormState)
      (w w2 : World) :
  headed_by "Store_Name" (store_worksheet w) ->
  headed_by "Employee_Name" (employee_worksheet w) ->
  handle_new_entities env f w = (true, w2) ->
  (if String.eqb (store_select f) "+ New Store"
   then exists ss, store_worksheet w2 = Some ss /\
                   already_listed "Store_Name" (store_name f)
                                  (get_all_records ss) = true
   else store_worksheet w2 = store_worksheet w) /\
  (if String.eqb (employee_select f) "+ New Employee"
   then exists es, employee_worksheet w2 = Some es /\
                   already_listed "Employee_Name" (employee_name f)
                                  (get_all_records es) = true
   else employee_worksheet w2 = employee_worksheet w).
Proof.
  intros Hs He. unfold handle_new_entities.
  destruct (String.eqb (store_select f) "+ New Store").
  - destruct (add_store_to_sheet (env_store env) (store_name f) w)
      as [ok1 w1] eqn:A1.
    destruct ok1; [|discriminate]. simpl negb. cbv iota.
    destruct (add_store_sheets (env_store env) (store_name f) w) as [Ke _].
    rewrite A1 in Ke. simpl in Ke.
    apply add_store_listed_after in A1 as (ss & S1 & L1); [|exact Hs].
    destruct (String.eqb (employee_select f) "+ New Employee").
    + destruct (add_employee_to_sheet (env_employee env) (employee_name f)
                  w1) as [ok2 w2'] eqn:A2.
      destruct ok2; [|discriminate]. intros [= <-].
      destruct (add_employee_sheets (env_employee env) (employee_name f) w1)
        as [Ks _].
      rewrite A2 in Ks. simpl in Ks.
      apply add_employee_listed_after in A2; [|now rewrite Ke].
      split; [exists ss; split; [congruence|exact L1]|exact A2].
    + intros [= <-]. split; [now exists ss|exact Ke].
  - simpl negb. cbv iota.
    destruct (String.eqb (employee_select f) "+ New Employee").
    + destruct (add_employee_to_sheet (env_employee env) (employee_name f)
                  w) as [ok2 w2'] eqn:A2.
      destruct ok2; [|discriminate]. intros [= <-].
      destruct (add_employee_sheets (env_employee env) (employee_name f) w)
        as [Ks _].
      rewrite A2 in Ks. simpl in Ks.
      apply add_employee_listed_after in A2; [|exact He].
      split; [exact Ks|exact A2].
    + intros [= <-]. now split.
Qed.

(** A value held by a record of the sheet is listed. *)
Lemma looked_up_is_listed (column s : string) (records : list PyDict)
      (record : PyDict) :
  In record records -> dict_lookup column record = Some s ->
  already_listed column s records = true.
Proof.
  intros Hr L. unfold already_listed. apply existsb_exists.
  exists record. split; [exact Hr|].
  rewrite dict_get_lookup, L. apply String.eqb_refl.
Qed.

(** A name that was offered by the loaded lists is in its sheet. *)
Lemma loaded_names_listed (lenv : LoadEnv) (w : World) (s : string) :
  (In s (fst (fst (get_stores_and_employees lenv w))) ->
   exists ss, store_worksheet w = Some ss /\
              already_listed "Store_Name" s (get_all_records ss) = true) /\
  (In s (snd (fst (get_stores_and_employees lenv w))) ->
   exists es, employee_worksheet w = Some es /\
              already_listed "Employee_Name" s (get_all_records es) = true).
Proof.
  unfold get_stores_and_employees.
  destruct (load_names (store_records_ok lenv) "Store_Name"
              (store_worksheet w)) as [stores|] eqn:S;
    [|split; intros []].
  destruct (load_names (employee_records_ok lenv) "Employee_Name"
              (employee_worksheet w)) as [employees|] eqn:E;
    [|split; intros []].
  simpl. split; intros H.
  - apply load_names_sound in S as (_ & _ & _ & M).
    destruct (M s H) as (ss & r & Hs & Hr & L).
    exists ss. split; [exact Hs|]. eapply looked_up_is_listed; eassumption.
  - apply load_names_sound in E as (_ & _ & _ & M).
    destruct (M s H) as (es & r & Hs & Hr & L).
    exists es. split; [exact Hs|]. eapply looked_up_is_listed; eassumption.
Qed.

Lemma listed_stripped (column name : string) (records : list PyDict) :
  already_listed column name records = true ->
  already_listed column (strip name) records = true.
Proof.
  intros H. now rewrite (already_listed_strip column name (strip name)
                           (strip_strip name)).
Qed.

(** The store of a valid form is in the store sheet once the catalogue
    step went through. *)
Lemma selected_store_listed (env : SubmitEnv) (lenv : LoadEnv)
      (f : FormState) (w w2 : World) :
  headed_by "Store_Name" (store_worksheet w) ->
  headed_by "Employee_Name" (employee_worksheet w) ->
  In (store_select f)
     (store_options (fst (fst (get_stores_and_employees lenv w)))) ->
  nonempty (strip (store_name f)) = true ->
  handle_new_entities env f w = (true, w2) ->
  exists ss, store_worksheet w2 = Some ss /\
             already_listed "Store_Name" (strip (store_name f))
                            (get_all_records ss) = true.
Proof.
  intros Hs He O N Hh.
  destruct (handle_new_entities_listed env f w w2 Hs He Hh) as [L _].
  unfold store_name in *.
  destruct (String.eqb (store_select f) "+ New Store") eqn:Q.
  - destruct L as (ss & S & L). exists ss. split; [exact S|].
    now apply listed_stripped.
  - destruct (nonempty (store_select f)
              && negb (String.eqb (store_select f) "Select Store..."))
      eqn:C; [|discriminate].
    apply andb_true_iff in C as [_ C]. apply negb_true_iff in C.
    unfold store_options in O. simpl in O.
    destruct O as [O|O].
    + rewrite <- O in C. discriminate.
    + apply in_app_or in O as [O|[O|[]]].
      * apply loaded_names_listed in O as (ss & S & K).
        exists ss. split; [congruence|]. now apply listed_stripped.
      * rewrite <- O in Q. discriminate.
Qed.

Lemma selected_employee_listed (env : SubmitEnv) (lenv : LoadEnv)
      (f : FormState) (w w2 : World) :
  headed_by "Store_Name" (store_worksheet w) ->
  headed_by "Employee_Name" (employee_worksheet w) ->
  In (employee_select f)
     (employee_options (snd (fst (get_stores_and_employees lenv w)))) ->
  nonempty (strip (employee_name f)) = true ->
  handle_new_entities env f w = (true, w2) ->
  exists es, employee_worksheet w2 = Some es /\
             already_listed "Employee_Name" (strip (employee_name f))
                            (get_all_records es) = true.
Proof.
  intros Hs He O N Hh.
  destruct (handle_new_entities_listed env f w w2 Hs He Hh) as [_ L].
  unfold employee_name in *.
  destruct (String.eqb (employee_select f) "+ New Employee") eqn:Q.
  - destruct L as (es & S & L). exists es. split; [exact S|].
    now apply listed_stripped.
  - destruct (nonempty (employee_select f)
              && negb (String.eqb (employee_select f) "Select Employee..."))
      eqn:C; [|discriminate].
    apply andb_true_iff in C as [_ C]. apply negb_true_iff in C.
    unfold employee_options in O. simpl in O.
    destruct O as [O|O].
    + rewrite <- O in C. discriminate.
    + apply in_app_or in O as [O|[O|[]]].
      * apply loaded_names_listed in O as (es & S & K).
        exists es. split; [congruence|]. now apply listed_stripped.
      * rewrite <- O in Q. discriminate.
Qed.

(** X13: an appended row names only catalogued entities.  When the form
    comes out of select boxes filled from the catalogues as loaded in
    the state at hand, and each catalogue sheet starts with its column
    header, the store and the employee written in the appended row are
    both listed in their sheets when the submission ends, whether they
    were picked from the list or entered as new. *)
Theorem appended_names_are_catalogued
    (env : SubmitEnv) (lenv : LoadEnv) (f : FormState) (w w' : World) :
  headed_by "Store_Name" (store_worksheet w) ->
  headed_by "Employee_Name" (employee_worksheet w) ->
  offered (fst (fst (get_stores_and_employees lenv w)))
          (snd (fst (get_stores_and_employees lenv w))) f ->
  submit env f w = (RecordAppended, w') ->
  exists ws row ss es,
    main_worksheet w' = Some (ws ++ [row])%list /\
    store_worksheet w' = Some ss /\
    employee_worksheet w' = Some es /\
    nonempty (cell 0 row) = true /\ nonempty (cell 1 row) = true /\
    already_listed "Store_Name" (cell 0 row) (get_all_records ss) = true /\
    already_listed "Employee_Name" (cell 1 row) (get_all_records es) = true.
Proof.
  intros Hs He [Os Oe] H.
  apply submit_appended_steps in H
    as (w2 & ei & pi & eu & pu & w3 & w4 & du & w5
        & Hv & Hh & U1 & U2 & Hd & F).
  destruct (valid_fields f Hv) as (Ns & Ne & _).
  destruct (selected_store_listed env lenv f w w2 Hs He Os Ns Hh)
    as (ss & S2 & Ls).
  destruct (selected_employee_listed env lenv f w w2 Hs He Oe Ne Hh)
    as (es & E2 & Le).
  pose proof (upload_image_keeps (env_education env) ei (store_name f)
                (employee_name f) "education" w2) as K1.
  rewrite U1 in K1. simpl in K1. destruct K1 as (_ & S3 & E3 & _).
  pose proof (upload_image_keeps (env_poster env) pi (store_name f)
                (employee_name f) "poster" w3) as K2.
  rewrite U2 in K2. simpl in K2. destruct K2 as (_ & S4 & E4 & _).
  apply upload_display_sheets in Hd as [S5 E5].
  pose proof (finish_sheets env f eu pu du w5) as K6.
  rewrite F in K6. simpl in K6. destruct K6 as [S6 E6].
  apply finish_appended in F as (_ & _ & _ & ws & _ & M').
  exists ws, (map cell_text (row_data (build_data env f eu pu du))), ss, es.
  split; [exact M'|]. split; [congruence|]. split; [congruence|].
  unfold cell, build_data, row_data. simpl. auto.
Qed.

Lemma appended_names_are_catalogued_witness :
  exists ss,
    store_worksheet (snd (submit (sample_env true true true) sample_form
                                 sample_world)) = Some ss /\
    already_listed "Store_Name" "Main Store" (get_all_records ss) = true.
Proof.
  destruct (appended_names_are_catalogued
              (sample_env true true true) (mkLoadEnv true true)
              sample_form sample_world _
              (ex_intro _ [] (ex_intro _ [] eq_refl))
              (ex_intro _ [] (ex_intro _ [] eq_refl))
              (conj (or_intror (or_introl eq_refl))
                    (or_intror (or_introl eq_refl)))
              eq_refl)
    as (ws & row & ss & es & M & S & _).
  exists [["Store_Name"]; ["Main Store"]]. split; reflexivity.
Defined.

(** ** Select boxes left alone *)

Lemma invalid_writes_nothing (env : SubmitEnv) (f : FormState) (w : World)
      (msg : string) :
  In msg (validate f) ->
  fst (submit env f w) = Invalid (validate f) /\
  bucket (snd (submit env f w)) = bucket w /\
  main_worksheet (snd (submit env f w)) = main_worksheet w /\
  store_worksheet (snd (submit env f w)) = store_worksheet w /\
  employee_worksheet (snd (submit env f w)) = employee_worksheet w.
Proof.
  intros H. rewrite submit_invalid; [repeat split|].
  intros E. rewrite E in H. contradiction.
Qed.

(** X14: a select box left on its placeholder, or on "new" with a blank
    name typed in, blocks the submission: the matching "... name is
    required" message is reported, the outcome is [Invalid] and nothing
    is written.  The same holds for an entry of the catalogue that is
    itself spelled like the placeholder: it can be picked but never
    submitted. *)
Theorem unselected_name_is_rejected
    (env : SubmitEnv) (f : FormState) (w : World) :
  (store_select f = "Select Store..." \/ store_select f = ""
   \/ (store_select f = "+ New Store" /\ strip (new_store f) = "") ->
   In "Store name is required" (validate f) /\
   fst (submit env f w) = Invalid (validate f) /\
   bucket (snd (submit env f w)) = bucket w /\
   main_worksheet (snd (submit env f w)) = main_worksheet w /\
   store_worksheet (snd (submit env f w)) = store_worksheet w /\
   employee_worksheet (snd (submit env f w)) = employee_worksheet w) /\
  (employee_select f = "Select Employee..." \/ employee_select f = ""
   \/ (employee_select f = "+ New Employee"
       /\ strip (new_employee f) = "") ->
   In "Employee name is required" (validate f) /\
   fst (submit env f w) = Invalid (validate f) /\
   bucket (snd (submit env f w)) = bucket w /\
   main_worksheet (snd (submit env f w)) = main_worksheet w /\
   store_worksheet (snd (submit env f w)) = store_worksheet w /\
   employee_worksheet (snd (submit env f w)) = employee_worksheet w).
Proof.
  split; intros H.
  - assert (E : negb (nonempty (strip (store_name f))) = true).
    { unfold store_name. destruct H as [->|[->|[-> B]]]; simpl;
        [reflexivity|reflexivity|now rewrite B]. }
    assert (I : In "Store name is required" (validate f)) by reported.
    split; [exact I|]. now apply invalid_writes_nothing with (msg :=
      "Store name is required").
  - assert (E : negb (nonempty (strip (employee_name f))) = true).
    { unfold employee_name. destruct H as [->|[->|[-> B]]]; simpl;
        [reflexivity|reflexivity|now rewrite B]. }
    assert (I : In "Employee name is required" (validate f)) by reported.
    split; [exact I|]. now apply invalid_writes_nothing with (msg :=
      "Employee name is required").
Qed.

Lemma unselected_name_is_rejected_witness :
  fst (submit (sample_env true true true)
              (mkFormState "Select Store..." "" "+ New Employee" "   "
                           sample_clock (Some sample_file) (Some sample_file)
                           Yes (Some sample_file) "")
              sample_world)
  = Invalid ["Store name is required"; "Employee name is required"].
Proof.
  destruct (unselected_name_is_rejected
              (sample_env true true true)
              (mkFormState "Select Store..." "" "+ New Employee" "   "
                           sample_clock (Some sample_file) (Some sample_file)
                           Yes (Some sample_file) "")
              sample_world) as [H _].
  exact (proj1 (proj2 (H (or_introl eq_refl)))).
Defined.

(** ** Object paths *)

Lemma count_char_app (c : ascii) (a b : string) :
  count_char c (a ++ b) = count_char c a + count_char c b.
Proof.
  induction a as [|x a IH]; simpl; [reflexivity|]. rewrite IH. lia.
Qed.

Lemma count_char_none (p : ascii -> bool) (c : ascii) (s : string) :
  p c = false -> all_chars p s = true -> count_char c s = 0.
Proof.
  intros Hc. induction s as [|x s IH]; simpl; [reflexivity|].
  intros H. apply andb_true_iff in H as [Hx Hs].
  destruct (Ascii.eqb_spec x c) as [->|_]; [congruence|]. now rewrite IH.
Qed.

Lemma strftime_date_digits (d : Datetime) (c : ascii) :
  in_range 48 57 c = false -> Ascii.eqb "-"%char c = false ->
  count_char c (strftime_date d) = 0.
Proof.
  intros Hc Hh. unfold strftime_date.
  rewrite !count_char_app.
  rewrite !(count_char_none _ _ _ Hc (digits_fixed_decimal _ _)).
  cbn [count_char]. now rewrite Hh.
Qed.

Lemma strftime_time_digits (d : Datetime) (c : ascii) :
  in_range 48 57 c = false -> count_char c (strftime_time d) = 0.
Proof.
  intros Hc. unfold strftime_time.
  rewrite !count_char_app.
  now rewrite !(count_char_none _ _ _ Hc (digits_fixed_decimal _ _)).
Qed.

(** X15: the names typed by the user cannot add a folder level to the
    object path.  A cleaned name contains no character other than
    alphanumerics, hyphens and underscores (so no slash, no dot, no
    backslash, no blank), and the path has exactly five slashes besides
    those of the role tag: the object always sits five folders deep
    under gramedia-display/store/employee/date/role. *)
Theorem path_has_five_levels
    (env : UploadEnv) (store employee role : string) :
  (forall name c, clean_char c = false ->
                  count_char c (clean_name name) = 0) /\
  count_char "/" (path_of env store employee role)
  = 5 + count_char "/" role.
Proof.
  split.
  - intros name c Hc.
    exact (count_char_none _ _ _ Hc (clean_name_clean name)).
  - unfold path_of, object_path. rewrite !count_char_app.
    rewrite !(count_char_none clean_char "/" _ eq_refl (clean_name_clean _)).
    rewrite (strftime_date_digits _ "/" eq_refl eq_refl).
    rewrite (strftime_time_digits _ "/" eq_refl).
    rewrite (count_char_none is_hex_digit "/" _ eq_refl (unique_id_hex _)).
    simpl. lia.
Qed.

Lemma app_inv_head_str (a x y : string) : a ++ x = a ++ y -> x = y.
Proof.
  induction a as [|c a IH]; simpl; [auto|]. intros [= H]. auto.
Qed.

Lemma app_inv_length_str (a b x y : string) :
  String.length a = String.length b -> a ++ x = b ++ y -> x = y.
Proof.
  revert b. induction a as [|c a IH]; intros [|d b]; simpl;
    try discriminate; [auto|].
  intros [= L] [= _ H]. eauto.
Qed.

Lemma length_strftime_date (d : Datetime) :
  String.length (strftime_date d) = 10.
Proof.
  unfold strftime_date. rewrite !length_app, !length_digits_fixed.
  reflexivity.
Qed.

(** Two paths under the same names differ when their role tags differ
    at the first character. *)
Lemma path_of_roles (e1 e2 : UploadEnv) (store employee : string)
      (c1 c2 : ascii) (r1 r2 : string) :
  c1 <> c2 ->
  path_of e1 store employee (String c1 r1)
  <> path_of e2 store employee (String c2 r2).
Proof.
  intros N H. unfold path_of, object_path in H.
  apply (app_inv_head_str "gramedia-display/") in H.
  apply app_inv_head_str in H. apply (app_inv_head_str "/") in H.
  apply app_inv_head_str in H. apply (app_inv_head_str "/") in H.
  apply app_inv_length_str in H;
    [|now rewrite !length_strftime_date].
  simpl in H. injection H as H _. contradiction.
Qed.

(** X16: the photos of one submission never overwrite each other.  For
    the same store and employee, the paths built for the roles
    education, poster and display_competition are pairwise different,
    whatever the clock readings and the uuids are (also within the same
    second and with equal uuid prefixes). *)
Theorem roles_have_distinct_paths
    (e1 e2 : UploadEnv) (store employee : string) :
  path_of e1 store employee "education"
  <> path_of e2 store employee "poster" /\
  path_of e1 store employee "education"
  <> path_of e2 store employee "display_competition" /\
  path_of e1 store employee "poster"
  <> path_of e2 store employee "display_competition".
Proof.
  repeat split; apply path_of_roles; discriminate.
Qed.

(** ** Which pictures the normaliser takes *)

Lemma prepare_mode (image im : Image) :
  prepare image = Some im -> mode im = mode (flatten (exif_transpose image)).
Proof. unfold prepare. apply bound_size_mode. Qed.

Lemma exif_transpose_mode (image : Image) :
  mode (exif_transpose image) = mode image.
Proof. unfold exif_transpose. now destruct (_ && _)%bool. Qed.

(** The modes the encoder is handed and refuses. *)
Lemma refused_modes (image : Image) :
  jpeg_writable (mode (flatten (exif_transpose image))) = false
  <-> In (mode image) [M_LA; M_PA; M_I; M_I16; M_F].
Proof.
  rewrite flatten_mode, exif_transpose_mode.
  destruct (mode image); simpl; split; intros H;
    try discriminate; try reflexivity; auto 7;
    repeat (destruct H as [H|H]; try discriminate); contradiction.
Qed.

(** The short side of the computed size is at least one pixel exactly
    when the picture is at most 1920 times longer than wide. *)
Lemma new_size_positive (w h : Z) :
  (0 < w)%Z -> (0 < h)%Z ->
  (1 <= fst (new_size w h) /\ 1 <= snd (new_size w h))%Z
  <-> (Z.max w h <= 1920 * Z.min w h)%Z.
Proof.
  intros Hw Hh. unfold new_size.
  destruct (Z.gtb_spec w h) as [Wide|Tall]; cbn [fst snd].
  - replace (Z.max w h) with w by lia. replace (Z.min w h) with h by lia.
    split.
    + intros [_ Q].
      pose proof (Z.mul_div_le (1920 * h) w ltac:(lia)). nia.
    + intros Q. split; [lia|].
      apply Z.div_le_lower_bound; lia.
  - replace (Z.max w h) with h by lia. replace (Z.min w h) with w by lia.
    split.
    + intros [Q _].
      pose proof (Z.mul_div_le (1920 * w) h ltac:(lia)). nia.
    + intros Q. split; [|lia].
      apply Z.div_le_lower_bound; lia.
Qed.

(** X17: photos that are always refused.  A picture whose mode is one
    of LA, PA, I, I;16 and F, or whose longer side is above 1920 and
    more than 1920 times its (positive) shorter side, is never encoded:
    the normaliser fails on it, and [upload_image] returns [None],
    stores nothing and only reports the failure, whatever the names, the
    clock and the bucket.  (Nothing is said of the other pictures, whose
    data may still fail to load.) *)
Theorem refused_pictures_fail
    (env : UploadEnv) (image : Image) (store employee img_type : string)
    (w : World) :
  let iw := width (exif_transpose image) in
  let ih := height (exif_transpose image) in
  In (mode image) [M_LA; M_PA; M_I; M_I16; M_F]
  \/ (0 < iw /\ 0 < ih /\
      1920 < Z.max iw ih /\ 1920 * Z.min iw ih < Z.max iw ih)%Z ->
  normalize image = None /\
  upload_image env image store employee img_type w
  = (None,
     show LError (if present (bucket w) then "Image upload failed"
                  else "Storage bucket not connected") w).
Proof.
  intros iw ih H.
  assert (N : normalize image = None).
  { destruct (flatten_size (exif_transpose image)) as [Fw Fh].
    destruct H as [M|(Hw & Hh & Big & C)].
    - apply refused_modes in M. unfold normalize.
      destruct (prepare image) as [im|] eqn:P; [|reflexivity].
      unfold save_jpeg. now rewrite (prepare_mode _ _ P), M.
    - unfold normalize, prepare, bound_size. rewrite Fw, Fh. fold iw ih.
      assert (B : ((iw >? 1920) || (ih >? 1920))%Z = true).
      { apply orb_true_iff.
        destruct (Z.gtb_spec iw 1920), (Z.gtb_spec ih 1920); auto; lia. }
      rewrite B.
      destruct (new_size iw ih) as [nw nh] eqn:S. unfold resize.
      destruct ((1 <=? nw) && (1 <=? nh))%Z eqn:Q; [|reflexivity].
      apply andb_true_iff in Q as [Q1 Q2].
      apply Z.leb_le in Q1, Q2.
      pose proof (proj1 (new_size_positive iw ih Hw Hh)) as K.
      rewrite S in K. cbn [fst snd] in K. specialize (K (conj Q1 Q2)).
      lia. }
  split; [exact N|].
  unfold upload_image. destruct (bucket w); [|reflexivity].
  now rewrite N.
Qed.

Lemma refused_pictures_fail_witness :
  normalize (mkImage 1 4000 M_RGB 6) = None
  /\ upload_image (sample_upload true true) (mkImage 1 4000 M_RGB 6)
                  "Main Store" "Jane Doe" "poster" sample_world
     = (None, show LError "Image upload failed" sample_world).
Proof.
  apply (refused_pictures_fail (sample_upload true true)
           (mkImage 1 4000 M_RGB 6) "Main Store" "Jane Doe" "poster"
           sample_world).
  right. repeat split.
Defined.

Lemma resize_positive (nw nh : Z) (im im' : Image) :
  resize nw nh im = Some im' -> (1 <= nw /\ 1 <= nh)%Z.
Proof.
  unfold resize.
  destruct (Z.leb_spec 1 nw); [|discriminate].
  destruct (Z.leb_spec 1 nh); [|discriminate]. auto.
Qed.

(** The computed size is within the picture and within 1920. *)
Lemma new_size_shrinks (w h : Z) :
  (0 < w)%Z -> (0 < h)%Z -> (w > 1920 \/ h > 1920)%Z ->
  (fst (new_size w h) <= Z.min w 1920)%Z /\
  (snd (new_size w h) <= Z.min h 1920)%Z.
Proof.
  intros Hw Hh Big. unfold new_size.
  destruct (Z.gtb_spec w h) as [Wide|Tall]; cbn [fst snd].
  - assert ((1920 * h) / w <= h)%Z by (apply Z.div_le_upper_bound; nia).
    assert ((1920 * h) / w < 1920)%Z by (apply Z.div_lt_upper_bound; nia).
    lia.
  - assert ((1920 * w) / h <= w)%Z by (apply Z.div_le_upper_bound; nia).
    assert ((1920 * w) / h <= 1920)%Z by (apply Z.div_le_upper_bound; nia).
    lia.
Qed.

Lemma bound_size_positive (im im' : Image) :
  (0 < width im)%Z -> (0 < height im)%Z ->
  bound_size im = Some im' ->
  (1 <= width im' <= Z.min (width im) 1920)%Z /\
  (1 <= height im' <= Z.min (height im) 1920)%Z.
Proof.
  intros Hw Hh. unfold bound_size.
  destruct ((width im >? 1920) || (height im >? 1920))%Z eqn:B.
  - assert (Big : (width im > 1920 \/ height im > 1920)%Z).
    { apply orb_true_iff in B as [B|B]; apply Z.gtb_lt in B; lia. }
    pose proof (new_size_shrinks _ _ Hw Hh Big) as [Sw Sh].
    destruct (new_size (width im) (height im)) as [nw nh].
    cbn [fst snd] in Sw, Sh. intros E.
    destruct (resize_positive _ _ _ _ E) as [Pw Ph].
    apply resize_size in E as [-> ->]. lia.
  - apply orb_false_iff in B as [B1 B2].
    destruct (Z.gtb_spec (width im) 1920); [discriminate|].
    destruct (Z.gtb_spec (height im) 1920); [discriminate|].
    intros [= <-]. lia.
Qed.

(** X18: what is encoded is never larger than the picture and never
    larger than 1920 on a side.  For a picture of positive size, the
    encoded width and height are at least one pixel, at most the
    picture's own (after the orientation is corrected) and at most 1920;
    the quality is 85 with the encoder's optimisation on. *)
Theorem normalize_never_enlarges (image : Image) (out : Jpeg) :
  let w := width (exif_transpose image) in
  let h := height (exif_transpose image) in
  (0 < w)%Z -> (0 < h)%Z ->
  normalize image = Some out ->
  (1 <= jpeg_width out <= Z.min w 1920)%Z /\
  (1 <= jpeg_height out <= Z.min h 1920)%Z /\
  jpeg_quality out = 85%Z /\ jpeg_optimize out = true.
Proof.
  intros w h Hw Hh N.
  apply normalize_prepare in N as (im & P & _ & ->).
  cbn [jpeg_width jpeg_height jpeg_quality jpeg_optimize].
  unfold prepare in P.
  destruct (flatten_size (exif_transpose image)) as [Fw Fh].
  apply bound_size_positive in P; rewrite ?Fw, ?Fh in *; fold w h in P;
    try assumption.
  tauto.
Qed.

Lemma normalize_never_enlarges_witness :
  normalize (mkImage 1000 5000 M_P 1)
  = Some (mkJpeg 384 1920 M_RGB 85 true)
  /\ (1 <= 384 <= Z.min 1000 1920)%Z.
Proof.
  split; [reflexivity|].
  exact (proj1 (normalize_never_enlarges
                  (mkImage 1000 5000 M_P 1)
                  (mkJpeg 384 1920 M_RGB 85 true)
                  eq_refl eq_refl eq_refl)).
Defined.

(** ** What a valid form is *)

Lemma present_not_none {A : Type} (v : option A) :
  present v = true <-> v <> None.
Proof. destruct v; simpl; split; congruence. Qed.

(** X19: the forms that pass validation are exactly those with a store
    name and an employee name that are not blank, an education photo, a
    poster photo, and either the answer "Yes" with a display photo or
    the answer "No" with a reason that is not blank. *)
Theorem validate_passes_iff (f : FormState) :
  validate f = []
  <-> nonempty (strip (store_name f)) = true /\
      nonempty (strip (employee_name f)) = true /\
      education_photo f <> None /\
      poster_photo f <> None /\
      match participation f with
      | Yes => display_photo f <> None
      | No => nonempty (strip (reason_input f)) = true
      | SelectPlaceholder => False
      end.
Proof.
  rewrite <- !present_not_none. split.
  - intros H. destruct (valid_fields f H) as (S & E & P1 & P2).
    repeat (split; [assumption|]).
    unfold validate in H. do 4 (apply app_eq_nil in H as [_ H]).
    apply app_eq_nil in H as [H5 H]. apply app_eq_nil in H as [H6 H7].
    unfold check, display_competition_photo, non_participation_reason in *.
    destruct (participation f); simpl in *.
    + discriminate.
    + apply present_not_none.
      destruct (present (display_photo f)); [reflexivity|discriminate].
    + destruct (nonempty (strip (reason_input f)));
        [reflexivity|discriminate].
  - intros (S & E & P1 & P2 & C).
    unfold validate, check, display_competition_photo,
      non_participation_reason.
    rewrite S, E, P1, P2. simpl.
    destruct (participation f); simpl.
    + contradiction.
    + apply present_not_none in C. now rewrite C.
    + now rewrite C.
Qed.

(** X20: validation reports nothing that is not wrong: every message in
    the list belongs to a rule that the form breaks; and since the three
    answers exclude each other, the list never has more than five
    messages. *)
Theorem validate_reports_only_violations (f : FormState) :
  (forall msg,
      In msg (validate f) ->
      (msg = "Store name is required"
       /\ nonempty (strip (store_name f)) = false) \/
      (msg = "Employee name is required"
       /\ nonempty (strip (employee_name f)) = false) \/
      (msg = "Education photo is required" /\ education_photo f = None) \/
      (msg = "Poster photo is required" /\ poster_photo f = None) \/
      (msg = "Please select participation status"
       /\ participation f = SelectPlaceholder) \/
      (msg = "Display competition photo is required when participating"
       /\ participation f = Yes /\ display_photo f = None) \/
      (msg = "Reason is required when not participating"
       /\ participation f = No
       /\ nonempty (strip (reason_input f)) = false)) /\
  List.length (validate f) <= 5.
Proof.
  split.
  - intros msg H. unfold validate in H.
    repeat (apply in_app_or in H as [H|H]);
      unfold check, display_competition_photo, non_participation_reason
        in H.
    + destruct (nonempty (strip (store_name f))); simpl in H;
        [contradiction|]. destruct H as [<-|[]]. auto.
    + destruct (nonempty (strip (employee_name f))); simpl in H;
        [contradiction|]. destruct H as [<-|[]]. auto.
    + destruct (education_photo f); simpl in H; [contradiction|].
      destruct H as [<-|[]]. auto 6.
    + destruct (poster_photo f); simpl in H; [contradiction|].
      destruct H as [<-|[]]. auto 7.
    + destruct (participation f); simpl in H; try contradiction.
      destruct H as [<-|[]]. auto 8.
    + destruct (participation f); simpl in H; try contradiction.
      destruct (display_photo f); simpl in H; [contradiction|].
      destruct H as [<-|[]]. auto 10.
    + destruct (participation f); simpl in H; try contradiction.
      destruct (nonempty (strip (reason_input f))); simpl in H;
        [contradiction|].
      destruct H as [<-|[]]. auto 11.
  - unfold validate, check, display_competition_photo,
      non_participation_reason.
    destruct (nonempty (strip (store_name f))),
      (nonempty (strip (employee_name f))),
      (present (education_photo f)), (present (poster_photo f)),
      (participation f); simpl;
      try destruct (present (display_photo f));
      try destruct (nonempty (strip (reason_input f))); simpl; lia.
Qed.

(** ** Objects and rows together *)

Lemma stored_named (path : string) (w : World) :
  stored path w = true <-> In path (object_names w).
Proof.
  unfold stored, object_names, find_blob.
  destruct (bucket w) as [b|]; [|split; [discriminate|contradiction]].
  induction (blobs b) as [|o l IH]; simpl.
  - split; [discriminate|contradiction].
  - destruct (String.eqb_spec (blob_name o) path) as [E|N].
    + split; auto.
    + rewrite IH. split; [auto|intros [E|H]; [contradiction|exact H]].
Qed.

Lemma object_count_bucket (w w' : World) :
  bucket w' = bucket w -> object_count w' = object_count w.
Proof. unfold object_count, object_names. now intros ->. Qed.

Lemma fresh_bucket (path : string) (w w' : World) :
  bucket w' = bucket w -> fresh path w' = fresh path w.
Proof. unfold fresh, stored. now intros ->. Qed.

(** A write adds an object unless the name is taken. *)
Lemma object_count_put (o : Blob) (b : Bucket) (w : World) :
  bucket w = Some b ->
  object_count (set_bucket (put_blob o b) w)
  = object_count w + fresh (blob_name o) w.
Proof.
  intros B. unfold object_count, fresh.
  pose proof (stored_named (blob_name o) w) as S.
  unfold object_names in *. rewrite B in *. cbn [set_bucket bucket put_blob
    blobs map nodup].
  destruct (in_dec string_dec (blob_name o) (map blob_name (blobs b)))
    as [I|I].
  - apply S in I. rewrite I. lia.
  - destruct (stored (blob_name o) w); [now elim I; apply S|].
    simpl. lia.
Qed.

Lemma fresh_put_other (path : string) (o : Blob) (b : Bucket) (w : World) :
  bucket w = Some b -> path <> blob_name o ->
  fresh path (set_bucket (put_blob o b) w) = fresh path w.
Proof.
  intros B N. unfold fresh, stored, find_blob. rewrite B. simpl.
  destruct (String.eqb_spec (blob_name o) path) as [E|_]; [|reflexivity].
  now elim N.
Qed.

Lemma upload_image_count (env : UploadEnv) (image : Image)
      (store employee img_type : string) (w : World) :
  let result := upload_image env image store employee img_type w in
  object_count (snd result)
  = object_count w
    + (if present (fst result)
       then fresh (path_of env store employee img_type) w else 0).
Proof.
  cbv zeta. unfold upload_image.
  destruct (bucket w) as [b|] eqn:B;
    [|simpl; rewrite (object_count_bucket w (show _ _ w)); [lia|reflexivity]].
  destruct (normalize image) as [img_bytes|];
    [|simpl; rewrite (object_count_bucket w (show _ _ w)); [lia|reflexivity]].
  destruct (upload_from_file_ok env);
    [|simpl; rewrite (object_count_bucket w (show _ _ w)); [lia|reflexivity]].
  cbv zeta. cbn [fst snd present].
  pose proof (object_count_put
                (mkBlob (path_of env store employee img_type) img_bytes
                        "image/jpeg" (make_public_ok env)) b w B) as Q.
  cbn [blob_name] in Q. rewrite <- Q.
  destruct (make_public_ok env); now apply object_count_bucket.
Qed.

Lemma upload_image_fresh (env : UploadEnv) (image : Image)
      (store employee img_type path : string) (w : World) :
  path <> path_of env store employee img_type ->
  fresh path (snd (upload_image env image store employee img_type w))
  = fresh path w.
Proof.
  intros N. unfold upload_image.
  destruct (bucket w) as [b|] eqn:B; [|reflexivity].
  destruct (normalize image) as [img_bytes|]; [|reflexivity].
  destruct (upload_from_file_ok env); [|reflexivity].
  cbv zeta. cbn [snd].
  pose proof (fresh_put_other path
                (mkBlob (path_of env store employee img_type) img_bytes
                        "image/jpeg" (make_public_ok env)) b w B N) as Q.
  rewrite <- Q.
  destruct (make_public_ok env); now apply fresh_bucket.
Qed.

(** X21: a successful submission leaves no stray object.  When a row is
    appended, the education and poster cells are filled, and the bucket
    has gained exactly one object for each filled url cell whose object
    name was not taken before the submission (the education and the
    poster one, and the display one when that cell is not empty); a
    name that was taken still names one object.  Objects are counted by
    name, as the bucket holds them. *)
Theorem appended_objects_match_urls
    (env : SubmitEnv) (f : FormState) (w w' : World) :
  submit env f w = (RecordAppended, w') ->
  exists ws row,
    main_worksheet w' = Some (ws ++ [row])%list /\
    nonempty (cell 3 row) = true /\ nonempty (cell 4 row) = true /\
    object_count w'
    = object_count w
      + fresh (path_of (env_education env) (store_name f) (employee_name f)
                       "education") w
      + fresh (path_of (env_poster env) (store_name f) (employee_name f)
                       "poster") w
      + (if nonempty (cell 6 row)
         then fresh (path_of (env_display env) (store_name f)
                             (employee_name f) "display_competition") w
         else 0).
Proof.
  intros H.
  apply submit_appended_steps in H
    as (w2 & ei & pi & eu & pu & w3 & w4 & du & w5
        & _ & Hh & U1 & U2 & Hd & F).
  pose proof (handle_new_entities_keeps env f w) as [B2 _].
  rewrite Hh in B2. simpl in B2.
  pose proof (object_count_bucket _ _ B2) as C2.
  pose proof (upload_image_count (env_education env) ei (store_name f)
                (employee_name f) "education" w2) as C3.
  rewrite U1 in C3. cbn [fst snd] in C3.
  rewrite (fresh_bucket _ _ _ B2) in C3.
  pose proof (upload_image_count (env_poster env) pi (store_name f)
                (employee_name f) "poster" w3) as C4.
  rewrite U2 in C4. cbn [fst snd] in C4.
  assert (F4 : forall e t, t = "poster" \/ t = "display_competition" ->
             fresh (path_of e (store_name f) (employee_name f) t) w3
             = fresh (path_of e (store_name f) (employee_name f) t) w).
  { intros e t Ht.
    rewrite <- (fresh_bucket _ _ _ B2).
    replace w3 with (snd (upload_image (env_education env) ei (store_name f)
                            (employee_name f) "education" w2))
      by now rewrite U1.
    apply upload_image_fresh.
    destruct Ht as [-> | ->]; apply path_of_roles; discriminate. }
  rewrite (F4 _ "poster" (or_introl eq_refl)) in C4.
  assert (F5 : fresh (path_of (env_display env) (store_name f)
                              (employee_name f) "display_competition") w4
               = fresh (path_of (env_display env) (store_name f)
                                (employee_name f) "display_competition") w).
  { rewrite <- (F4 _ "display_competition" (or_intror eq_refl)).
    replace w4 with (snd (upload_image (env_poster env) pi (store_name f)
                            (employee_name f) "poster" w3))
      by now rewrite U2.
    apply upload_image_fresh. apply path_of_roles. discriminate. }
  assert (C6 : object_count w' = object_count w5).
  { apply object_count_bucket. unfold finish, save_data in F.
    destruct (_ && _)%bool; [|discriminate].
    destruct (main_worksheet w5); [|discriminate].
    destruct (append_row_ok (env_save env)); [|discriminate].
    now injection F as <-. }
  apply finish_appended in F as (Te & Tp & _ & ws & _ & M').
  apply truthy_some in Te as (eurl & -> & Ne).
  apply truthy_some in Tp as (purl & -> & Np).
  exists ws, (map cell_text (row_data (build_data env f (Some eurl)
                                                  (Some purl) du))).
  split; [exact M'|].
  unfold cell, build_data, row_data.
  cbn [map nth cell_text d_display_competition_photo_url
       d_education_photo_url d_poster_photo_url].
  split; [destruct eurl; [now elim Ne|reflexivity]|].
  split; [destruct purl; [now elim Np|reflexivity]|].
  cbn [present] in C3, C4.
  unfold upload_display in Hd.
  destruct (is_yes (participation f)) eqn:Y; simpl in Hd.
  - destruct (present (display_competition_photo f)); simpl in Hd.
    + destruct (image_open (display_competition_photo f)) as [img|];
        [|discriminate].
      injection Hd as Hd.
      pose proof (upload_image_count (env_display env) img (store_name f)
                    (employee_name f) "display_competition" w4) as C5.
      pose proof (upload_image_truthy (env_display env) img (store_name f)
                    (employee_name f) "display_competition" w4) as T5.
      rewrite Hd in C5, T5. cbn [fst snd] in C5, T5. rewrite F5 in C5.
      assert (N : nonempty (cell_text du) = present du).
      { rewrite <- T5. now destruct du as [[|c s]|]. }
      rewrite N. destruct (present du); lia.
    + injection Hd as <- <-. simpl. lia.
  - injection Hd as <- <-. simpl. lia.
Qed.

Lemma appended_objects_match_urls_witness :
  object_count (snd (submit (sample_env true true false) sample_form
                            sample_world)) = 2
  /\ object_count (snd (submit (sample_env true true true) sample_form
                               sample_world)) = 3.
Proof.
  split; [|reflexivity].
  destruct (appended_objects_match_urls
              (sample_env true true false) sample_form sample_world _
              eq_refl) as (ws & row & _ & _ & _ & C).
  reflexivity.
Defined.

(** ** No silent ending *)

Lemma last_show (l : Level) (t : string) (w : World) (d : Message) :
  last (shown (show l t w)) d = mkMessage l t.
Proof. simpl. apply last_last. Qed.

(** The part of [process] after the catalogue adds. *)
Lemma process_tail_tells (env : SubmitEnv) (f : FormState) (w2 : World) :
  let result :=
    match image_open (education_photo f), image_open (poster_photo f) with
    | Some education_img, Some poster_img =>
        let '((education_url, poster_url), w4) :=
          upload_required env f education_img poster_img w2 in
        match upload_display env f w4 with
        | Some (display_url, w5) =>
            finish env f education_url poster_url display_url w5
        | None => (Crashed, show LError "Error processing submission" w4)
        end
    | _, _ => (Crashed, show LError "Error processing submission" w2)
    end in
  match fst result with
  | Invalid errors => False
  | Stopped => False
  | Crashed =>
      last (shown (snd result)) (mkMessage LInfo "")
      = mkMessage LError "Error processing submission"
  | UploadFailed =>
      last (shown (snd result)) (mkMessage LInfo "")
      = mkMessage LError "Failed to upload images"
  | AppendFailed =>
      last (shown (snd result)) (mkMessage LInfo "")
      = mkMessage LError "Failed to save data to spreadsheet"
  | RecordAppended =>
      last (shown (snd result)) (mkMessage LInfo "")
      = mkMessage LMarkdown (success_text f)
  end /\
  (last (shown (snd result)) (mkMessage LInfo "")
   = mkMessage LMarkdown (success_text f)
   <-> fst result = RecordAppended).
Proof.
  cbv zeta.
  destruct (image_open (education_photo f)) as [education_img|];
    [|cbn [fst snd]; rewrite last_show; split;
      [reflexivity|split; discriminate]].
  destruct (image_open (poster_photo f)) as [poster_img|];
    [|cbn [fst snd]; rewrite last_show; split;
      [reflexivity|split; discriminate]].
  destruct (upload_required env f education_img poster_img w2)
    as [[eu pu] w4].
  destruct (upload_display env f w4) as [[du w5]|];
    [|cbn [fst snd]; rewrite last_show; split;
      [reflexivity|split; discriminate]].
  unfold finish.
  destruct (truthy eu && truthy pu);
    [|cbn [fst snd]; rewrite last_show; split;
      [reflexivity|split; discriminate]].
  destruct (save_data (env_save env) (build_data env f eu pu du) w5)
    as [[|] w6]; cbn [fst snd]; rewrite last_show; split;
    try reflexivity; split; try discriminate; reflexivity.
Qed.

Ltac tail_tells env f w :=
  let T := fresh "T" in
  let H1 := fresh "H" in
  let H2 := fresh "H" in
  pose proof (process_tail_tells env f w) as T; cbv zeta in T;
  destruct T as [H1 H2]; split; [|exact H2];
  destruct (fst _); try contradiction; exact H1.

(** X22: a press of the submit button never ends silently, and the
    message the log ends with tells how it ended.  An invalid form ends
    with the box listing exactly the violations found; a stopped
    submission with "Failed to add store" (only when a new store was
    being added) or "Failed to add employee" (only when a new employee
    was); a crash with "Error processing submission" (the exception's
    text left out); a failed upload with "Failed to upload images"; a
    failed append with "Failed to save data to spreadsheet"; and an
    appended row with the success box for the participation chosen
    (the pictures and the summary the page displays after the box are
    not part of the log).  The success box closes the log exactly when
    the row was appended. *)
Theorem submit_always_tells (env : SubmitEnv) (f : FormState) (w : World) :
  let result := submit env f w in
  match fst result with
  | Invalid errors =>
      errors = validate f /\ errors <> [] /\
      closing (snd result)
      = mkMessage LMarkdown ("Please complete: " ++ join_errors errors)
  | Stopped =>
      (store_select f = "+ New Store" /\
       closing (snd result) = mkMessage LError "Failed to add store") \/
      (employee_select f = "+ New Employee" /\
       closing (snd result) = mkMessage LError "Failed to add employee")
  | Crashed =>
      closing (snd result) = mkMessage LError "Error processing submission"
  | UploadFailed =>
      closing (snd result) = mkMessage LError "Failed to upload images"
  | AppendFailed =>
      closing (snd result)
      = mkMessage LError "Failed to save data to spreadsheet"
  | RecordAppended =>
      closing (snd result) = mkMessage LMarkdown (success_text f)
  end /\
  (closing (snd result) = mkMessage LMarkdown (success_text f)
   <-> fst result = RecordAppended).
Proof.
  assert (P : forall t, mkMessage LMarkdown ("Please complete: " ++ t)
                        <> mkMessage LMarkdown (success_text f)).
  { intros t. unfold success_text.
    destruct (is_yes (participation f)); discriminate. }
  cbv zeta. unfold submit, closing.
  destruct (validate f) as [|e errors] eqn:V.
  - unfold process, handle_new_entities.
    destruct (String.eqb (store_select f) "+ New Store") eqn:S1.
    + apply String.eqb_eq in S1.
      destruct (add_store_to_sheet (env_store env) (store_name f) w)
        as [[|] w1]; simpl negb; cbv iota.
      * destruct (String.eqb (employee_select f) "+ New Employee") eqn:S2.
        -- apply String.eqb_eq in S2.
           destruct (add_employee_to_sheet (env_employee env)
                       (employee_name f) w1) as [[|] w2];
             simpl negb; cbv iota.
           ++ tail_tells env f w2.
           ++ cbn [fst snd]. rewrite last_show. split.
              ** right. now split.
              ** split; discriminate.
        -- tail_tells env f w1.
      * cbn [fst snd]. rewrite last_show. split.
        -- left. now split.
        -- split; discriminate.
    + simpl negb. cbv iota.
      destruct (String.eqb (employee_select f) "+ New Employee") eqn:S2.
      * apply String.eqb_eq in S2.
        destruct (add_employee_to_sheet (env_employee env)
                    (employee_name f) w) as [[|] w2];
          simpl negb; cbv iota.
        -- tail_tells env f w2.
        -- cbn [fst snd]. rewrite last_show. split.
           ++ right. now split.
           ++ split; discriminate.
      * tail_tells env f w.
  - cbn [fst snd]. rewrite last_show. split.
    + repeat split. discriminate.
    + split; [intros H; now apply P in H|discriminate].
Qed.

(** ** The object path, segment by segment *)

Lemma join_filter_join_filter (p q : ascii -> bool) (s : string) :
  (forall c, p c = true -> q c = true) ->
  join_filter p (join_filter q s) = join_filter p s.
Proof.
  intros Hpq. induction s as [|c s IH]; simpl; [reflexivity|].
  destruct (q c) eqn:Q; simpl.
  - now rewrite IH.
  - destruct (p c) eqn:P; [|exact IH].
    apply Hpq in P. congruence.
Qed.

Lemma join_filter_lstrip (p : ascii -> bool) (s : string) :
  (forall c, isspace c = true -> p c = false) ->
  join_filter p (lstrip s) = join_filter p s.
Proof.
  intros Hp. induction s as [|c s IH]; simpl; [reflexivity|].
  destruct (isspace c) eqn:W; [|reflexivity].
  now rewrite (Hp _ W).
Qed.

Lemma join_filter_rstrip (p : ascii -> bool) (s : string) :
  (forall c, isspace c = true -> p c = false) ->
  join_filter p (rstrip s) = join_filter p s.
Proof.
  intros Hp. induction s as [|c s IH]; simpl; [reflexivity|].
  destruct (rstrip s) as [|d t] eqn:R.
  - destruct (isspace c) eqn:W.
    + now rewrite (Hp _ W), <- IH.
    + simpl. now rewrite <- IH.
  - simpl join_filter at 1. simpl in IH. now rewrite IH.
Qed.

Lemma join_filter_replace (p : ascii -> bool) (old new : ascii)
      (s : string) :
  p old = false -> p new = false ->
  join_filter p (replace old new s) = join_filter p s.
Proof.
  intros Ho Hn. induction s as [|c s IH]; simpl; [reflexivity|].
  destruct (Ascii.eqb_spec c old) as [->|_].
  - now rewrite Ho, Hn.
  - now rewrite IH.
Qed.

Lemma solid_kept (c : ascii) : solid c = true -> kept c = true.
Proof. each_char c. Qed.

Lemma isspace_not_solid (c : ascii) : isspace c = true -> solid c = false.
Proof. each_char c. Qed.

(** Cleaning keeps every alphanumeric and every hyphen of the name, in
    order, and adds none. *)
Lemma clean_name_solid (name : string) :
  join_filter solid (clean_name name) = join_filter solid name.
Proof.
  unfold clean_name.
  rewrite join_filter_replace by reflexivity.
  unfold strip.
  rewrite join_filter_lstrip by apply isspace_not_solid.
  rewrite join_filter_rstrip by apply isspace_not_solid.
  apply join_filter_join_filter, solid_kept.
Qed.

(** C4: when [upload_image] returns a url, the object was stored under
    gramedia-display/<clean store>/<clean employee>/<YYYY-MM-DD>/<role>/<HHMMSS>_<uid>.jpg
    with content type image/jpeg, where the date and the time are the
    clock's readings in digits, <uid> is the first eight characters of
    the uuid drawn, all hexadecimal digits, and each of the two name
    segments is the name cleaned: made
    of alphanumerics, hyphens and underscores only, with the
    alphanumerics and hyphens of the name kept in order, so that the
    path has five slashes besides those of the role.  The url is
    https://storage.googleapis.com/<bucket name>/<path>: fixed by the
    bucket name and the path, with nothing signed or expiring in it. *)
Theorem upload_path_and_url
    (env : UploadEnv) (image : Image) (store employee role : string)
    (w w' : World) (url : string) :
  upload_image env image store employee role w = (Some url, w') ->
  exists (b : Bucket) (yyyy mm dd hhmmss uid path : string) (o : Blob),
    bucket w = Some b /\
    path = "gramedia-display/" ++ clean_name store ++ "/"
           ++ clean_name employee ++ "/"
           ++ (yyyy ++ "-" ++ mm ++ "-" ++ dd) ++ "/" ++ role ++ "/"
           ++ hhmmss ++ "_" ++ uid ++ ".jpg" /\
    (all_chars clean_char (clean_name store) = true /\
     all_chars clean_char (clean_name employee) = true /\
     join_filter solid (clean_name store) = join_filter solid store /\
     join_filter solid (clean_name employee) = join_filter solid employee /\
     count_char "/" path = 5 + count_char "/" role) /\
    (String.length yyyy = 4 /\ String.length mm = 2 /\ String.length dd = 2
     /\ String.length hhmmss = 6
     /\ all_chars (in_range 48 57) (yyyy ++ mm ++ dd ++ hhmmss) = true
     /\ yyyy ++ "-" ++ mm ++ "-" ++ dd = strftime_date (now_date env)
     /\ hhmmss = strftime_time (now_time env)) /\
    (String.length uid = 8 /\ all_chars is_hex_digit uid = true
     /\ uid = unique_id (uuid4 env)) /\
    url = "https://storage.googleapis.com/" ++ bucket_name b ++ "/" ++ path /\
    (option_map bucket_name (bucket w') = Some (bucket_name b)
     /\ option_map (find_blob path) (bucket w') = Some (Some o)
     /\ blob_name o = path /\ blob_content_type o = "image/jpeg").
Proof.
  intros H.
  apply upload_image_some in H as (b & img_bytes & Hb & Hn & Hu & -> & ->).
  exists b, (digits_fixed 10 4 (year (now_date env))),
    (digits_fixed 10 2 (month (now_date env))),
    (digits_fixed 10 2 (day (now_date env))),
    (strftime_time (now_time env)), (unique_id (uuid4 env)),
    (path_of env store employee role),
    (mkBlob (path_of env store employee role) img_bytes "image/jpeg"
            (make_public_ok env)).
  split; [exact Hb|]. split; [reflexivity|].
  split; [|split; [|split; [|split]]].
  - split; [apply clean_name_clean|]. split; [apply clean_name_clean|].
    split; [apply clean_name_solid|]. split; [apply clean_name_solid|].
    unfold path_of, object_path. rewrite !count_char_app.
    rewrite !(count_char_none clean_char "/" _ eq_refl (clean_name_clean _)).
    rewrite (strftime_date_digits _ "/" eq_refl eq_refl).
    rewrite (strftime_time_digits _ "/" eq_refl).
    rewrite (count_char_none is_hex_digit "/" _ eq_refl (unique_id_hex _)).
    simpl. lia.
  - unfold strftime_time.
    rewrite !length_app, !length_digits_fixed, !all_chars_app,
      !digits_fixed_decimal.
    repeat split.
  - split; [apply unique_id_length|]. split; [apply unique_id_hex|].
    reflexivity.
  - reflexivity.
  - unfold after_upload. cbv zeta.
    destruct (make_public_ok env); simpl; unfold find_blob; simpl;
      rewrite String.eqb_refl; repeat split.
Qed.

Lemma upload_path_and_url_witness :
  exists w',
    upload_image (sample_upload true true) sample_image
                 "  Main Store #1/x " "Jane (Doe)" "poster" sample_world
    = (Some "https://storage.googleapis.com/gramedia-display/gramedia-display/Main_Store_1x/Jane_Doe/2025-03-07/poster/140509_1234abcd.jpg",
       w')
    /\ all_chars clean_char (clean_name "  Main Store #1/x ") = true
    /\ join_filter solid (clean_name "  Main Store #1/x ") = "MainStore1x".
Proof.
  eexists. split; [reflexivity|].
  destruct (upload_path_and_url
              (sample_upload true true) sample_image
              "  Main Store #1/x " "Jane (Doe)" "poster" sample_world _ _
              eq_refl)
    as (b & _ & _ & _ & _ & _ & _ & _ & _ & _ & (C & _ & S & _) & _).
  split; [exact C|exact S].
Defined.
